(** * The record-and-ledger core of [human_resources.py] ([EnhancedERP])

    A shallow embedding of the data-access core of the ERP application:
    the tables of [create_tables], the session held in [current_user] and
    [user_permissions], and the operations [hash_password], [do_login],
    [logout], [save_customer], [delete_customer], [update_order_status] and
    the queries of [load_dashboard_data].

    Conventions of the embedding.
    - Every table is the list of its rows in rowid order.  TEXT columns are
      strings (byte strings, compared bytewise as SQLite's BINARY collation
      does), INTEGER columns are [Z], REAL columns are exact rationals [Q],
      nullable columns are options.
    - The connection is a pair: [conn], the database as the connection sees
      it (pending changes included), and [committed], the database as of the
      last [commit()].  A statement that raises leaves the earlier statements
      of the same operation pending, as [sqlite3] does.
    - [datetime.now()] is an argument [now] of the operation; the answers
      of [askyesno] and the selection of the tree view are arguments too.
    - Successive calls of [datetime.now()] within one operation give the
      same text.
    - Calls into Tk (labels, tabs, tree views, charts) are the presentation
      layer and are not modelled; neither are [load_customers] and the
      refresh of the dashboard after a commit, which only read.  The dialog
      an operation ends with is its [outcome].
    - The class does not define [show_dashboard], which [do_login] calls:
      the call raises AttributeError, and the model raises it where the
      source does.  [load_sales_orders], not defined either, is called by
      [update_order_status] only under [hasattr(self, 'sales_tree')], an
      attribute that nothing sets, so that call is never made. *)

From Stdlib Require Import ZArith QArith Qminmax List String Ascii Bool Lia.
From Stdlib Require Import Sorted Permutation.
From stdpp Require Import gmap strings list sorting.

Local Open Scope string_scope.
Local Open Scope Z_scope.

(** ** [hashlib.sha256(...).hexdigest()] *)

Module SHA256.

Definition w32 (x : Z) : Z := x mod 2 ^ 32.

Definition add32 (x y : Z) : Z := w32 (x + y).

Definition rotr (n x : Z) : Z :=
  Z.lor (Z.shiftr x n) (w32 (Z.shiftl x (32 - n))).

Definition not32 (x : Z) : Z := Z.lxor x 0xffffffff.

Definition Ch (x y z : Z) : Z :=
  Z.lxor (Z.land x y) (Z.land (not32 x) z).

Definition Maj (x y z : Z) : Z :=
  Z.lxor (Z.lxor (Z.land x y) (Z.land x z)) (Z.land y z).

Definition Sigma0 (x : Z) : Z :=
  Z.lxor (Z.lxor (rotr 2 x) (rotr 13 x)) (rotr 22 x).

Definition Sigma1 (x : Z) : Z :=
  Z.lxor (Z.lxor (rotr 6 x) (rotr 11 x)) (rotr 25 x).

Definition sigma0 (x : Z) : Z :=
  Z.lxor (Z.lxor (rotr 7 x) (rotr 18 x)) (Z.shiftr x 3).

Definition sigma1 (x : Z) : Z :=
  Z.lxor (Z.lxor (rotr 17 x) (rotr 19 x)) (Z.shiftr x 10).

(** The first sixty-four primes. *)
Definition primes : list Z :=
  [ 2; 3; 5; 7; 11; 13; 17; 19; 23; 29; 31; 37; 41; 43; 47; 53;
    59; 61; 67; 71; 73; 79; 83; 89; 97; 101; 103; 107; 109; 113; 127; 131;
    137; 139; 149; 151; 157; 163; 167; 173; 179; 181; 191; 193; 197; 199;
    211; 223; 227; 229; 233; 239; 241; 251; 257; 263; 269; 271; 277; 281;
    283; 293; 307; 311 ].

(** The integer cube root of [target], found bit by bit from bit [n - 1]
    down. *)
Fixpoint cube_root (n : nat) (x target : Z) : Z :=
  match n with
  | O => x
  | S n' =>
      let y := x + 2 ^ Z.of_nat n' in
      cube_root n' (if y * y * y <=? target then y else x) target
  end.

(** The round constants: the first thirty-two bits of the fractional parts
    of the cube roots of the primes. *)
Definition K : list Z :=
  Eval vm_compute in
    List.map (fun p => w32 (cube_root 40 0 (p * 2 ^ 96))) primes.

(** The initial hash value: the same of the square roots of the first
    eight primes. *)
Definition H0 : list Z :=
  Eval vm_compute in
    List.map (fun p => w32 (Z.sqrt (p * 2 ^ 64))) (List.firstn 8 primes).

(** [str.encode()]: a string of the embedding already is its UTF-8 bytes. *)
Definition encode (s : string) : list Z :=
  List.map (fun c => Z.of_N (N_of_ascii c)) (list_ascii_of_string s).

(** Big-endian bytes of [x], [n] of them. *)
Fixpoint be_bytes (n : nat) (x : Z) : list Z :=
  match n with
  | O => []
  | S n' => (Z.shiftr x (8 * Z.of_nat n')) mod 256 :: be_bytes n' x
  end.

(** The message followed by [0x80], zeros up to 56 modulo 64, and the bit
    length on eight bytes. *)
Definition pad (msg : list Z) : list Z :=
  let len := Z.of_nat (List.length msg) in
  let zeros := Z.to_nat ((55 - len) mod 64) in
  msg ++ 0x80 :: List.repeat 0 zeros ++ be_bytes 8 (8 * len).

Fixpoint words (n : nat) (bytes : list Z) : list Z :=
  match n, bytes with
  | S n', b0 :: b1 :: b2 :: b3 :: rest =>
      (Z.shiftl b0 24 + Z.shiftl b1 16 + Z.shiftl b2 8 + b3) :: words n' rest
  | _, _ => []
  end.

Definition nthw (l : list Z) (i : nat) : Z := List.nth i l 0.

(** The message schedule, built backwards: [rev_w] holds [W(t-1) .. W(0)]. *)
Fixpoint extend (n : nat) (rev_w : list Z) : list Z :=
  match n with
  | O => rev_w
  | S n' =>
      let w := add32 (add32 (sigma1 (nthw rev_w 1)) (nthw rev_w 6))
                     (add32 (sigma0 (nthw rev_w 14)) (nthw rev_w 15)) in
      extend n' (w :: rev_w)
  end.

Definition schedule (block : list Z) : list Z :=
  List.rev (extend 48 (List.rev (words 16 block))).

Record regs := Regs { ra : Z; rb : Z; rc : Z; rd : Z;
                      re : Z; rf : Z; rg : Z; rh : Z }.

Definition round (r : regs) (kw : Z * Z) : regs :=
  let t1 := add32 (add32 (add32 (rh r) (Sigma1 (re r)))
                         (add32 (Ch (re r) (rf r) (rg r)) (fst kw)))
                  (snd kw) in
  let t2 := add32 (Sigma0 (ra r)) (Maj (ra r) (rb r) (rc r)) in
  Regs (add32 t1 t2) (ra r) (rb r) (rc r) (add32 (rd r) t1) (re r) (rf r) (rg r).

Definition compress (h : regs) (block : list Z) : regs :=
  let r := List.fold_left round (List.combine K (schedule block)) h in
  Regs (add32 (ra h) (ra r)) (add32 (rb h) (rb r))
       (add32 (rc h) (rc r)) (add32 (rd h) (rd r))
       (add32 (re h) (re r)) (add32 (rf h) (rf r))
       (add32 (rg h) (rg r)) (add32 (rh h) (rh r)).

Fixpoint blocks (n : nat) (h : regs) (bytes : list Z) : regs :=
  match n with
  | O => h
  | S n' => blocks n' (compress h (List.firstn 64 bytes)) (List.skipn 64 bytes)
  end.

Definition digest (msg : list Z) : list Z :=
  let p := pad msg in
  let h := blocks (List.length p / 64)%nat
                  (Regs (nthw H0 0) (nthw H0 1) (nthw H0 2) (nthw H0 3)
                        (nthw H0 4) (nthw H0 5) (nthw H0 6) (nthw H0 7)) p in
  List.concat (List.map (be_bytes 4)
    [ra h; rb h; rc h; rd h; re h; rf h; rg h; rh h]).

Definition hex_digit (d : Z) : ascii :=
  if d <? 10 then ascii_of_N (Z.to_N (48 + d)) else ascii_of_N (Z.to_N (87 + d)).

Fixpoint hex (bytes : list Z) : string :=
  match bytes with
  | [] => EmptyString
  | b :: rest => String (hex_digit (b / 16)) (String (hex_digit (b mod 16)) (hex rest))
  end.

Definition hexdigest (s : string) : string := hex (digest (encode s)).

End SHA256.

(** [hash_password(self, password)] *)
Definition hash_password (password : string) : string :=
  SHA256.hexdigest password.


(** ** The schema of [create_tables]

    One module per table, one record field per column. *)

(** [is_active] is taken to hold a value: [is_active=1] is false on NULL. *)
Module Users.
Record row := {
  id : Z; username : string; password : string; name : string;
  email : string; role : string; department : option string;
  phone : option string; last_login : option string;
  is_active : Z; created_at : string; updated_at : option string }.

Definition set_last_login (t : option string) (r : row) : row :=
  {| id := id r; username := username r; password := password r;
     name := name r; email := email r; role := role r;
     department := department r; phone := phone r; last_login := t;
     is_active := is_active r; created_at := created_at r;
     updated_at := updated_at r |}.
End Users.

Module Permissions.
Record row := {
  id : Z; user_id : Z; module : string;
  can_view : Z; can_create : Z; can_edit : Z; can_delete : Z }.
End Permissions.

Module Customers.
Record row := {
  id : Z; code : string; name : string;
  contact_person : option string; address : option string;
  city : option string; state : option string; country : option string;
  postal_code : option string; phone : option string;
  email : option string; tax_id : option string;
  payment_terms : option Z; credit_limit : option Q;
  currency : option string; status : option string;
  notes : option string; created_by : option Z;
  created_at : string; updated_at : option string }.
End Customers.

(** The REAL columns that have a DEFAULT, and [status], are taken to hold a
    value: the comparisons of the dashboard are false on NULL. *)
Module Products.
Record row := {
  id : Z; sku : string; barcode : option string; name : string;
  description : option string; category : option string;
  subcategory : option string; unit : option string;
  purchase_price : Q; sale_price : Q; tax_rate : Q;
  min_stock_level : Q; reorder_quantity : Q; current_stock : Q;
  weight : option Q; dimensions : option string; supplier_id : option Z;
  status : string; image_path : option string; notes : option string;
  created_by : option Z; created_at : string; updated_at : option string }.
End Products.

Module InventoryMovements.
Record row := {
  id : Z; product_id : Z; movement_type : string; quantity : Q;
  reference_id : option Z; reference_type : option string;
  movement_date : string; location_from : option string;
  location_to : option string; user_id : option Z; notes : option string;
  created_at : string }.
End InventoryMovements.

Module AuditLog.
Record row := {
  id : Z; user_id : option Z; action : string; table_name : string;
  record_id : option Z; old_values : option string;
  new_values : option string; ip_address : option string;
  user_agent : option string; created_at : string }.
End AuditLog.

(** Modelled from the spec: the table [sales_orders], which the source
    queries and updates and [create_tables] does not create.  A Sales Order
    belongs to one Customer and has a status and a total; the columns are
    the ones the statements of the source name.  No constraint on [status]
    is assumed.  [order_date] is a day number: the ISO text of a date orders
    as the date does. *)
Module SalesOrders.
Record row := {
  id : Z; customer_id : Z; order_date : Z; status : string;
  total_amount : Q; updated_at : option string }.

Definition set_status (st : string) (t : string) (r : row) : row :=
  {| id := id r; customer_id := customer_id r; order_date := order_date r;
     status := st; total_amount := total_amount r; updated_at := Some t |}.
End SalesOrders.

(** Modelled from the spec: the table [sales_order_items], read by
    [show_sales_order_details] and not created by [create_tables].  An item
    belongs to one order and references one product. *)
Module SalesOrderItems.
Record row := {
  id : Z; order_id : Z; product_id : Z; quantity : Q; unit_price : Q;
  discount_percent : Q; tax_percent : Q; line_total : Q }.
End SalesOrderItems.

(** The database file.  [seq_customers] and [seq_audit_log] are the rows of
    [sqlite_sequence] for the two AUTOINCREMENT tables the operations insert
    into. *)
Record Database := {
  users : list Users.row;
  permissions : list Permissions.row;
  customers : list Customers.row;
  products : list Products.row;
  inventory_movements : list InventoryMovements.row;
  audit_log : list AuditLog.row;
  sales_orders : list SalesOrders.row;
  sales_order_items : list SalesOrderItems.row;
  seq_customers : Z;
  seq_audit_log : Z }.

Definition set_users (us : list Users.row) (db : Database) : Database :=
  {| users := us; permissions := permissions db; customers := customers db;
     products := products db; inventory_movements := inventory_movements db;
     audit_log := audit_log db; sales_orders := sales_orders db;
     sales_order_items := sales_order_items db;
     seq_customers := seq_customers db; seq_audit_log := seq_audit_log db |}.

Definition set_customers (cs : list Customers.row) (seq : Z) (db : Database)
  : Database :=
  {| users := users db; permissions := permissions db; customers := cs;
     products := products db; inventory_movements := inventory_movements db;
     audit_log := audit_log db; sales_orders := sales_orders db;
     sales_order_items := sales_order_items db;
     seq_customers := seq; seq_audit_log := seq_audit_log db |}.

Definition set_audit_log (al : list AuditLog.row) (seq : Z) (db : Database)
  : Database :=
  {| users := users db; permissions := permissions db;
     customers := customers db; products := products db;
     inventory_movements := inventory_movements db;
     audit_log := al; sales_orders := sales_orders db;
     sales_order_items := sales_order_items db;
     seq_customers := seq_customers db; seq_audit_log := seq |}.

Definition set_sales_orders (os : list SalesOrders.row) (db : Database)
  : Database :=
  {| users := users db; permissions := permissions db;
     customers := customers db; products := products db;
     inventory_movements := inventory_movements db;
     audit_log := audit_log db; sales_orders := os;
     sales_order_items := sales_order_items db;
     seq_customers := seq_customers db; seq_audit_log := seq_audit_log db |}.

(** ** Application state *)

(** The tuple [(id, username, name, email, role)] that [do_login] fetches and
    stores in [self.current_user]. *)
Record user_tuple := {
  user0 : Z; user1 : string; user2 : string; user3 : string; user4 : string }.

(** [self.conn], and the two attributes of "Application state". *)
Record App := {
  conn : Database;
  committed : Database;
  current_user : option user_tuple;
  user_permissions : gmap string (gmap string bool) }.

Definition set_conn (db : Database) (s : App) : App :=
  {| conn := db; committed := committed s;
     current_user := current_user s; user_permissions := user_permissions s |}.

Definition set_current_user (u : option user_tuple) (s : App) : App :=
  {| conn := conn s; committed := committed s;
     current_user := u; user_permissions := user_permissions s |}.

Definition set_user_permissions (p : gmap string (gmap string bool)) (s : App)
  : App :=
  {| conn := conn s; committed := committed s;
     current_user := current_user s; user_permissions := p |}.

(** ** Exceptions, dialogs and the monad of an operation *)

Inductive exn :=
| IntegrityError (constraint : string)   (* sqlite3.IntegrityError *)
| TypeError                                (* subscripting [None] *)
| ValueError                               (* [int()], [float()] *)
| OverflowError                            (* binding an integer beyond 64 bits *)
| AttributeError (name : string).          (* a method the class does not define *)

(** What the caller sees when the operation returns. *)
Inductive outcome :=
| showinfo (title message : string)
| showerror (title message : string)
| showerror_exn (title message : string) (e : exn)  (* message ends in [str(e)] *)
| showwarning (title message : string)
| status_var (message : string)            (* [self.status_var.set] *)
| returned                                 (* plain [return], no dialog *)
| uncaught (e : exn).                      (* raised out of the callback *)

Inductive result (A : Type) :=
| Ok (a : A)
| Raise (e : exn).
Arguments Ok {A} a.
Arguments Raise {A} e.

(** A computation over the application: it may raise, and what it did to
    the state before raising stays done. *)
Definition M (A : Type) : Type := App -> result A * App.

#[global] Instance M_ret : MRet M := fun A a s => (Ok a, s).

#[global] Instance M_bind : MBind M := fun A B f m s =>
  match m s with
  | (Ok a, s') => f a s'
  | (Raise e, s') => (Raise e, s')
  end.

Definition raise {A} (e : exn) : M A := fun s => (Raise e, s).

(** Reading an attribute of [self]. *)
Definition gets {A} (f : App -> A) : M A := fun s => (Ok (f s), s).

Definition modify (f : App -> App) : M unit := fun s => (Ok tt, f s).

(** [try: body except Exception as e: handler(e)] *)
Definition try_except (body : M outcome) (handler : exn -> outcome)
  : App -> outcome * App :=
  fun s =>
    match body s with
    | (Ok o, s') => (o, s')
    | (Raise e, s') => (handler e, s')
    end.

(** [cursor.execute(stmt)] for a statement that writes: on a constraint
    violation the statement changes nothing and raises. *)
Definition execute (stmt : Database -> result Database) : M unit := fun s =>
  match stmt (conn s) with
  | Ok db => (Ok tt, set_conn db s)
  | Raise e => (Raise e, s)
  end.

(** [self.conn.commit()] *)
Definition commit : M unit :=
  modify (fun s =>
    {| conn := conn s; committed := conn s;
       current_user := current_user s;
       user_permissions := user_permissions s |}).

(** [self.current_user[0]] *)
Definition current_user_0 : M Z := fun s =>
  match current_user s with
  | Some u => (Ok (user0 u), s)
  | None => (Raise TypeError, s)
  end.

(** ** SQL statements *)

Definition is_empty (s : string) : bool :=
  match s with EmptyString => true | _ => false end.

(** [x or None] on a string *)
Definition or_None (s : string) : option string :=
  if is_empty s then None else Some s.

(** The rowid AUTOINCREMENT gives a new row: one more than the largest the
    table has ever held. *)
Definition next_rowid (seq : Z) (ids : list Z) : Z :=
  Z.max seq (List.fold_right Z.max 0 ids) + 1.

(** [INSERT INTO audit_log (user_id, action, table_name, record_id, created_at)
    VALUES (?, ?, ?, ?, ?)], with the foreign key on [user_id]. *)
Definition insert_audit_log (user_id : Z) (action table_name : string)
    (record_id : Z) (created_at : string) (db : Database) : result Database :=
  if existsb (fun u => Users.id u =? user_id) (users db) then
    let id := next_rowid (seq_audit_log db) (List.map AuditLog.id (audit_log db)) in
    Ok (set_audit_log
          (audit_log db ++
           [ {| AuditLog.id := id; AuditLog.user_id := Some user_id;
                AuditLog.action := action; AuditLog.table_name := table_name;
                AuditLog.record_id := Some record_id;
                AuditLog.old_values := None; AuditLog.new_values := None;
                AuditLog.ip_address := None; AuditLog.user_agent := None;
                AuditLog.created_at := created_at |} ])
          id db)
  else Raise (IntegrityError "FOREIGN KEY constraint failed").

Definition nl : string := String (ascii_of_nat 10) EmptyString.

(** *** [do_login] *)

(** [SELECT id, username, name, email, role FROM users
    WHERE username=? AND password=? AND is_active=1], then [fetchone()]. *)
Definition login_matches (username password_hash : string) (u : Users.row)
  : bool :=
  String.eqb (Users.username u) username
  && String.eqb (Users.password u) password_hash
  && (Users.is_active u =? 1).

Definition select_user (username password_hash : string) (db : Database)
  : option user_tuple :=
  match List.find (login_matches username password_hash) (users db) with
  | Some u => Some {| user0 := Users.id u; user1 := Users.username u;
                      user2 := Users.name u; user3 := Users.email u;
                      user4 := Users.role u |}
  | None => None
  end.

(** [bool(row[i])] on an INTEGER column *)
Definition bool_of_int (x : Z) : bool := negb (x =? 0).

(** [SELECT module, can_view, can_create, can_edit, can_delete FROM permissions
    WHERE user_id=?] and the loop filling [self.user_permissions]. *)
Definition capabilities (row : Permissions.row) : gmap string bool :=
  <["view" := bool_of_int (Permissions.can_view row)]>
  (<["create" := bool_of_int (Permissions.can_create row)]>
  (<["edit" := bool_of_int (Permissions.can_edit row)]>
  (<["delete" := bool_of_int (Permissions.can_delete row)]> ∅))).

Definition load_permissions (user_id : Z) (db : Database)
  : gmap string (gmap string bool) :=
  List.fold_left
    (fun d row => <[Permissions.module row := capabilities row]> d)
    (List.filter (fun row => Permissions.user_id row =? user_id) (permissions db))
    ∅.

(** [UPDATE users SET last_login=? WHERE id=?] *)
Definition update_last_login (t : string) (user_id : Z) (db : Database)
  : result Database :=
  Ok (set_users
        (List.map (fun u => if Users.id u =? user_id
                            then Users.set_last_login (Some t) u else u)
                  (users db))
        db).

(** [self.show_dashboard()]: the class has no such method. *)
Definition show_dashboard : M unit := raise (AttributeError "show_dashboard").

Definition do_login (username password : string) (now : string)
  : App -> outcome * App :=
  if is_empty username || is_empty password then
    fun s => (showerror "Error" "Please enter both username and password", s)
  else
    try_except
      (db ← gets conn;
       match select_user username (hash_password password) db with
       | Some user =>
           modify (set_current_user (Some user));;
           modify (set_user_permissions (load_permissions (user0 user) db));;
           show_dashboard;;
           execute (update_last_login now (user0 user));;
           execute (insert_audit_log (user0 user) "login" "users" (user0 user) now);;
           commit;;
           mret (status_var "Login successful")
       | None => mret (showerror "Error" "Invalid username or password")
       end)
      (fun e => showerror_exn "Error" ("Login failed:" +:+ nl) e).

(** *** [logout]

    [confirm] is the answer to "Are you sure you want to logout?".  The
    function has no handler of its own. *)
Definition logout (confirm : bool) (now : string) : App -> outcome * App :=
  fun s =>
    if confirm then
      let body : M unit :=
        match current_user s with
        | Some u =>
            execute (insert_audit_log (user0 u) "logout" "users" (user0 u) now);;
            commit
        | None => mret tt
        end;;
        modify (set_current_user None);;
        modify (set_user_permissions ∅) in
      match body s with
      | (Ok _, s') => (returned, s')
      | (Raise e, s') => (uncaught e, s')
      end
    else (returned, s).

(** *** [save_customer] *)

(** The text of an entry that the source converts with [int()] or [float()]:
    empty; text that converts to a number that SQLite stores; text that makes
    the conversion raise; or digits that [int()] converts to an integer
    beyond the 64 bits of an SQLite INTEGER, which [sqlite3] then refuses to
    bind. *)
Inductive entry (A : Type) :=
| blank
| parsed (a : A)
| malformed
| too_large (a : A).
Arguments blank {A}.
Arguments parsed {A} a.
Arguments malformed {A}.
Arguments too_large {A} a.

(** [conv(x.get()) if x.get() else None] *)
Definition convert {A} (e : entry A) : M (option A) :=
  match e with
  | blank => mret None
  | parsed a | too_large a => mret (Some a)
  | malformed => raise ValueError
  end.

(** [cursor.execute(sql, parameters)] binds the parameters before the
    statement runs: an integer that does not fit in 64 bits raises
    OverflowError.  Only [payment_terms] is an integer that the user types;
    no float is too large to bind. *)
Definition bind_parameters (payment_terms : entry Z) : M unit :=
  match payment_terms with
  | too_large _ => raise OverflowError
  | _ => mret tt
  end.

(** [self.customer_form_vars]: what [.get()] returns for each field; [notes]
    is the stripped content of the text widget. *)
Module Form.
Record vars := {
  code : string; name : string; status : string;
  contact_person : string; phone : string; email : string;
  address : string; city : string; state : string; country : string;
  postal_code : string; tax_id : string;
  payment_terms : entry Z; credit_limit : entry Q;
  currency : string; notes : string }.
End Form.

(** The [errors] list of the validation step. *)
Definition validation_errors (form : Form.vars) : list string :=
  (if is_empty (Form.code form) then ["Customer code is required"] else [])
  ++ (if is_empty (Form.name form) then ["Customer name is required"] else [])
  ++ (if is_empty (Form.status form) then ["Status is required"] else []).

(** The [data] dictionary. *)
Module Data.
Record dict := {
  code : string; name : string;
  contact_person : option string; address : option string;
  city : option string; state : option string; country : option string;
  postal_code : option string; phone : option string;
  email : option string; tax_id : option string;
  payment_terms : option Z; credit_limit : option Q;
  currency : option string; status : string; notes : option string;
  updated_at : string; created_by : option Z }.
End Data.

Definition customer_statuses : list string := ["Active"; "Inactive"; "On Hold"].

(** [CHECK(status IN ('Active', 'Inactive', 'On Hold'))] *)
Definition check_status (status : string) : bool :=
  existsb (String.eqb status) customer_statuses.

(** [code TEXT UNIQUE]: some row other than [self_id] already has [code]. *)
Definition code_taken (self_id : option Z) (code : string) (db : Database)
  : bool :=
  existsb (fun c => String.eqb (Customers.code c) code
                    && match self_id with
                       | Some i => negb (Customers.id c =? i)
                       | None => true
                       end)
          (customers db).

(** [FOREIGN KEY (created_by) REFERENCES users (id)] *)
Definition user_exists (user_id : option Z) (db : Database) : bool :=
  match user_id with
  | Some i => existsb (fun u => Users.id u =? i) (users db)
  | None => true
  end.

(** [UPDATE customers SET code=?, ..., updated_at=? WHERE id=?].  The
    parameters have been bound ([bind_parameters]) when the statement runs. *)
Definition update_customers (customer_id : Z) (data : Data.dict)
    (db : Database) : result Database :=
  if existsb (fun c => Customers.id c =? customer_id) (customers db) then
    if negb (check_status (Data.status data)) then
      Raise (IntegrityError "CHECK constraint failed: status")
    else if code_taken (Some customer_id) (Data.code data) db then
      Raise (IntegrityError "UNIQUE constraint failed: customers.code")
    else
      Ok (set_customers
            (List.map
               (fun c =>
                  if Customers.id c =? customer_id then
                    {| Customers.id := Customers.id c;
                       Customers.code := Data.code data;
                       Customers.name := Data.name data;
                       Customers.contact_person := Data.contact_person data;
                       Customers.address := Data.address data;
                       Customers.city := Data.city data;
                       Customers.state := Data.state data;
                       Customers.country := Data.country data;
                       Customers.postal_code := Data.postal_code data;
                       Customers.phone := Data.phone data;
                       Customers.email := Data.email data;
                       Customers.tax_id := Data.tax_id data;
                       Customers.payment_terms := Data.payment_terms data;
                       Customers.credit_limit := Data.credit_limit data;
                       Customers.currency := Data.currency data;
                       Customers.status := Some (Data.status data);
                       Customers.notes := Data.notes data;
                       Customers.created_by := Customers.created_by c;
                       Customers.created_at := Customers.created_at c;
                       Customers.updated_at := Some (Data.updated_at data) |}
                  else c)
               (customers db))
            (seq_customers db) db)
  else Ok db.

(** [INSERT INTO customers (code, ..., created_by) VALUES (?, ..., ?)], its
    parameters bound likewise. *)
Definition insert_customers (data : Data.dict) (created_at : string)
    (db : Database) : result Database :=
  if negb (check_status (Data.status data)) then
    Raise (IntegrityError "CHECK constraint failed: status")
  else if code_taken None (Data.code data) db then
    Raise (IntegrityError "UNIQUE constraint failed: customers.code")
  else if negb (user_exists (Data.created_by data) db) then
    Raise (IntegrityError "FOREIGN KEY constraint failed")
  else
    let id := next_rowid (seq_customers db) (List.map Customers.id (customers db)) in
    Ok (set_customers
          (customers db ++
           [ {| Customers.id := id;
                Customers.code := Data.code data;
                Customers.name := Data.name data;
                Customers.contact_person := Data.contact_person data;
                Customers.address := Data.address data;
                Customers.city := Data.city data;
                Customers.state := Data.state data;
                Customers.country := Data.country data;
                Customers.postal_code := Data.postal_code data;
                Customers.phone := Data.phone data;
                Customers.email := Data.email data;
                Customers.tax_id := Data.tax_id data;
                Customers.payment_terms := Data.payment_terms data;
                Customers.credit_limit := Data.credit_limit data;
                Customers.currency := Data.currency data;
                Customers.status := Some (Data.status data);
                Customers.notes := Data.notes data;
                Customers.created_by := Data.created_by data;
                Customers.created_at := created_at;
                Customers.updated_at := Some (Data.updated_at data) |} ])
          id db).

(** [if customer_id:] *)
Definition truthy (customer_id : option Z) : option Z :=
  match customer_id with
  | Some i => if i =? 0 then None else Some i
  | None => None
  end.

Definition save_customer (customer_id : option Z) (form : Form.vars)
    (now : string) : App -> outcome * App :=
  try_except
    (let errors := validation_errors form in
     match errors with
     | _ :: _ => mret (showerror "Validation Error" (String.concat nl errors))
     | [] =>
         payment_terms ← convert (Form.payment_terms form);
         credit_limit ← convert (Form.credit_limit form);
         user ← gets current_user;
         let data :=
           {| Data.code := Form.code form;
              Data.name := Form.name form;
              Data.contact_person := or_None (Form.contact_person form);
              Data.address := or_None (Form.address form);
              Data.city := or_None (Form.city form);
              Data.state := or_None (Form.state form);
              Data.country := or_None (Form.country form);
              Data.postal_code := or_None (Form.postal_code form);
              Data.phone := or_None (Form.phone form);
              Data.email := or_None (Form.email form);
              Data.tax_id := or_None (Form.tax_id form);
              Data.payment_terms := payment_terms;
              Data.credit_limit := credit_limit;
              Data.currency := or_None (Form.currency form);
              Data.status := Form.status form;
              Data.notes := Some (Form.notes form);
              Data.updated_at := now;
              Data.created_by :=
                match user with
                | Some u => Some (user0 u)
                | None => None
                end |} in
         saved ← match truthy customer_id with
                 | Some i =>
                     bind_parameters (Form.payment_terms form);;
                     execute (update_customers i data);;
                     mret (i, "update")
                 | None =>
                     bind_parameters (Form.payment_terms form);;
                     execute (insert_customers data now);;
                     db ← gets conn;
                     mret (seq_customers db, "create")
                 end;
         user_id ← current_user_0;
         execute (insert_audit_log user_id (snd saved) "customers" (fst saved) now);;
         commit;;
         mret (showinfo "Success" "Customer saved successfully")
     end)
    (fun e => showerror_exn "Error" ("Failed to save customer:" +:+ nl) e).

(** *** [delete_customer] *)

(** [SELECT COUNT( * ) FROM sales_orders WHERE customer_id=?] *)
Definition order_count (customer_id : Z) (db : Database) : Z :=
  Z.of_nat (List.length
    (List.filter (fun o => SalesOrders.customer_id o =? customer_id)
                 (sales_orders db))).

(** [DELETE FROM customers WHERE id=?] *)
Definition delete_customers (customer_id : Z) (db : Database)
  : result Database :=
  Ok (set_customers
        (List.filter (fun c => negb (Customers.id c =? customer_id)) (customers db))
        (seq_customers db) db).

(** [selected] is the focused row of the customers tree, as the pair of its
    values 0 and 2; [confirm] is the answer to "Confirm Delete". *)
Definition delete_customer (selected : option (Z * string)) (confirm : bool)
    (now : string) : App -> outcome * App :=
  match selected with
  | None => fun s => (showwarning "Warning" "Please select a customer first", s)
  | Some (customer_id, customer_name) =>
      if negb confirm then fun s => (returned, s)
      else
        try_except
          (db ← gets conn;
           if 0 <? order_count customer_id db then
             mret (showerror "Error" "Cannot delete customer with existing orders")
           else
             execute (delete_customers customer_id);;
             user_id ← current_user_0;
             execute (insert_audit_log user_id "delete" "customers" customer_id now);;
             commit;;
             mret (showinfo "Success" "Customer deleted successfully"))
          (fun e => showerror_exn "Error" ("Failed to delete customer:" +:+ nl) e)
  end.

(** *** [update_order_status] *)

(** [UPDATE sales_orders SET status = ?, updated_at = ? WHERE id = ?] *)
Definition update_sales_orders (new_status t : string) (order_id : Z)
    (db : Database) : result Database :=
  Ok (set_sales_orders
        (List.map (fun o => if SalesOrders.id o =? order_id
                            then SalesOrders.set_status new_status t o else o)
                  (sales_orders db))
        db).

Definition update_order_status (order_id : Z) (new_status : string)
    (now : string) : App -> outcome * App :=
  try_except
    (execute (update_sales_orders new_status now order_id);;
     user_id ← current_user_0;
     execute (insert_audit_log user_id "update" "sales_orders" order_id now);;
     commit;;
     mret (showinfo "Success" ("Order status updated to " +:+ new_status)))
    (fun e => showerror_exn "Error" ("Failed to update order status:" +:+ nl) e).

(** The status buttons of [show_sales_order_details]: for an order whose
    status is [status], the values of [new_status] that a button passes to
    [update_order_status]. *)
Definition status_buttons (status : string) : list string :=
  (if String.eqb status "Draft" || String.eqb status "Confirmed"
   then ["Shipped"] else [])
  ++ (if String.eqb status "Shipped" then ["Completed"] else []).

(** *** [load_dashboard_data] *)

(** [SELECT COALESCE(SUM(total_amount), 0) FROM sales_orders
    WHERE order_date BETWEEN ? AND ?] *)
Definition sum_total_amount (d1 d2 : Z) (db : Database) : Q :=
  List.fold_left Qplus
    (List.map SalesOrders.total_amount
       (List.filter (fun o => (d1 <=? SalesOrders.order_date o)
                              && (SalesOrders.order_date o <=? d2))
                    (sales_orders db)))
    (0 : Q).

(** [((sales_total - prev_sales) / prev_sales * 100) if prev_sales > 0 else 0] *)
Definition growth_of (sales_total prev_sales : Q) : Q :=
  if Qlt_le_dec 0 prev_sales
  then ((sales_total - prev_sales) / prev_sales * inject_Z 100)%Q
  else 0%Q.

(** [WHERE current_stock <= min_stock_level AND status = 'Active'] *)
Definition low_stock (p : Products.row) : bool :=
  Qle_bool (Products.current_stock p) (Products.min_stock_level p)
  && String.eqb (Products.status p) "Active".

Definition deficit (p : Products.row) : Q :=
  (Products.min_stock_level p - Products.current_stock p)%Q.

(** [ORDER BY (min_stock_level - current_stock) DESC]: [p] may come before
    [q]. *)
Definition by_deficit_desc (p q : Products.row) : Prop :=
  (deficit q <= deficit p)%Q.

#[global] Instance by_deficit_desc_dec (p q : Products.row)
  : Decision (by_deficit_desc p q).
Proof.
  unfold by_deficit_desc.
  destruct (Qlt_le_dec (deficit p) (deficit q)) as [Hlt | Hle].
  - right. apply Qlt_not_le. exact Hlt.
  - left. exact Hle.
Defined.

(** [SELECT name, current_stock, min_stock_level FROM products WHERE ...
    ORDER BY ... DESC LIMIT 10].  SQLite does not fix the order of rows of
    equal deficit; the sort below is one such order. *)
Definition stock_alert_rows (db : Database) : list Products.row :=
  List.firstn 10
    (merge_sort by_deficit_desc (List.filter low_stock (products db))).

Definition stock_alerts (db : Database) : list (string * Q * Q) :=
  List.map (fun p => (Products.name p, Products.current_stock p,
                      Products.min_stock_level p))
           (stock_alert_rows db).

(** The figures of the dashboard the operations above are read for. *)
Record dashboard := {
  sales_total : Q;
  prev_sales : Q;
  growth : Q;
  stock_tree : list (string * Q * Q) }.

(** [start_date] and [end_date] are day numbers; [timedelta(days=n)] is [n]. *)
Definition load_dashboard_data (start_date end_date : Z) (s : App)
  : dashboard :=
  let sales_total := sum_total_amount start_date end_date (conn s) in
  let prev_start := start_date - (end_date - start_date) in
  let prev_sales := sum_total_amount prev_start (start_date - 1) (conn s) in
  {| sales_total := sales_total;
     prev_sales := prev_sales;
     growth := growth_of sales_total prev_sales;
     stock_tree := stock_alerts (conn s) |}.

(** ** Notions the specification states and the source does not define *)

(** Modelled from the spec: [authorize(principal, module, capability)], which
    the source does not contain.  A pure lookup in the capability map loaded
    at login; a principal holding the wildcard module ["all"] has every
    capability on every module, and the absence of a row means no access. *)
Definition authorize (perms : gmap string (gmap string bool))
    (module capability : string) : bool :=
  match perms !! "all" with
  | Some _ => true
  | None =>
      match perms !! module with
      | Some caps => default false (caps !! capability)
      | None => false
      end
  end.

(** The signed sum of the Inventory Movements of a product. *)
Definition movement_sum (product_id : Z) (db : Database) : Q :=
  List.fold_right Qplus 0%Q
    (List.map InventoryMovements.quantity
       (List.filter (fun m => InventoryMovements.product_id m =? product_id)
                    (inventory_movements db))).

(** [current_stock] equals the signed sum of the movements, for every
    product. *)
Definition stock_matches_movements (db : Database) : Prop :=
  forall p, In p (products db) ->
    (Products.current_stock p == movement_sum (Products.id p) db)%Q.

(** The items of an order. *)
Definition items_of (order_id : Z) (db : Database) : list SalesOrderItems.row :=
  List.filter (fun i => SalesOrderItems.order_id i =? order_id)
              (sales_order_items db).

(** One movement of type ['Sale'] with the negated quantity for the item. *)
Definition sale_movement_for (i : SalesOrderItems.row)
    (m : InventoryMovements.row) : Prop :=
  InventoryMovements.product_id m = SalesOrderItems.product_id i
  /\ InventoryMovements.movement_type m = "Sale"
  /\ (InventoryMovements.quantity m == - SalesOrderItems.quantity i)%Q.

(** What the specification asks of a transition into Shipped or Completed:
    the movements table grows by exactly one Sale movement per item of the
    order. *)
Definition emits_sale_movements (order_id : Z) (before after : Database)
  : Prop :=
  exists ms,
    inventory_movements after = (inventory_movements before ++ ms)%list
    /\ Forall2 sale_movement_for (items_of order_id before) ms.

(** The legal transitions of the specification. *)
Definition legal_transition (old new : string) : Prop :=
  (old = "Draft" /\ new = "Shipped")
  \/ (old = "Confirmed" /\ new = "Shipped")
  \/ (old = "Shipped" /\ new = "Completed").

Definition order_statuses : list string :=
  ["Draft"; "Confirmed"; "Shipped"; "Completed"].

(** A user row with the username, the hash of the secret and the active
    flag set. *)
Definition credentials_match (username password : string) (db : Database)
  : Prop :=
  exists u, In u (users db)
    /\ Users.username u = username
    /\ Users.password u = hash_password password
    /\ Users.is_active u = 1.

(** [do_login] authenticates the username: it is not refused by either of
    its two refusals, and the session it leaves is that of a user with the
    username. *)
Definition authenticates (username password now : string) (s : App) : Prop :=
  let r := do_login username password now s in
  fst r <> showerror "Error" "Please enter both username and password"
  /\ fst r <> showerror "Error" "Invalid username or password"
  /\ exists u, current_user (snd r) = Some u /\ user1 u = username.

(** The state-changing operations that write an audit entry. *)
Inductive operation :=
| SaveCustomer (customer_id : option Z) (form : Form.vars)
| DeleteCustomer (selected : option (Z * string)) (confirm : bool)
| Login (username password : string)
| Logout (confirm : bool).

Definition perform (op : operation) (now : string) : App -> outcome * App :=
  match op with
  | SaveCustomer customer_id form => save_customer customer_id form now
  | DeleteCustomer selected confirm => delete_customer selected confirm now
  | Login username password => do_login username password now
  | Logout confirm => logout confirm now
  end.

(** The operation took effect: the success dialog of a customer operation,
    the status line of a login, and for a logout the session going from a
    logged-in user to none. *)
Definition succeeded (op : operation) (s : App) (o : outcome) (s' : App)
  : Prop :=
  match op with
  | SaveCustomer _ _ => o = showinfo "Success" "Customer saved successfully"
  | DeleteCustomer _ _ => o = showinfo "Success" "Customer deleted successfully"
  | Login _ _ => o = status_var "Login successful"
  | Logout _ => o = returned /\ current_user s <> None /\ current_user s' = None
  end.

(** The table and the id of the entity the operation is about: the customer
    updated or deleted, the customer row a create adds (the last row of the
    table), the user logged in or out. *)
Definition affected (op : operation) (s s' : App) : string * option Z :=
  match op with
  | SaveCustomer customer_id _ =>
      ("customers",
       match truthy customer_id with
       | Some i => Some i
       | None => Customers.id <$> last (customers (conn s'))
       end)
  | DeleteCustomer selected _ => ("customers", fst <$> selected)
  | Login _ _ => ("users", user0 <$> current_user s')
  | Logout _ => ("users", user0 <$> current_user s)
  end.

(** The statement that [save_customer] runs for the form breaks the CHECK on
    [status] or the uniqueness of [code]: on an update, only when a row has
    the id. *)
Definition violates_constraint (customer_id : option Z) (form : Form.vars)
    (db : Database) : bool :=
  match truthy customer_id with
  | Some i =>
      existsb (fun c => Customers.id c =? i) (customers db)
      && (negb (check_status (Form.status form))
          || code_taken (Some i) (Form.code form) db)
  | None =>
      negb (check_status (Form.status form))
      || code_taken None (Form.code form) db
  end.

(** ** Sample data *)

Module Sample.

Definition now : string := "2024-03-01 09:00:00".

Definition admin : Users.row :=
  {| Users.id := 1; Users.username := "admin";
     Users.password := hash_password "admin123";
     Users.name := "Administrator"; Users.email := "admin@erp.com";
     Users.role := "Admin"; Users.department := None; Users.phone := None;
     Users.last_login := None; Users.is_active := 1;
     Users.created_at := "2024-01-01 00:00:00"; Users.updated_at := None |}.

(** A user whose stored password is the hash of the empty secret. *)
Definition bob : Users.row :=
  {| Users.id := 2; Users.username := "bob";
     Users.password := hash_password EmptyString;
     Users.name := "Bob"; Users.email := "bob@erp.com";
     Users.role := "Sales"; Users.department := None; Users.phone := None;
     Users.last_login := None; Users.is_active := 1;
     Users.created_at := "2024-01-02 00:00:00"; Users.updated_at := None |}.

(** A user whose only permission row grants the viewing of customers, with
    the role for which [do_login] enables the tabs. *)
Definition carol : Users.row :=
  {| Users.id := 3; Users.username := "carol";
     Users.password := hash_password "secret";
     Users.name := "Carol"; Users.email := "carol@erp.com";
     Users.role := "Admin"; Users.department := None; Users.phone := None;
     Users.last_login := None; Users.is_active := 1;
     Users.created_at := "2024-01-03 00:00:00"; Users.updated_at := None |}.

(** An inactive user with a known secret. *)
Definition dave : Users.row :=
  {| Users.id := 4; Users.username := "dave";
     Users.password := hash_password "secret";
     Users.name := "Dave"; Users.email := "dave@erp.com";
     Users.role := "Clerk"; Users.department := None; Users.phone := None;
     Users.last_login := None; Users.is_active := 0;
     Users.created_at := "2024-01-04 00:00:00"; Users.updated_at := None |}.

Definition customer (id : Z) (code name : string) : Customers.row :=
  {| Customers.id := id; Customers.code := code; Customers.name := name;
     Customers.contact_person := None; Customers.address := None;
     Customers.city := None; Customers.state := None;
     Customers.country := None; Customers.postal_code := None;
     Customers.phone := None; Customers.email := None;
     Customers.tax_id := None; Customers.payment_terms := Some 30;
     Customers.credit_limit := None; Customers.currency := Some "USD";
     Customers.status := Some "Active"; Customers.notes := None;
     Customers.created_by := Some 1;
     Customers.created_at := "2024-02-01 10:00:00";
     Customers.updated_at := None |}.

Definition product (id : Z) (name : string) (min_level stock : Q)
  : Products.row :=
  {| Products.id := id; Products.sku := name; Products.barcode := None;
     Products.name := name; Products.description := None;
     Products.category := None; Products.subcategory := None;
     Products.unit := Some "pcs"; Products.purchase_price := 1;
     Products.sale_price := 2; Products.tax_rate := 0;
     Products.min_stock_level := min_level; Products.reorder_quantity := 0;
     Products.current_stock := stock; Products.weight := None;
     Products.dimensions := None; Products.supplier_id := None;
     Products.status := "Active"; Products.image_path := None;
     Products.notes := None; Products.created_by := Some 1;
     Products.created_at := "2024-01-15 10:00:00";
     Products.updated_at := None |}.

Definition order (id customer_id day : Z) (status : string) (total : Q)
  : SalesOrders.row :=
  {| SalesOrders.id := id; SalesOrders.customer_id := customer_id;
     SalesOrders.order_date := day; SalesOrders.status := status;
     SalesOrders.total_amount := total; SalesOrders.updated_at := None |}.

(** Customer 1 has two orders, customer 2 none.  Order 1 is a draft with
    one item, three units of product 1; order 2 is completed.  Product 1
    was purchased once, ten units. *)
Definition db : Database :=
  {| users := [admin; bob; carol; dave];
     permissions :=
       [ {| Permissions.id := 1; Permissions.user_id := 1;
            Permissions.module := "all"; Permissions.can_view := 1;
            Permissions.can_create := 1; Permissions.can_edit := 1;
            Permissions.can_delete := 1 |};
         {| Permissions.id := 2; Permissions.user_id := 3;
            Permissions.module := "customers"; Permissions.can_view := 1;
            Permissions.can_create := 0; Permissions.can_edit := 0;
            Permissions.can_delete := 0 |} ];
     customers := [customer 1 "C001" "Acme"; customer 2 "C002" "Beta"];
     products := [product 1 "Widget" 5 10];
     inventory_movements :=
       [ {| InventoryMovements.id := 1; InventoryMovements.product_id := 1;
            InventoryMovements.movement_type := "Purchase";
            InventoryMovements.quantity := 10;
            InventoryMovements.reference_id := None;
            InventoryMovements.reference_type := None;
            InventoryMovements.movement_date := "2024-02-01";
            InventoryMovements.location_from := None;
            InventoryMovements.location_to := None;
            InventoryMovements.user_id := Some 1;
            InventoryMovements.notes := None;
            InventoryMovements.created_at := "2024-02-01 08:00:00" |} ];
     audit_log := [];
     sales_orders := [order 1 1 5 "Draft" 100; order 2 1 12 "Completed" 150];
     sales_order_items :=
       [ {| SalesOrderItems.id := 1; SalesOrderItems.order_id := 1;
            SalesOrderItems.product_id := 1; SalesOrderItems.quantity := 3;
            SalesOrderItems.unit_price := 10;
            SalesOrderItems.discount_percent := 0;
            SalesOrderItems.tax_percent := 0;
            SalesOrderItems.line_total := 30 |} ];
     seq_customers := 2;
     seq_audit_log := 0 |}.

(** The application before anybody has logged in. *)
Definition anonymous : App :=
  {| conn := db; committed := db; current_user := None;
     user_permissions := ∅ |}.

(** The application after [do_login] has run for [admin], or for [carol]:
    the session is theirs. *)
Definition as_admin : App := snd (do_login "admin" "admin123" now anonymous).
Definition as_carol : App := snd (do_login "carol" "secret" now anonymous).

Definition form (code name status : string) : Form.vars :=
  {| Form.code := code; Form.name := name; Form.status := status;
     Form.contact_person := EmptyString; Form.phone := EmptyString;
     Form.email := EmptyString; Form.address := EmptyString;
     Form.city := EmptyString; Form.state := EmptyString;
     Form.country := EmptyString; Form.postal_code := EmptyString;
     Form.tax_id := EmptyString; Form.payment_terms := parsed 30;
     Form.credit_limit := blank; Form.currency := "USD";
     Form.notes := EmptyString |}.

(** A database file in which the user with id 1 is not named "admin" and
    nobody else is. *)
Definition renamed : Database :=
  {| users :=
       [ {| Users.id := 1; Users.username := "root";
            Users.password := hash_password "secret";
            Users.name := "Root"; Users.email := "root@erp.com";
            Users.role := "Clerk"; Users.department := None;
            Users.phone := None; Users.last_login := None;
            Users.is_active := 1;
            Users.created_at := "2024-01-01 00:00:00";
            Users.updated_at := None |} ];
     permissions := []; customers := []; products := [];
     inventory_movements := []; audit_log := []; sales_orders := [];
     sales_order_items := []; seq_customers := 0; seq_audit_log := 0 |}.

(** One operation of each kind that can succeed, with the state it is
    performed in. *)
Definition operations : list (operation * App) :=
  [ (SaveCustomer None (form "C003" "Gamma" "Active"), as_admin);
    (SaveCustomer (Some 1) (form "C001" "Acme Ltd" "On Hold"), as_admin);
    (DeleteCustomer (Some (2, "Beta")) true, as_admin);
    (Logout true, as_admin) ].

(** Eleven active products, all below their minimum level of twenty:
    product [i] has [i] units in stock. *)
Definition eleven_low : Database :=
  {| users := users db; permissions := permissions db;
     customers := customers db;
     products :=
       List.map (fun p => product (fst p) (snd p) 20 (inject_Z (fst p)))
                [ (1, "P01"); (2, "P02"); (3, "P03"); (4, "P04"); (5, "P05");
                  (6, "P06"); (7, "P07"); (8, "P08"); (9, "P09"); (10, "P10");
                  (11, "P11") ];
     inventory_movements := []; audit_log := [];
     sales_orders := []; sales_order_items := [];
     seq_customers := 2; seq_audit_log := 0 |}.

End Sample.

Ltac run :=
  unfold try_except, mbind, M_bind, mret, M_ret, execute, commit, modify,
    gets, current_user_0, raise, convert in *.

(** A computation that neither reads nor writes [self.user_permissions]:
    run with another capability map, it gives the same result and the same
    state, the map apart. *)
Definition blind {A} (m : M A) : Prop :=
  forall perms s,
    m (set_user_permissions perms s)
    = (fst (m s), set_user_permissions perms (snd (m s))).

(** ** Further operations and notions *)

(** *** [on_closing]

    [confirm] is the answer to "Do you want to quit the application?".  The
    result is the database file that [self.conn.close()] leaves behind, or
    nothing when the user declines and the application goes on; closing
    drops what the connection has not committed.  The function has no
    handler: an exception of the audit insert leaves the window open. *)
Definition on_closing (confirm : bool) (now : string) (s : App)
  : outcome * option Database :=
  if confirm then
    let body : M unit :=
      match current_user s with
      | Some u =>
          execute (insert_audit_log (user0 u) "logout" "users" (user0 u) now);;
          commit
      | None => mret tt
      end in
    match body s with
    | (Ok _, s') => (returned, Some (committed s'))
    | (Raise e, s') => (uncaught e, None)
    end
  else (returned, None).

(** *** Sequences of operations *)

(** What the user can ask the application to do to the store. *)
Inductive command :=
| Perform (op : operation)
| UpdateOrderStatus (order_id : Z) (new_status : string).

Definition execute_command (c : command) (now : string)
  : App -> outcome * App :=
  match c with
  | Perform op => perform op now
  | UpdateOrderStatus order_id new_status =>
      update_order_status order_id new_status now
  end.

(** Commands one after the other, each with the time it is run at. *)
Fixpoint run_commands (cs : list (command * string)) (s : App) : App :=
  match cs with
  | [] => s
  | (c, now) :: cs' => run_commands cs' (snd (execute_command c now s))
  end.

(** The user of the session, if any, is a row of the users table. *)
Definition session_valid (s : App) : Prop :=
  match current_user s with
  | Some u => existsb (fun x => Users.id x =? user0 u) (users (conn s)) = true
  | None => True
  end.

(** The columns of a user row that [do_login] compares. *)
Definition credentials (u : Users.row) : Z * string * string * Z :=
  (Users.id u, Users.username u, Users.password u, Users.is_active u).

(** What no statement of the operations does to the database: the audit
    log only grows at its end, no user is added, removed or given other
    credentials, and the permissions, the products, the inventory movements
    and the order items are not written. *)
Definition evolves (db db' : Database) : Prop :=
  (exists l, audit_log db' = (audit_log db ++ l)%list)
  /\ List.map credentials (users db') = List.map credentials (users db)
  /\ permissions db' = permissions db
  /\ products db' = products db
  /\ inventory_movements db' = inventory_movements db
  /\ sales_order_items db' = sales_order_items db.

(** A computation whose every run relates the state before and the state
    after by [R], whether it returns or raises. *)
Definition preserves {A} (R : App -> App -> Prop) (m : M A) : Prop :=
  forall s, R s (snd (m s)).

(** The three outcomes that report a completed operation. *)
Definition completed (o : outcome) : Prop :=
  (exists message, o = showinfo "Success" message)
  \/ o = status_var "Login successful".

(** [evolves], on the database the connection sees. *)
Definition evolving (s s' : App) : Prop := evolves (conn s) (conn s').

(** The session is the same: same user, same capability map. *)
Definition same_session (s s' : App) : Prop :=
  current_user s' = current_user s /\ user_permissions s' = user_permissions s.

(** The permission rows of a user for a module, in rowid order. *)
Definition permission_rows (user_id : Z) (module : string) (db : Database)
  : list Permissions.row :=
  List.filter (fun r => (Permissions.user_id r =? user_id)
                        && String.eqb (Permissions.module r) module)
              (permissions db).

(** *** [create_tables] and the start of [__init__]

    The tables of a [Database] always exist, so the CREATE TABLE IF NOT
    EXISTS statements do nothing to it; what is left is the creation of the
    initial administrator.  [Database] carries no [sqlite_sequence] rows for
    users and permissions: they are the arguments [seq_users] and
    [seq_permissions]. *)

Definition set_permissions (ps : list Permissions.row) (db : Database)
  : Database :=
  {| users := users db; permissions := ps; customers := customers db;
     products := products db; inventory_movements := inventory_movements db;
     audit_log := audit_log db; sales_orders := sales_orders db;
     sales_order_items := sales_order_items db;
     seq_customers := seq_customers db; seq_audit_log := seq_audit_log db |}.

(** [SELECT COUNT( * ) FROM users WHERE username='admin'] *)
Definition admin_count (db : Database) : Z :=
  Z.of_nat (List.length
    (List.filter (fun u => String.eqb (Users.username u) "admin") (users db))).

(** The row of [INSERT INTO users (username, password, name, email, role,
    created_at) VALUES ('admin', hash_password('admin123'), 'Administrator',
    'admin@erp.com', 'Admin', now)]; [is_active] defaults to 1. *)
Definition admin_row (id : Z) (created_at : string) : Users.row :=
  {| Users.id := id;
     Users.username := "admin";
     Users.password := hash_password "admin123";
     Users.name := "Administrator";
     Users.email := "admin@erp.com";
     Users.role := "Admin";
     Users.department := None; Users.phone := None;
     Users.last_login := None; Users.is_active := 1;
     Users.created_at := created_at;
     Users.updated_at := None |}.

(** The insert itself: [username] and [email] are UNIQUE. *)
Definition insert_admin (created_at : string) (seq_users : Z) (db : Database)
  : result Database :=
  if existsb (fun u => String.eqb (Users.username u) "admin") (users db) then
    Raise (IntegrityError "UNIQUE constraint failed: users.username")
  else if existsb (fun u => String.eqb (Users.email u) "admin@erp.com") (users db) then
    Raise (IntegrityError "UNIQUE constraint failed: users.email")
  else
    Ok (set_users
          (users db ++
           [ admin_row (next_rowid seq_users (List.map Users.id (users db)))
                       created_at ])
          db).

(** The row of [INSERT INTO permissions (user_id, module, can_view,
    can_create, can_edit, can_delete) VALUES (1, 'all', 1, 1, 1, 1)]. *)
Definition wildcard_row (id : Z) : Permissions.row :=
  {| Permissions.id := id;
     Permissions.user_id := 1; Permissions.module := "all";
     Permissions.can_view := 1; Permissions.can_create := 1;
     Permissions.can_edit := 1; Permissions.can_delete := 1 |}.

(** The insert itself, with the foreign key on [user_id]. *)
Definition insert_admin_permissions (seq_permissions : Z) (db : Database)
  : result Database :=
  if existsb (fun u => Users.id u =? 1) (users db) then
    Ok (set_permissions
          (permissions db ++
           [ wildcard_row (next_rowid seq_permissions
                             (List.map Permissions.id (permissions db))) ])
          db)
  else Raise (IntegrityError "FOREIGN KEY constraint failed").

Definition create_tables (now : string) (seq_users seq_permissions : Z)
  : M unit :=
  db ← gets conn;
  (if admin_count db =? 0 then
     execute (insert_admin now seq_users);;
     execute (insert_admin_permissions seq_permissions)
   else mret tt);;
  commit.

(** [__init__], from the connection to the database file to the
    application state: [file] is what 'erp_advanced.db' holds. *)
Definition init (now : string) (seq_users seq_permissions : Z) (file : Database)
  : outcome * App :=
  let s := {| conn := file; committed := file; current_user := None;
              user_permissions := ∅ |} in
  match create_tables now seq_users seq_permissions s with
  | (Ok _, s') => (returned, s')
  | (Raise e, s') =>
      (showerror_exn "Database Error" ("Cannot connect to database:" +:+ nl) e, s')
  end.

(** A database file whose tables are all empty and have always been. *)
Definition empty_database : Database :=
  {| users := []; permissions := []; customers := []; products := [];
     inventory_movements := []; audit_log := []; sales_orders := [];
     sales_order_items := []; seq_customers := 0; seq_audit_log := 0 |}.

(** *** More of [load_dashboard_data] *)

(** [SELECT COUNT( * ) FROM customers WHERE created_at BETWEEN ? AND ?].  The
    two parameters are dates, which [sqlite3] binds as their ISO text
    'YYYY-MM-DD'; [created_at] is text too, and SQLite compares the texts
    bytewise. *)
Definition new_customer_rows (start_date end_date : string) (db : Database)
  : list Customers.row :=
  List.filter (fun c => String.leb start_date (Customers.created_at c)
                        && String.leb (Customers.created_at c) end_date)
              (customers db).

Definition new_customers (start_date end_date : string) (db : Database) : Z :=
  Z.of_nat (List.length (new_customer_rows start_date end_date db)).

(** [SELECT COUNT( * ) FROM sales_orders WHERE status IN ('Draft', 'Confirmed')
    AND order_date BETWEEN ? AND ?] *)
Definition is_pending (start_date end_date : Z) (o : SalesOrders.row) : bool :=
  (String.eqb (SalesOrders.status o) "Draft"
   || String.eqb (SalesOrders.status o) "Confirmed")
  && ((start_date <=? SalesOrders.order_date o)
      && (SalesOrders.order_date o <=? end_date)).

Definition pending_orders (start_date end_date : Z) (db : Database) : Z :=
  Z.of_nat (List.length
    (List.filter (is_pending start_date end_date) (sales_orders db))).

(** *** [print_order]: the path of the file written

    [file_path.replace('.pdf', '.csv')]: every occurrence of ['.pdf'], found
    from the left and without overlap, becomes ['.csv']. *)
Fixpoint csv_path (file_path : string) : string :=
  match file_path with
  | String c0 (String c1 (String c2 (String c3 rest)) as tail) =>
      if Ascii.eqb c0 "." && Ascii.eqb c1 "p" && Ascii.eqb c2 "d" && Ascii.eqb c3 "f"
      then String "." (String "c" (String "s" (String "v" (csv_path rest))))
      else String c0 (csv_path tail)
  | String c0 tail => String c0 (csv_path tail)
  | EmptyString => EmptyString
  end.

(** [sub in s] *)
Fixpoint occurs (sub s : string) : bool :=
  String.prefix sub s
  || match s with
     | String _ s' => occurs sub s'
     | EmptyString => false
     end.

(** *** [str.strip()]

    The characters that [str.strip()] removes, in UTF-8: U+0009 to U+000D,
    U+001C to U+0020, U+0085, U+00A0, U+1680, U+2000 to U+200A, U+2028,
    U+2029, U+202F, U+205F and U+3000. *)
Definition utf8 (bytes : list nat) : list ascii := List.map ascii_of_nat bytes.

Definition whitespace : list (list ascii) :=
  (List.map (fun b => utf8 [b]) (List.seq 9 5 ++ List.seq 28 5)
   ++ [utf8 [194; 133]; utf8 [194; 160]; utf8 [225; 154; 128]]
   ++ List.map (fun b => utf8 [226; 128; b]) (List.seq 128 11 ++ [168; 169; 175])
   ++ [utf8 [226; 129; 159]; utf8 [227; 128; 128]])%nat%list.

(** Remove whitespace from the start of [l] as long as there is some;
    [fuel] bounds the number of characters removed. *)
Fixpoint lstrip_from (fuel : nat) (l : list ascii) : list ascii :=
  match fuel with
  | O => l
  | S fuel' =>
      match List.find (fun w => bool_decide (w `prefix_of` l)) whitespace with
      | Some w => lstrip_from fuel' (drop (List.length w) l)
      | None => l
      end
  end.

(** The same from the end. *)
Fixpoint rstrip_from (fuel : nat) (l : list ascii) : list ascii :=
  match fuel with
  | O => l
  | S fuel' =>
      match List.find (fun w => bool_decide (w `suffix_of` l)) whitespace with
      | Some w => rstrip_from fuel' (take (List.length l - List.length w) l)
      | None => l
      end
  end.

Definition lstrip (l : list ascii) : list ascii := lstrip_from (List.length l) l.
Definition rstrip (l : list ascii) : list ascii := rstrip_from (List.length l) l.

Definition strip (s : string) : string :=
  string_of_list_ascii (rstrip (lstrip (list_ascii_of_string s))).

(** *** [customer_dialog] and [edit_customer]: what the form holds

    [SELECT * FROM customers WHERE id=?] with [fetchone()] *)
Definition select_customer (customer_id : Z) (db : Database)
  : option Customers.row :=
  List.find (fun c => Customers.id c =? customer_id) (customers db).

(** The form as the dialog shows it before the user touches it.  Every field
    starts empty, the two comboboxes on the first of their values; when
    editing, each column of the row that is not NULL is then put into its
    field.  A [StringVar] set to a number gives back text that [int()] or
    [float()] converts to that number; [get("1.0", tk.END)] of the text
    widget gives its content followed by a newline. *)
Definition customer_dialog (customer_id : option Z) (s : App) : Form.vars :=
  let customer :=
    match truthy customer_id with
    | Some i => select_customer i (conn s)
    | None => None
    end in
  let text (initial : string) (column : Customers.row -> option string) :=
    default initial (customer ≫= column) in
  let number {A} (column : Customers.row -> option A) : entry A :=
    match customer ≫= column with
    | Some a => parsed a
    | None => blank
    end in
  {| Form.code := text EmptyString (fun c => Some (Customers.code c));
     Form.name := text EmptyString (fun c => Some (Customers.name c));
     Form.status := text "Active" Customers.status;
     Form.contact_person := text EmptyString Customers.contact_person;
     Form.phone := text EmptyString Customers.phone;
     Form.email := text EmptyString Customers.email;
     Form.address := text EmptyString Customers.address;
     Form.city := text EmptyString Customers.city;
     Form.state := text EmptyString Customers.state;
     Form.country := text EmptyString Customers.country;
     Form.postal_code := text EmptyString Customers.postal_code;
     Form.tax_id := text EmptyString Customers.tax_id;
     Form.payment_terms := number Customers.payment_terms;
     Form.credit_limit := number Customers.credit_limit;
     Form.currency := text "USD" Customers.currency;
     Form.notes := strip (text EmptyString Customers.notes ++ nl) |}.

(** [edit_customer]: [selected] is the id of the row that has the focus in
    the tree view, if any.  The result is the warning, or the dialog: the
    [customer_id] that its Save button passes to [save_customer], and the
    form. *)
Definition edit_customer (customer_id selected : option Z) (s : App)
  : outcome + option Z * Form.vars :=
  match truthy customer_id with
  | Some i => inr (Some i, customer_dialog (Some i) s)
  | None =>
      match selected with
      | Some i => inr (Some i, customer_dialog (Some i) s)
      | None => inl (showwarning "Warning" "Please select a customer first")
      end
  end.

(** The row that the Save button of an untouched edit dialog writes back in
    the place of [c]. *)
Definition resaved (now : string) (c : Customers.row) : Customers.row :=
  {| Customers.id := Customers.id c;
     Customers.code := Customers.code c;
     Customers.name := Customers.name c;
     Customers.contact_person := Customers.contact_person c ≫= or_None;
     Customers.address := Customers.address c ≫= or_None;
     Customers.city := Customers.city c ≫= or_None;
     Customers.state := Customers.state c ≫= or_None;
     Customers.country := Customers.country c ≫= or_None;
     Customers.postal_code := Customers.postal_code c ≫= or_None;
     Customers.phone := Customers.phone c ≫= or_None;
     Customers.email := Customers.email c ≫= or_None;
     Customers.tax_id := Customers.tax_id c ≫= or_None;
     Customers.payment_terms := Customers.payment_terms c;
     Customers.credit_limit := Customers.credit_limit c;
     Customers.currency := or_None (default "USD" (Customers.currency c));
     Customers.status := Some (default "Active" (Customers.status c));
     Customers.notes :=
       Some (strip (default EmptyString (Customers.notes c) ++ nl));
     Customers.created_by := Customers.created_by c;
     Customers.created_at := Customers.created_at c;
     Customers.updated_at := Some now |}.

(** *** The ids of the customers table *)

Definition customer_ids (db : Database) : list Z :=
  List.map Customers.id (customers db).

(** The AUTOINCREMENT sequence of [customers] is at least every id in the
    table, as SQLite keeps it. *)
Definition sequence_ahead (db : Database) : Prop :=
  List.Forall (fun c => Customers.id c <= seq_customers db) (customers db).

(** From [db] to [db'] the sequence has not gone back and no id that it had
    passed has come into the table. *)
Definition ids_stay_free (db db' : Database) : Prop :=
  sequence_ahead db ->
  sequence_ahead db'
  /\ seq_customers db <= seq_customers db'
  /\ forall i, i <= seq_customers db ->
       In i (customer_ids db') -> In i (customer_ids db).

Definition keeping_ids (s s' : App) : Prop := ids_stay_free (conn s) (conn s').

(** * Theorems *)

(** ** The hash *)

Example hash_password_empty :
  hash_password EmptyString
  = "e3b0c44298fc1c149afbf4c8996fb92427ae41e4649b934ca495991b7852b855".
Proof. vm_compute. reflexivity. Qed.

Example hash_password_abc :
  hash_password "abc"
  = "ba7816bf8f01cfea414140de5dae2223b00361a396177a9cb410ff61f20015ad".
Proof. vm_compute. reflexivity. Qed.

Example hash_password_two_blocks :
  hash_password "abcdbcdecdefdefgefghfghighijhijkijkljklmklmnlmnomnopnopq"
  = "248d6a61d20638b8e5c026930c3e6039a33ce45964ff2167f6ecedd419db06c1".
Proof. vm_compute. reflexivity. Qed.

Example hash_password_admin123 :
  hash_password "admin123"
  = "240be518fabd2724ddb6f04eeb1da5967448d7e831c08c8fa822809f74c720a9".
Proof. vm_compute. reflexivity. Qed.

(** ** Strings, users and foreign keys *)

Lemma is_empty_true (s : string) : is_empty s = true <-> s = EmptyString.
Proof. destruct s; simpl; split; congruence. Qed.

Lemma is_empty_false (s : string) : is_empty s = false <-> s <> EmptyString.
Proof. destruct s; simpl; split; congruence. Qed.

Lemma user_id_exists (u : Users.row) (l : list Users.row) :
  In u l -> existsb (fun x => Users.id x =? Users.id u) l = true.
Proof.
  intros Hin. apply existsb_exists. exists u. split; [exact Hin | apply Z.eqb_refl].
Qed.

Lemma existsb_id_map (f : Users.row -> Users.row) (i : Z) (l : list Users.row) :
  (forall x, Users.id (f x) = Users.id x) ->
  existsb (fun x => Users.id x =? i) (List.map f l)
  = existsb (fun x => Users.id x =? i) l.
Proof.
  intros Hf. induction l as [| x l IH]; simpl; [reflexivity |].
  rewrite Hf, IH. reflexivity.
Qed.

Lemma update_last_login_ids (t : string) (i j : Z) (l : list Users.row) :
  existsb (fun x => Users.id x =? j)
    (List.map (fun u => if Users.id u =? i
                        then Users.set_last_login (Some t) u else u) l)
  = existsb (fun x => Users.id x =? j) l.
Proof.
  apply existsb_id_map. intros x. destruct (Users.id x =? i); reflexivity.
Qed.

(** ** [do_login] *)

Lemma login_matches_spec (username password_hash : string) (u : Users.row) :
  login_matches username password_hash u = true <->
  Users.username u = username /\ Users.password u = password_hash
  /\ Users.is_active u = 1.
Proof.
  unfold login_matches. rewrite !andb_true_iff, !String.eqb_eq, Z.eqb_eq. tauto.
Qed.

Lemma select_user_Some (username password : string) (db : Database) :
  credentials_match username password db <->
  exists u, List.find (login_matches username (hash_password password)) (users db)
            = Some u.
Proof.
  split.
  - intros (u & Hin & Hu).
    destruct (List.find _ (users db)) as [v |] eqn:Hfind; [eauto |].
    pose proof (find_none _ _ Hfind u Hin) as Hno.
    apply login_matches_spec in Hu. congruence.
  - intros (u & Hfind). apply find_some in Hfind as [Hin Hm].
    apply login_matches_spec in Hm. exists u. tauto.
Qed.

Lemma do_login_found (username password now : string) (s : App) (u : Users.row) :
  username <> EmptyString -> password <> EmptyString ->
  List.find (login_matches username (hash_password password)) (users (conn s))
  = Some u ->
  exists s',
    do_login username password now s
    = (showerror_exn "Error" ("Login failed:" +:+ nl)
         (AttributeError "show_dashboard"), s')
    /\ current_user s' = Some {| user0 := Users.id u; user1 := Users.username u;
                                 user2 := Users.name u; user3 := Users.email u;
                                 user4 := Users.role u |}
    /\ user_permissions s' = load_permissions (Users.id u) (conn s)
    /\ conn s' = conn s
    /\ committed s' = committed s.
Proof.
  intros Hu Hp Hfind.
  apply is_empty_false in Hu. apply is_empty_false in Hp.
  unfold do_login. rewrite Hu, Hp. cbn [orb].
  unfold show_dashboard. run. cbv beta. unfold select_user. rewrite Hfind. cbn.
  eexists. split; [reflexivity |]. cbn. repeat split.
Qed.

Lemma do_login_not_found (username password now : string) (s : App) :
  username <> EmptyString -> password <> EmptyString ->
  List.find (login_matches username (hash_password password)) (users (conn s))
  = None ->
  do_login username password now s
  = (showerror "Error" "Invalid username or password", s).
Proof.
  intros Hu Hp Hfind.
  apply is_empty_false in Hu. apply is_empty_false in Hp.
  unfold do_login. rewrite Hu, Hp. cbn [orb].
  run. cbv beta. unfold select_user. rewrite Hfind. reflexivity.
Qed.

(** No run of [do_login] ends in "Login successful": the call of
    [show_dashboard] raises before the status line is set. *)
Lemma do_login_never_completes (username password now : string) (s : App) :
  fst (do_login username password now s) <> status_var "Login successful".
Proof.
  unfold do_login.
  destruct (is_empty username || is_empty password); [discriminate |].
  unfold show_dashboard. run. cbv beta.
  destruct (select_user _ _ _); discriminate.
Qed.

Lemma classic_credentials (username password : string) (db : Database) :
  credentials_match username password db
  \/ ~ credentials_match username password db.
Proof.
  destruct (List.find (login_matches username (hash_password password))
              (users db)) as [u |] eqn:Hfind.
  - left. apply select_user_Some. eauto.
  - right. intros Hm. apply select_user_Some in Hm as (u & Hu). congruence.
Qed.

(** C10.  Called with an empty username or an empty secret, [do_login]
    reports "Please enter both username and password" and returns the
    application as it was: nothing is looked up, no audit entry is appended,
    and [current_user], [user_permissions] and every [last_login] are
    unchanged. *)
Theorem do_login_empty_refused (username password now : string) (s : App) :
  username = EmptyString \/ password = EmptyString ->
  do_login username password now s
  = (showerror "Error" "Please enter both username and password", s).
Proof.
  intros H. unfold do_login.
  assert (is_empty username || is_empty password = true) as ->.
  { apply orb_true_iff. rewrite !is_empty_true. exact H. }
  reflexivity.
Qed.

Lemma do_login_empty_refused_witness :
  do_login "admin" EmptyString Sample.now Sample.anonymous
  = (showerror "Error" "Please enter both username and password",
     Sample.anonymous).
Proof.
  apply (do_login_empty_refused "admin" EmptyString Sample.now Sample.anonymous).
  right. reflexivity.
Defined.

(** C6, as stated, fails: the stored password of [bob] is the SHA-256 digest
    of the empty secret and the account is active, yet logging in as [bob]
    with the empty secret is refused. *)
Lemma do_login_exactly_when_counterexample :
  credentials_match "bob" EmptyString (conn Sample.anonymous)
  /\ do_login "bob" EmptyString Sample.now Sample.anonymous
     = (showerror "Error" "Please enter both username and password",
        Sample.anonymous)
  /\ ~ (forall username password now s,
          authenticates username password now s
          <-> credentials_match username password (conn s)).
Proof.
  assert (credentials_match "bob" EmptyString (conn Sample.anonymous)) as Hbob.
  { exists Sample.bob. repeat split. simpl. right. left. reflexivity. }
  split; [exact Hbob |]. split; [reflexivity |].
  intros H.
  destruct (H "bob" EmptyString Sample.now Sample.anonymous) as [_ Hback].
  destruct (Hback Hbob) as (Hnot & _). apply Hnot. reflexivity.
Qed.

(** C6, amended.  For a non-empty username and a non-empty secret, [do_login]
    authenticates exactly when some user row has that username, a stored
    password equal to the SHA-256 hex digest of the secret, and
    [is_active = 1].  It then makes such a row the user of the session and
    loads that user's permissions, and writes nothing to the database;
    otherwise it answers "Invalid username or password" and leaves the
    application as it was, so an inactive account is refused even with the
    right secret.  With an empty username or secret it refuses whatever the
    users table holds. *)
Theorem do_login_succeeds_iff (username password now : string) (s : App) :
  let r := do_login username password now s in
  (username = EmptyString \/ password = EmptyString ->
   ~ authenticates username password now s
   /\ r = (showerror "Error" "Please enter both username and password", s))
  /\ (username <> EmptyString -> password <> EmptyString ->
      (authenticates username password now s
       <-> credentials_match username password (conn s))
      /\ (credentials_match username password (conn s) ->
          exists u, In u (users (conn s))
            /\ Users.username u = username
            /\ Users.password u = hash_password password
            /\ Users.is_active u = 1
            /\ current_user (snd r)
               = Some {| user0 := Users.id u; user1 := Users.username u;
                         user2 := Users.name u; user3 := Users.email u;
                         user4 := Users.role u |}
            /\ user_permissions (snd r) = load_permissions (Users.id u) (conn s)
            /\ conn (snd r) = conn s)
      /\ (~ credentials_match username password (conn s) ->
          r = (showerror "Error" "Invalid username or password", s))
      /\ (forall u, In u (users (conn s)) -> Users.username u = username ->
            Users.password u = hash_password password ->
            Users.is_active u <> 1 ->
            (forall v, In v (users (conn s)) -> Users.username v = username ->
                       v = u) ->
            r = (showerror "Error" "Invalid username or password", s))).
Proof.
  cbv zeta. split.
  - intros Hempty.
    assert (do_login username password now s
            = (showerror "Error" "Please enter both username and password", s))
      as Hrun.
    { unfold do_login.
      assert (is_empty username || is_empty password = true) as ->.
      { apply orb_true_iff. rewrite !is_empty_true. exact Hempty. }
      reflexivity. }
    split; [| exact Hrun].
    intros (Hnot & _). apply Hnot. rewrite Hrun. reflexivity.
  - intros Hu Hp.
    assert (~ credentials_match username password (conn s) ->
            do_login username password now s
            = (showerror "Error" "Invalid username or password", s)) as Hrefused.
    { intros Hno.
      destruct (List.find (login_matches username (hash_password password))
                  (users (conn s))) as [u |] eqn:Hfind.
      - exfalso. apply Hno. apply select_user_Some. eauto.
      - exact (do_login_not_found _ _ _ _ Hu Hp Hfind). }
    assert (credentials_match username password (conn s) ->
            exists u, In u (users (conn s))
              /\ Users.username u = username
              /\ Users.password u = hash_password password
              /\ Users.is_active u = 1
              /\ do_login username password now s
                 = (showerror_exn "Error" ("Login failed:" +:+ nl)
                      (AttributeError "show_dashboard"),
                    snd (do_login username password now s))
              /\ current_user (snd (do_login username password now s))
                 = Some {| user0 := Users.id u; user1 := Users.username u;
                           user2 := Users.name u; user3 := Users.email u;
                           user4 := Users.role u |}
              /\ user_permissions (snd (do_login username password now s))
                 = load_permissions (Users.id u) (conn s)
              /\ conn (snd (do_login username password now s)) = conn s)
      as Hfound.
    { intros Hm. apply select_user_Some in Hm as (u & Hfind).
      destruct (do_login_found _ _ now _ _ Hu Hp Hfind)
        as (s' & Hrun & Hcu & Hperm & Hconn & _).
      apply find_some in Hfind as [Hin Hm]. apply login_matches_spec in Hm.
      exists u. rewrite Hrun. cbn [snd]. tauto. }
    split; [| split; [| split; [exact Hrefused |]]].
    + split.
      * intros (_ & Hnot & _).
        destruct (classic_credentials username password (conn s)) as [Hm | Hno];
          [exact Hm |].
        exfalso. apply Hnot. rewrite (Hrefused Hno). reflexivity.
      * intros Hm. destruct (Hfound Hm) as (u & _ & Hname & _ & _ & Hrun & Hcu & _).
        unfold authenticates. cbv zeta. rewrite Hrun. cbn [fst snd].
        split; [discriminate |]. split; [discriminate |].
        eexists. split; [exact Hcu | exact Hname].
    + intros Hm. destruct (Hfound Hm) as (u & Hin & Hn & Hpw & Ha & _ & Hcu & Hperm & Hc).
      exists u. tauto.
    + intros u Hin Hname Hpw Hinactive Honly. apply Hrefused.
      intros (v & Hv & Hvn & _ & Hva).
      rewrite (Honly v Hv Hvn) in Hva. contradiction.
Qed.

Lemma do_login_succeeds_iff_witness :
  (authenticates "admin" "admin123" Sample.now Sample.anonymous
   <-> credentials_match "admin" "admin123" (conn Sample.anonymous))
  /\ (authenticates "dave" "secret" Sample.now Sample.anonymous
      <-> credentials_match "dave" "secret" (conn Sample.anonymous))
  /\ ~ authenticates "admin" EmptyString Sample.now Sample.anonymous.
Proof.
  split; [| split].
  - apply (proj2 (do_login_succeeds_iff "admin" "admin123" Sample.now
                    Sample.anonymous)); discriminate.
  - apply (proj2 (do_login_succeeds_iff "dave" "secret" Sample.now
                    Sample.anonymous)); discriminate.
  - apply (proj1 (do_login_succeeds_iff "admin" EmptyString Sample.now
                    Sample.anonymous)).
    right. reflexivity.
Defined.

(** The inactive user [dave] is refused with the right secret. *)
Example do_login_inactive :
  do_login "dave" "secret" Sample.now Sample.anonymous
  = (showerror "Error" "Invalid username or password", Sample.anonymous).
Proof. vm_compute. reflexivity. Qed.

(** [admin] is authenticated, and the session is theirs. *)
Example do_login_admin :
  authenticates "admin" "admin123" Sample.now Sample.anonymous
  /\ user1 <$> current_user Sample.as_admin = Some "admin".
Proof.
  split; [| vm_compute; reflexivity].
  unfold authenticates. cbv zeta. split; [| split].
  - vm_compute. discriminate.
  - vm_compute. discriminate.
  - eexists. split; [vm_compute; reflexivity | reflexivity].
Qed.

(** ** [update_order_status] *)

Lemma insert_audit_log_Ok (user_id : Z) (action table_name : string)
    (record_id : Z) (t : string) (db : Database) :
  existsb (fun u => Users.id u =? user_id) (users db) = true ->
  exists e,
    insert_audit_log user_id action table_name record_id t db
    = Ok (set_audit_log (audit_log db ++ [e])
            (next_rowid (seq_audit_log db) (List.map AuditLog.id (audit_log db)))
            db)
    /\ AuditLog.user_id e = Some user_id
    /\ AuditLog.action e = action
    /\ AuditLog.table_name e = table_name
    /\ AuditLog.record_id e = Some record_id.
Proof.
  intros Hfk. unfold insert_audit_log. rewrite Hfk.
  eexists. split; [reflexivity |]. repeat split.
Qed.

(** Whatever happens, [update_order_status] touches neither the movements,
    nor the products, nor the order items. *)
Lemma update_order_status_frame (order_id : Z) (new_status now : string) (s : App) :
  let s' := snd (update_order_status order_id new_status now s) in
  inventory_movements (conn s') = inventory_movements (conn s)
  /\ products (conn s') = products (conn s)
  /\ sales_order_items (conn s') = sales_order_items (conn s).
Proof.
  unfold update_order_status. run. cbn.
  destruct (current_user s) as [u |]; cbn; [| repeat split].
  unfold insert_audit_log. cbn.
  destruct (existsb _ (users (conn s))); cbn; repeat split.
Qed.

(** With a user logged in, [update_order_status] succeeds: every order with
    the id gets the requested status, one audit entry is appended, and both
    are committed. *)
Lemma update_order_status_logged_in (order_id : Z) (new_status now : string)
    (s : App) (u : user_tuple) :
  current_user s = Some u ->
  existsb (fun x => Users.id x =? user0 u) (users (conn s)) = true ->
  exists s' e,
    update_order_status order_id new_status now s
    = (showinfo "Success" ("Order status updated to " +:+ new_status), s')
    /\ sales_orders (conn s')
       = List.map (fun o => if SalesOrders.id o =? order_id
                            then SalesOrders.set_status new_status now o else o)
                  (sales_orders (conn s))
    /\ audit_log (conn s') = (audit_log (conn s) ++ [e])%list
    /\ AuditLog.action e = "update"
    /\ AuditLog.table_name e = "sales_orders"
    /\ AuditLog.record_id e = Some order_id
    /\ committed s' = conn s'.
Proof.
  intros Hu Hfk. unfold update_order_status. run. cbn. rewrite Hu. cbn.
  unfold insert_audit_log. cbn. rewrite Hfk. cbn.
  eexists. eexists. split; [reflexivity |]. cbn. repeat split.
Qed.

Lemma stock_matches_movements_ext (db db' : Database) :
  products db' = products db ->
  inventory_movements db' = inventory_movements db ->
  (stock_matches_movements db <-> stock_matches_movements db').
Proof.
  intros Hp Hm. unfold stock_matches_movements, movement_sum.
  rewrite Hp, Hm. reflexivity.
Qed.

Example sample_stock_matches_movements : stock_matches_movements Sample.db.
Proof. intros p [<- | []]. vm_compute. reflexivity. Qed.

(** C1, as stated, fails: shipping the draft order 1, which has one item of
    three units of product 1, succeeds; no Sale movement is emitted and the
    stock of product 1 is still ten. *)
Lemma update_order_status_movements_counterexample :
  let r := update_order_status 1 "Shipped" Sample.now Sample.as_admin in
  fst r = showinfo "Success" "Order status updated to Shipped"
  /\ List.map (fun i => (SalesOrderItems.product_id i, SalesOrderItems.quantity i))
       (items_of 1 (conn Sample.as_admin))
     = [(1, inject_Z 3)]
  /\ List.map (fun p => (Products.id p, Products.current_stock p))
       (products (conn (snd r)))
     = [(1, inject_Z 10)]
  /\ ~ emits_sale_movements 1 (conn Sample.as_admin) (conn (snd r)).
Proof.
  cbv zeta. split; [vm_compute; reflexivity |].
  split; [vm_compute; reflexivity |].
  split; [vm_compute; reflexivity |].
  intros (ms & Heq & Hall).
  destruct (update_order_status_frame 1 "Shipped" Sample.now Sample.as_admin)
    as (Hm & _).
  cbv zeta in Hm. rewrite Hm in Heq.
  rewrite <- (app_nil_r (inventory_movements (conn Sample.as_admin))) in Heq at 1.
  apply app_inv_head in Heq. subst ms.
  vm_compute in Hall. inversion Hall.
Qed.

(** Nor does it touch the customers, the users or the permissions. *)
Lemma update_order_status_frame_rest (order_id : Z) (new_status now : string)
    (s : App) :
  let s' := snd (update_order_status order_id new_status now s) in
  customers (conn s') = customers (conn s)
  /\ users (conn s') = users (conn s)
  /\ permissions (conn s') = permissions (conn s).
Proof.
  unfold update_order_status. run. cbn.
  destruct (current_user s) as [u |]; cbn; [| repeat split].
  unfold insert_audit_log. cbn.
  destruct (existsb _ (users (conn s))); cbn; repeat split.
Qed.

(** C1, amended.  A transition by [update_order_status], into Shipped,
    Completed or any other status, emits no Inventory Movement and changes
    no product and no order item, so every [current_stock] equals the signed
    sum of the product's movements afterwards exactly when it did before.
    With a user logged in it succeeds and writes only this: in the orders
    with the id, [status] and [updated_at], every other order and every
    other column being kept, and one "update" entry at the end of the audit
    log; the two are committed together. *)
Theorem update_order_status_keeps_stock (order_id : Z) (new_status now : string)
    (s : App) :
  let r := update_order_status order_id new_status now s in
  inventory_movements (conn (snd r)) = inventory_movements (conn s)
  /\ products (conn (snd r)) = products (conn s)
  /\ sales_order_items (conn (snd r)) = sales_order_items (conn s)
  /\ customers (conn (snd r)) = customers (conn s)
  /\ users (conn (snd r)) = users (conn s)
  /\ permissions (conn (snd r)) = permissions (conn s)
  /\ (stock_matches_movements (conn s) <-> stock_matches_movements (conn (snd r)))
  /\ (forall u, current_user s = Some u ->
        existsb (fun x => Users.id x =? user0 u) (users (conn s)) = true ->
        fst r = showinfo "Success" ("Order status updated to " +:+ new_status)
        /\ Forall2
             (fun o o' =>
                SalesOrders.id o' = SalesOrders.id o
                /\ SalesOrders.customer_id o' = SalesOrders.customer_id o
                /\ SalesOrders.order_date o' = SalesOrders.order_date o
                /\ SalesOrders.total_amount o' = SalesOrders.total_amount o
                /\ if SalesOrders.id o =? order_id
                   then SalesOrders.status o' = new_status
                        /\ SalesOrders.updated_at o' = Some now
                   else o' = o)
             (sales_orders (conn s)) (sales_orders (conn (snd r)))
        /\ (forall o, In o (sales_orders (conn (snd r))) ->
              SalesOrders.id o = order_id -> SalesOrders.status o = new_status)
        /\ (exists e,
              audit_log (conn (snd r)) = (audit_log (conn s) ++ [e])%list
              /\ AuditLog.user_id e = Some (user0 u)
              /\ AuditLog.action e = "update"
              /\ AuditLog.table_name e = "sales_orders"
              /\ AuditLog.record_id e = Some order_id)
        /\ List.length (audit_log (conn (snd r)))
           = S (List.length (audit_log (conn s)))
        /\ committed (snd r) = conn (snd r)).
Proof.
  cbv zeta.
  destruct (update_order_status_frame order_id new_status now s) as (Hm & Hp & Hi).
  destruct (update_order_status_frame_rest order_id new_status now s)
    as (Hcs & Hus & Hps).
  cbv zeta in Hm, Hp, Hi, Hcs, Hus, Hps.
  split; [exact Hm |]. split; [exact Hp |]. split; [exact Hi |].
  split; [exact Hcs |]. split; [exact Hus |]. split; [exact Hps |].
  split; [apply stock_matches_movements_ext; assumption |].
  intros u Hu Hfk.
  assert (exists s' e,
            update_order_status order_id new_status now s
            = (showinfo "Success" ("Order status updated to " +:+ new_status), s')
            /\ sales_orders (conn s')
               = List.map (fun o => if SalesOrders.id o =? order_id
                                    then SalesOrders.set_status new_status now o
                                    else o)
                          (sales_orders (conn s))
            /\ audit_log (conn s') = (audit_log (conn s) ++ [e])%list
            /\ AuditLog.user_id e = Some (user0 u)
            /\ AuditLog.action e = "update"
            /\ AuditLog.table_name e = "sales_orders"
            /\ AuditLog.record_id e = Some order_id
            /\ committed s' = conn s')
    as (s' & e & -> & Hso & Hal & Heu & Hea & Het & Her & Hc).
  { unfold update_order_status. run. cbn. rewrite Hu. cbn.
    unfold insert_audit_log. cbn. rewrite Hfk. cbn.
    eexists. eexists. split; [reflexivity |]. cbn.
    split; [reflexivity |]. split; [reflexivity |]. tauto. }
  cbn [fst snd]. split; [reflexivity |].
  split; [| split; [| split; [| split; [| exact Hc]]]].
  - rewrite Hso. clear. induction (sales_orders (conn s)) as [| o l IH];
      cbn [List.map]; constructor; [| exact IH].
    destruct (SalesOrders.id o =? order_id) eqn:E; cbn; rewrite ?E; tauto.
  - intros o Hin Hid. rewrite Hso in Hin. apply in_map_iff in Hin as (o0 & <- & _).
    destruct (SalesOrders.id o0 =? order_id) eqn:E; [reflexivity |].
    apply Z.eqb_neq in E. contradiction.
  - exists e. tauto.
  - rewrite Hal, length_app. cbn. lia.
Qed.

Lemma update_order_status_keeps_stock_witness :
  let r := update_order_status 1 "Shipped" Sample.now Sample.as_admin in
  fst r = showinfo "Success" "Order status updated to Shipped"
  /\ inventory_movements (conn (snd r)) = inventory_movements Sample.db
  /\ products (conn (snd r)) = products Sample.db
  /\ sales_order_items (conn (snd r)) = sales_order_items Sample.db.
Proof.
  cbv zeta.
  destruct (update_order_status_keeps_stock 1 "Shipped" Sample.now Sample.as_admin)
    as (Hm & Hp & Hi & _ & _ & _ & _ & Hlogged).
  cbv zeta in Hm, Hp, Hi, Hlogged.
  destruct (Hlogged {| user0 := 1; user1 := "admin"; user2 := "Administrator";
                       user3 := "admin@erp.com"; user4 := "Admin" |})
    as (Hok & _).
  - vm_compute. reflexivity.
  - vm_compute. reflexivity.
  - split; [exact Hok |]. split; [exact Hm |]. split; [exact Hp | exact Hi].
Defined.

Lemma status_buttons_legal (old new : string) :
  In new (status_buttons old) <-> legal_transition old new.
Proof.
  unfold status_buttons, legal_transition. split.
  - intros Hin. apply in_app_or in Hin as [Hin | Hin].
    + destruct (String.eqb old "Draft") eqn:Ed; cbn [orb] in Hin.
      * apply String.eqb_eq in Ed. destruct Hin as [<- | []]. tauto.
      * destruct (String.eqb old "Confirmed") eqn:Ec; [| destruct Hin].
        apply String.eqb_eq in Ec. destruct Hin as [<- | []]. tauto.
    + destruct (String.eqb old "Shipped") eqn:Es; [| destruct Hin].
      apply String.eqb_eq in Es. destruct Hin as [<- | []]. tauto.
  - intros [[-> ->] | [[-> ->] | [-> ->]]]; vm_compute; tauto.
Qed.

(** C2, as stated, fails: asked to take the completed order 2 back to Draft,
    which is not a legal transition, [update_order_status] reports success
    and the order is a draft afterwards.  The same holds for Completed to
    Shipped, which the "Mark as Shipped" button of a details dialog opened
    before the order was shipped still requests. *)
Lemma update_order_status_transition_counterexample :
  let r := update_order_status 2 "Draft" Sample.now Sample.as_admin in
  let r' := update_order_status 2 "Shipped" Sample.now Sample.as_admin in
  ~ legal_transition "Completed" "Draft"
  /\ ~ legal_transition "Completed" "Shipped"
  /\ List.map SalesOrders.status
       (List.filter (fun o => SalesOrders.id o =? 2)
                    (sales_orders (conn Sample.as_admin)))
     = ["Completed"]
  /\ fst r = showinfo "Success" "Order status updated to Draft"
  /\ List.map SalesOrders.status
       (List.filter (fun o => SalesOrders.id o =? 2) (sales_orders (conn (snd r))))
     = ["Draft"]
  /\ fst r' = showinfo "Success" "Order status updated to Shipped"
  /\ List.map SalesOrders.status
       (List.filter (fun o => SalesOrders.id o =? 2) (sales_orders (conn (snd r'))))
     = ["Shipped"].
Proof.
  cbv zeta. split; [| split].
  - intros [[H _] | [[H _] | [H _]]]; discriminate.
  - intros [[H _] | [[H _] | [H _]]]; discriminate.
  - repeat split; vm_compute; reflexivity.
Qed.

(** C2, amended.  [update_order_status] checks no transition and reports no
    InvalidTransitionError: with a user logged in and any requested status
    among Draft, Confirmed, Shipped and Completed it succeeds, whatever the
    current status of the order, which then has the requested status.  The
    legal transitions Draft to Shipped, Confirmed to Shipped and Shipped to
    Completed are exactly the ones that the buttons of the order details
    dialog request. *)
Theorem update_order_status_any_transition :
  (forall old new, In new (status_buttons old) <-> legal_transition old new)
  /\ (forall order_id new_status now s u,
        In new_status order_statuses ->
        current_user s = Some u ->
        existsb (fun x => Users.id x =? user0 u) (users (conn s)) = true ->
        exists s',
          update_order_status order_id new_status now s
          = (showinfo "Success" ("Order status updated to " +:+ new_status), s')
          /\ sales_orders (conn s')
             = List.map (fun o => if SalesOrders.id o =? order_id
                                  then SalesOrders.set_status new_status now o
                                  else o)
                        (sales_orders (conn s))).
Proof.
  split; [exact status_buttons_legal |].
  intros order_id new_status now s u _ Hu Hfk.
  destruct (update_order_status_logged_in order_id new_status now s u Hu Hfk)
    as (s' & e & Hrun & Hso & _).
  exists s'. split; assumption.
Qed.

Lemma update_order_status_any_transition_witness :
  exists s',
    update_order_status 2 "Draft" Sample.now Sample.as_admin
    = (showinfo "Success" ("Order status updated to " +:+ "Draft"), s')
    /\ sales_orders (conn s')
       = List.map (fun o => if SalesOrders.id o =? 2
                            then SalesOrders.set_status "Draft" Sample.now o
                            else o)
                  (sales_orders (conn Sample.as_admin)).
Proof.
  apply (proj2 update_order_status_any_transition 2 "Draft" Sample.now
           Sample.as_admin
           {| user0 := 1; user1 := "admin"; user2 := "Administrator";
              user3 := "admin@erp.com"; user4 := "Admin" |}).
  - simpl. tauto.
  - vm_compute. reflexivity.
  - vm_compute. reflexivity.
Defined.

(** ** [delete_customer] *)

Lemma delete_customer_blocked (customer_id : Z) (customer_name now : string)
    (s : App) :
  0 < order_count customer_id (conn s) ->
  delete_customer (Some (customer_id, customer_name)) true now s
  = (showerror "Error" "Cannot delete customer with existing orders", s).
Proof.
  intros Hpos. unfold delete_customer. cbn [negb]. run. cbv beta.
  apply Z.ltb_lt in Hpos. rewrite Hpos. reflexivity.
Qed.

Lemma delete_customer_done (customer_id : Z) (customer_name now : string)
    (s : App) (u : user_tuple) :
  order_count customer_id (conn s) = 0 ->
  current_user s = Some u ->
  existsb (fun x => Users.id x =? user0 u) (users (conn s)) = true ->
  exists s' e,
    delete_customer (Some (customer_id, customer_name)) true now s
    = (showinfo "Success" "Customer deleted successfully", s')
    /\ customers (conn s')
       = List.filter (fun c => negb (Customers.id c =? customer_id))
                     (customers (conn s))
    /\ audit_log (conn s') = (audit_log (conn s) ++ [e])%list
    /\ AuditLog.action e = "delete"
    /\ AuditLog.table_name e = "customers"
    /\ AuditLog.record_id e = Some customer_id
    /\ committed s' = conn s'.
Proof.
  intros Hzero Hu Hfk. unfold delete_customer. cbn [negb]. run. cbv beta.
  rewrite Hzero. cbn. rewrite Hu. cbn.
  unfold insert_audit_log. cbn. rewrite Hfk. cbn.
  eexists. eexists. split; [reflexivity |]. cbn. repeat split.
Qed.

(** C4.  [delete_customer], confirmed by the user, fails with "Cannot delete
    customer with existing orders" when at least one sales order references
    the customer, and leaves the customers table, and all the rest, as it
    was; when no sales order references the customer and a user is logged
    in, it succeeds and the customers table loses the rows with that id and
    no other. *)
Theorem delete_customer_referential_guard (customer_id : Z)
    (customer_name now : string) (s : App) :
  (0 < order_count customer_id (conn s) ->
   delete_customer (Some (customer_id, customer_name)) true now s
   = (showerror "Error" "Cannot delete customer with existing orders", s))
  /\ (order_count customer_id (conn s) = 0 ->
      forall u, current_user s = Some u ->
      existsb (fun x => Users.id x =? user0 u) (users (conn s)) = true ->
      exists s',
        delete_customer (Some (customer_id, customer_name)) true now s
        = (showinfo "Success" "Customer deleted successfully", s')
        /\ (forall c, In c (customers (conn s')) <->
                      In c (customers (conn s)) /\ Customers.id c <> customer_id)
        /\ committed s' = conn s').
Proof.
  split; [apply delete_customer_blocked |].
  intros Hzero u Hu Hfk.
  destruct (delete_customer_done customer_id customer_name now s u Hzero Hu Hfk)
    as (s' & e & Hrun & Hcs & _ & _ & _ & _ & Hc).
  exists s'. split; [exact Hrun |]. split; [| exact Hc].
  intros c. rewrite Hcs, filter_In, negb_true_iff, Z.eqb_neq. reflexivity.
Qed.

Lemma delete_customer_referential_guard_witness :
  delete_customer (Some (1, "Acme")) true Sample.now Sample.as_admin
  = (showerror "Error" "Cannot delete customer with existing orders",
     Sample.as_admin)
  /\ exists s',
       delete_customer (Some (2, "Beta")) true Sample.now Sample.as_admin
       = (showinfo "Success" "Customer deleted successfully", s')
       /\ (forall c, In c (customers (conn s')) <->
                     In c (customers (conn Sample.as_admin))
                     /\ Customers.id c <> 2)
       /\ committed s' = conn s'.
Proof.
  split.
  - apply (proj1 (delete_customer_referential_guard 1 "Acme" Sample.now
                    Sample.as_admin)).
    vm_compute. reflexivity.
  - apply (proj2 (delete_customer_referential_guard 2 "Beta" Sample.now
                    Sample.as_admin))
      with (u := {| user0 := 1; user1 := "admin"; user2 := "Administrator";
                    user3 := "admin@erp.com"; user4 := "Admin" |}).
    + vm_compute. reflexivity.
    + vm_compute. reflexivity.
    + vm_compute. reflexivity.
Defined.

Example delete_customer_removes_the_row :
  List.map Customers.code
    (customers (conn (snd (delete_customer (Some (2, "Beta")) true Sample.now
                             Sample.as_admin))))
  = ["C001"].
Proof. vm_compute. reflexivity. Qed.


(** ** The capability map *)

Section Blind.

Context {A B : Type}.

Lemma blind_ret (a : A) : blind (mret a).
Proof. intros perms s. reflexivity. Qed.

Lemma blind_raise (e : exn) : blind (@raise A e).
Proof. intros perms s. reflexivity. Qed.

Lemma blind_bind (m : M A) (k : A -> M B) :
  blind m -> (forall a, blind (k a)) -> blind (m ≫= k).
Proof.
  intros Hm Hk perms s. unfold mbind, M_bind. rewrite Hm.
  destruct (m s) as [[a | e] s1]; cbn; [apply Hk | reflexivity].
Qed.

Lemma blind_convert (e : entry A) : blind (convert e).
Proof. destruct e; intros perms s; reflexivity. Qed.

End Blind.

Lemma blind_execute (stmt : Database -> result Database) : blind (execute stmt).
Proof.
  intros perms s. unfold execute. cbn. destruct (stmt (conn s)); reflexivity.
Qed.

Lemma blind_commit : blind commit.
Proof. intros perms s. reflexivity. Qed.

Lemma blind_bind_parameters (e : entry Z) : blind (bind_parameters e).
Proof. destruct e; intros perms s; reflexivity. Qed.

Lemma blind_current_user_0 : blind current_user_0.
Proof.
  intros perms s. unfold current_user_0. cbn. destruct (current_user s); reflexivity.
Qed.

Lemma blind_gets_conn : blind (gets conn).
Proof. intros perms s. reflexivity. Qed.

Lemma blind_gets_current_user : blind (gets current_user).
Proof. intros perms s. reflexivity. Qed.

Lemma blind_try_except (body : M outcome) (handler : exn -> outcome) perms s :
  blind body ->
  try_except body handler (set_user_permissions perms s)
  = (fst (try_except body handler s),
     set_user_permissions perms (snd (try_except body handler s))).
Proof.
  intros Hb. unfold try_except. rewrite Hb.
  destruct (body s) as [[o | e] s1]; reflexivity.
Qed.

Create HintDb blind.
#[local] Hint Resolve blind_ret blind_raise blind_convert blind_execute
  blind_commit blind_bind_parameters blind_current_user_0 blind_gets_conn
  blind_gets_current_user : blind.

Ltac blind :=
  repeat first
    [ progress auto with blind
    | apply blind_bind
    | match goal with
      | |- forall _, _ => intro
      | |- blind (match ?x with _ => _ end) => destruct x
      | |- blind (if ?b then _ else _) => destruct b
      | |- blind (let _ := _ in _) => cbv zeta
      end ].

Lemma save_customer_blind (customer_id : option Z) (form : Form.vars)
    (now : string) perms (s : App) :
  save_customer customer_id form now (set_user_permissions perms s)
  = (fst (save_customer customer_id form now s),
     set_user_permissions perms (snd (save_customer customer_id form now s))).
Proof. apply blind_try_except. blind. Qed.

Lemma delete_customer_blind (selected : option (Z * string)) (confirm : bool)
    (now : string) perms (s : App) :
  delete_customer selected confirm now (set_user_permissions perms s)
  = (fst (delete_customer selected confirm now s),
     set_user_permissions perms (snd (delete_customer selected confirm now s))).
Proof.
  unfold delete_customer. destruct selected as [[customer_id customer_name] |];
    [| reflexivity].
  destruct confirm; [| reflexivity]. cbn [negb].
  apply blind_try_except. blind.
Qed.

Lemma update_order_status_blind (order_id : Z) (new_status now : string)
    perms (s : App) :
  update_order_status order_id new_status now (set_user_permissions perms s)
  = (fst (update_order_status order_id new_status now s),
     set_user_permissions perms (snd (update_order_status order_id new_status now s))).
Proof. apply blind_try_except. blind. Qed.

(** C5, as stated, fails: [carol] holds the capability to view customers
    and no other, so the capability to delete them is lacking; the delete of
    customer 2, which no order references, is not refused in that session,
    and the row is gone from the committed database. *)
Lemma authorize_counterexample :
  let r := delete_customer (Some (2, "Beta")) true Sample.now Sample.as_carol in
  authorize (user_permissions Sample.as_carol) "customers" "delete" = false
  /\ fst r = showinfo "Success" "Customer deleted successfully"
  /\ List.map Customers.code (customers (committed Sample.as_carol))
     = ["C001"; "C002"]
  /\ List.map Customers.code (customers (committed (snd r))) = ["C001"].
Proof. cbv zeta. repeat split; vm_compute; reflexivity. Qed.

(** C5, amended.  No mutating operation consults the capability map that
    [do_login] loads: [save_customer], [delete_customer] and
    [update_order_status] give the same outcome and do the same writes
    whatever [user_permissions] holds, and leave the map as it is. *)
Theorem mutations_ignore_permissions (now : string) perms (s : App) :
  (forall customer_id form,
     save_customer customer_id form now (set_user_permissions perms s)
     = (fst (save_customer customer_id form now s),
        set_user_permissions perms (snd (save_customer customer_id form now s))))
  /\ (forall selected confirm,
        delete_customer selected confirm now (set_user_permissions perms s)
        = (fst (delete_customer selected confirm now s),
           set_user_permissions perms
             (snd (delete_customer selected confirm now s))))
  /\ (forall order_id new_status,
        update_order_status order_id new_status now (set_user_permissions perms s)
        = (fst (update_order_status order_id new_status now s),
           set_user_permissions perms
             (snd (update_order_status order_id new_status now s)))).
Proof.
  split; [| split]; intros.
  - apply save_customer_blind.
  - apply delete_customer_blind.
  - apply update_order_status_blind.
Qed.

(** The administrator and a session with an empty capability map get the
    same answer to the same delete. *)
Example delete_customer_without_permissions :
  fst (delete_customer (Some (2, "Beta")) true Sample.now
         (set_user_permissions ∅ Sample.as_admin))
  = fst (delete_customer (Some (2, "Beta")) true Sample.now Sample.as_admin).
Proof. rewrite delete_customer_blind. reflexivity. Qed.

(** ** One audit entry per successful operation *)

Lemma insert_audit_log_inv (user_id : Z) (action table_name : string)
    (record_id : Z) (t : string) (db db' : Database) :
  insert_audit_log user_id action table_name record_id t db = Ok db' ->
  customers db' = customers db
  /\ users db' = users db
  /\ exists e, audit_log db' = (audit_log db ++ [e])%list
       /\ AuditLog.user_id e = Some user_id
       /\ AuditLog.action e = action
       /\ AuditLog.table_name e = table_name
       /\ AuditLog.record_id e = Some record_id.
Proof.
  unfold insert_audit_log. destruct (existsb _ (users db)); [| discriminate].
  intros [= <-]. cbn. repeat split. eexists. repeat split.
Qed.

Lemma update_customers_inv (i : Z) (data : Data.dict) (db db' : Database) :
  update_customers i data db = Ok db' ->
  audit_log db' = audit_log db /\ users db' = users db
  /\ seq_audit_log db' = seq_audit_log db.
Proof.
  unfold update_customers.
  destruct (existsb _ (customers db)); [| intros [= <-]; repeat split].
  destruct (negb _); [discriminate |].
  destruct (code_taken _ _ _); [discriminate |].
  intros [= <-]. repeat split.
Qed.

Lemma insert_customers_inv (data : Data.dict) (t : string) (db db' : Database) :
  insert_customers data t db = Ok db' ->
  audit_log db' = audit_log db /\ users db' = users db
  /\ seq_audit_log db' = seq_audit_log db
  /\ exists c, customers db' = (customers db ++ [c])%list
       /\ Customers.id c = seq_customers db'.
Proof.
  unfold insert_customers.
  destruct (negb (check_status _)); [discriminate |].
  destruct (code_taken _ _ _); [discriminate |].
  destruct (negb (user_exists _ _)); [discriminate |].
  intros [= <-]. cbn. repeat split. eexists. split; reflexivity.
Qed.

Lemma save_customer_success (customer_id : option Z) (form : Form.vars)
    (now : string) (s s' : App) :
  save_customer customer_id form now s
  = (showinfo "Success" "Customer saved successfully", s') ->
  committed s' = conn s'
  /\ exists e, audit_log (conn s') = (audit_log (conn s) ++ [e])%list
       /\ AuditLog.table_name e = "customers"
       /\ AuditLog.record_id e
          = match truthy customer_id with
            | Some i => Some i
            | None => Customers.id <$> last (customers (conn s'))
            end.
Proof.
  unfold save_customer, bind_parameters. run. cbv zeta beta.
  destruct (validation_errors form); [| discriminate].
  destruct (truthy customer_id) as [i |];
    destruct (Form.payment_terms form) as [| pt | | pt];
    destruct (Form.credit_limit form) as [| cl | | cl];
    cbn -[insert_audit_log update_customers insert_customers];
    try discriminate.
  all: match goal with
       | |- context [update_customers ?j ?data ?db] =>
           destruct (update_customers j data db) as [db1 |] eqn:Hstmt;
           cbn -[insert_audit_log]; [| discriminate];
           apply update_customers_inv in Hstmt as (Hal & _)
       | |- context [insert_customers ?data ?t ?db] =>
           destruct (insert_customers data t db) as [db1 |] eqn:Hstmt;
           cbn -[insert_audit_log]; [| discriminate];
           apply insert_customers_inv in Hstmt as (Hal & _ & _ & c & Hcs & Hid)
       end.
  all: destruct (current_user s) as [u |]; cbn -[insert_audit_log];
    [| discriminate].
  all: destruct (insert_audit_log _ _ _ _ _ db1) as [db2 |] eqn:Haudit;
    cbn; [| discriminate].
  all: apply insert_audit_log_inv in Haudit
         as (Hcs2 & _ & e & Hal2 & _ & _ & Ht & Hr).
  all: intros [= <-]; cbn; (split; [reflexivity |]).
  all: exists e; rewrite Hal2, Hal; (split; [reflexivity |]);
    (split; [exact Ht |]); rewrite Hr; try reflexivity.
  all: rewrite Hcs2, Hcs, last_snoc; cbn; rewrite Hid; reflexivity.
Qed.

Lemma delete_customer_success (selected : option (Z * string)) (confirm : bool)
    (now : string) (s s' : App) :
  delete_customer selected confirm now s
  = (showinfo "Success" "Customer deleted successfully", s') ->
  committed s' = conn s'
  /\ exists e, audit_log (conn s') = (audit_log (conn s) ++ [e])%list
       /\ AuditLog.table_name e = "customers"
       /\ AuditLog.record_id e = fst <$> selected.
Proof.
  unfold delete_customer.
  destruct selected as [[customer_id customer_name] |]; [| discriminate].
  destruct confirm; cbn [negb]; [| discriminate].
  run. cbv beta.
  destruct (0 <? order_count customer_id (conn s)); [discriminate |].
  cbn -[insert_audit_log].
  destruct (current_user s) as [u |]; cbn -[insert_audit_log]; [| discriminate].
  destruct (insert_audit_log _ _ _ _ _ _) as [db2 |] eqn:Haudit; cbn; [| discriminate].
  apply insert_audit_log_inv in Haudit as (_ & _ & e & Hal & _ & _ & Ht & Hr).
  intros [= <-]. cbn. split; [reflexivity |].
  exists e. rewrite Hal. cbn. repeat split; assumption.
Qed.

(** A login that had completed would have written its entry; none does. *)
Lemma do_login_success (username password now : string) (s s' : App) :
  do_login username password now s = (status_var "Login successful", s') ->
  committed s' = conn s'
  /\ exists e, audit_log (conn s') = (audit_log (conn s) ++ [e])%list
       /\ AuditLog.table_name e = "users"
       /\ AuditLog.record_id e = user0 <$> current_user s'.
Proof.
  intros Hrun. exfalso.
  apply (do_login_never_completes username password now s).
  rewrite Hrun. reflexivity.
Qed.

Lemma logout_success (confirm : bool) (now : string) (s s' : App) :
  logout confirm now s = (returned, s') ->
  current_user s <> None -> current_user s' = None ->
  committed s' = conn s'
  /\ exists e, audit_log (conn s') = (audit_log (conn s) ++ [e])%list
       /\ AuditLog.table_name e = "users"
       /\ AuditLog.record_id e = user0 <$> current_user s.
Proof.
  unfold logout. intros Hrun Hin Hout.
  destruct confirm.
  - destruct (current_user s) as [u |] eqn:Hu; [| contradiction].
    run. cbn -[insert_audit_log] in Hrun.
    destruct (insert_audit_log _ _ _ _ _ _) as [db2 |] eqn:Haudit;
      cbn in Hrun; [| discriminate].
    apply insert_audit_log_inv in Haudit as (_ & _ & e & Hal & _ & _ & Ht & Hr).
    injection Hrun as <-. cbn. split; [reflexivity |].
    exists e. repeat split; assumption.
  - injection Hrun as <-. contradiction.
Qed.

(** C3 fails at the login.  [do_login] has the statements that update
    [last_login], append the "login" entry and commit, after the call of
    [show_dashboard], which the class does not define: whenever the
    credentials match, the user becomes the user of the session, the call
    raises, the dialog reads "Login failed", and the database, audit log
    included, is as before, with nothing committed. *)
Theorem login_writes_no_audit_entry (username password now : string) (s : App) :
  username <> EmptyString -> password <> EmptyString ->
  credentials_match username password (conn s) ->
  let r := do_login username password now s in
  fst r = showerror_exn "Error" ("Login failed:" +:+ nl)
            (AttributeError "show_dashboard")
  /\ (exists u, current_user (snd r) = Some u /\ user1 u = username)
  /\ audit_log (conn (snd r)) = audit_log (conn s)
  /\ conn (snd r) = conn s
  /\ committed (snd r) = committed s.
Proof.
  intros Hu Hp Hm. cbv zeta.
  apply select_user_Some in Hm as (u & Hfind).
  destruct (do_login_found _ _ now _ _ Hu Hp Hfind)
    as (s' & -> & Hcu & _ & Hconn & Hcommitted).
  cbn [fst snd]. split; [reflexivity |].
  split; [eexists; split; [exact Hcu |] |].
  - apply find_some in Hfind as [_ Hfind].
    apply login_matches_spec in Hfind. cbn. tauto.
  - rewrite Hconn. repeat split. exact Hcommitted.
Qed.

Lemma login_writes_no_audit_entry_witness :
  let r := do_login "admin" "admin123" Sample.now Sample.anonymous in
  user1 <$> current_user (snd r) = Some "admin"
  /\ audit_log (conn (snd r)) = []
  /\ audit_log (committed (snd r)) = [].
Proof.
  cbv zeta.
  destruct (login_writes_no_audit_entry "admin" "admin123" Sample.now
              Sample.anonymous) as (_ & _ & Hal & _ & Hc).
  - discriminate.
  - discriminate.
  - exists Sample.admin. repeat split. left. reflexivity.
  - cbv zeta in Hal, Hc. rewrite Hal, Hc.
    split; [vm_compute; reflexivity | split; reflexivity].
Defined.

(** X20.  The operations that do succeed write their entry.  Every successful
    customer create, customer update, customer delete and logout appends
    exactly one entry to the audit log, and the [table_name] and [record_id]
    of the entry are those of the entity the operation is about; the entry
    is committed with the operation.  No login is among them. *)
Theorem one_audit_entry_per_success (op : operation) (now : string)
    (s s' : App) (o : outcome) :
  perform op now s = (o, s') ->
  succeeded op s o s' ->
  (forall username password, op <> Login username password)
  /\ exists e,
       audit_log (conn s') = (audit_log (conn s) ++ [e])%list
       /\ (AuditLog.table_name e, AuditLog.record_id e) = affected op s s'
       /\ committed s' = conn s'.
Proof.
  destruct op as [customer_id form | selected confirm | username password | confirm];
    cbn [perform succeeded affected]; intros Hrun Hok.
  - split; [discriminate |].
    subst o. apply save_customer_success in Hrun as (Hc & e & Hal & Ht & Hr).
    exists e. rewrite Ht, Hr. auto.
  - split; [discriminate |].
    subst o. apply delete_customer_success in Hrun as (Hc & e & Hal & Ht & Hr).
    exists e. rewrite Ht, Hr. auto.
  - exfalso. apply (do_login_never_completes username password now s).
    rewrite Hrun, Hok. reflexivity.
  - split; [discriminate |].
    destruct Hok as (-> & Hin & Hout).
    destruct (logout_success _ _ _ _ Hrun Hin Hout) as (Hc & e & Hal & Ht & Hr).
    exists e. rewrite Ht, Hr. auto.
Qed.

Lemma one_audit_entry_per_success_witness :
  Forall (fun p : operation * App =>
            let r := perform (fst p) Sample.now (snd p) in
            succeeded (fst p) (snd p) (fst r) (snd r)
            /\ exists e,
                 audit_log (conn (snd r)) = (audit_log (conn (snd p)) ++ [e])%list
                 /\ (AuditLog.table_name e, AuditLog.record_id e)
                    = affected (fst p) (snd p) (snd r)
                 /\ committed (snd r) = conn (snd r))
         Sample.operations.
Proof.
  assert (forall p : operation * App,
            succeeded (fst p) (snd p)
                      (fst (perform (fst p) Sample.now (snd p)))
                      (snd (perform (fst p) Sample.now (snd p))) ->
            let r := perform (fst p) Sample.now (snd p) in
            succeeded (fst p) (snd p) (fst r) (snd r)
            /\ exists e,
                 audit_log (conn (snd r)) = (audit_log (conn (snd p)) ++ [e])%list
                 /\ (AuditLog.table_name e, AuditLog.record_id e)
                    = affected (fst p) (snd p) (snd r)
                 /\ committed (snd r) = conn (snd r)) as Hstep.
  { intros [op s] Hok. cbv zeta. split; [exact Hok |].
    apply (one_audit_entry_per_success op Sample.now s _ _
             (surjective_pairing _) Hok). }
  unfold Sample.operations.
  repeat apply List.Forall_cons; try apply List.Forall_nil;
    match goal with
    | |- context [perform (fst ?p)] => apply (Hstep p); cbn [fst snd]
    end.
  - vm_compute. reflexivity.
  - vm_compute. reflexivity.
  - vm_compute. reflexivity.
  - split; [vm_compute; reflexivity |].
    split; [vm_compute; discriminate | vm_compute; reflexivity].
Defined.

Example save_customer_audit_entry :
  List.map (fun e => (AuditLog.action e, AuditLog.table_name e, AuditLog.record_id e))
    (audit_log (conn (snd (save_customer None (Sample.form "C003" "Gamma" "Active")
                             Sample.now Sample.as_admin))))
  = [("create", "customers", Some 3)].
Proof. vm_compute. reflexivity. Qed.

(** ** [save_customer] *)

Lemma validation_errors_nil (form : Form.vars) :
  validation_errors form = [] <->
  Form.code form <> EmptyString /\ Form.name form <> EmptyString
  /\ Form.status form <> EmptyString.
Proof.
  unfold validation_errors. rewrite <- !is_empty_false.
  destruct (is_empty (Form.code form)), (is_empty (Form.name form)),
    (is_empty (Form.status form)); cbn; split;
    first [ discriminate | tauto | intros (? & ? & ?); discriminate ].
Qed.

Lemma validation_errors_complete (form : Form.vars) :
  (Form.code form = EmptyString
   <-> In "Customer code is required" (validation_errors form))
  /\ (Form.name form = EmptyString
      <-> In "Customer name is required" (validation_errors form))
  /\ (Form.status form = EmptyString
      <-> In "Status is required" (validation_errors form)).
Proof.
  unfold validation_errors. rewrite <- !is_empty_true.
  destruct (is_empty (Form.code form)), (is_empty (Form.name form)),
    (is_empty (Form.status form)); cbn; repeat split;
    first [ discriminate | tauto
          | intros H; repeat destruct H as [H | H]; discriminate || contradiction ].
Qed.

Lemma save_customer_invalid (customer_id : option Z) (form : Form.vars)
    (now : string) (s : App) :
  validation_errors form <> [] ->
  save_customer customer_id form now s
  = (showerror "Validation Error" (String.concat nl (validation_errors form)), s).
Proof.
  intros Hne. unfold save_customer. run. cbv zeta.
  destruct (validation_errors form); [contradiction | reflexivity].
Qed.

Lemma save_customer_constraint (customer_id : option Z) (form : Form.vars)
    (now : string) (s : App) :
  validation_errors form = [] ->
  violates_constraint customer_id form (conn s) = true ->
  exists e,
    save_customer customer_id form now s
    = (showerror_exn "Error" ("Failed to save customer:" +:+ nl) e, s).
Proof.
  intros Hnil Hviol. unfold save_customer, bind_parameters. run. cbv zeta.
  rewrite Hnil. unfold violates_constraint in Hviol.
  destruct (truthy customer_id) as [i |];
    [ apply andb_true_iff in Hviol as [Hrow Hviol] |];
    destruct (Form.payment_terms form) as [| pt | | pt];
    destruct (Form.credit_limit form) as [| cl | | cl];
    cbn -[insert_audit_log update_customers insert_customers];
    try (eexists; reflexivity);
    unfold update_customers, insert_customers; cbn [Data.status Data.code];
    try rewrite Hrow;
    (destruct (negb (check_status (Form.status form)));
     [ eexists; reflexivity
     | cbn [orb] in Hviol; rewrite Hviol; eexists; reflexivity ]).
Qed.

(** C9, as stated, fails: a create with the code of an existing customer, or
    with a status outside the domain, is refused with the generic "Error"
    dialog that carries the integrity error of the store, not with a
    "Validation Error" listing fields. *)
Lemma save_customer_validation_counterexample :
  let duplicate := Sample.form "C001" "Other" "Active" in
  let pending := Sample.form "C009" "Other" "Pending" in
  code_taken None (Form.code duplicate) (conn Sample.as_admin) = true
  /\ save_customer None duplicate Sample.now Sample.as_admin
     = (showerror_exn "Error" ("Failed to save customer:" +:+ nl)
          (IntegrityError "UNIQUE constraint failed: customers.code"),
        Sample.as_admin)
  /\ check_status (Form.status pending) = false
  /\ save_customer None pending Sample.now Sample.as_admin
     = (showerror_exn "Error" ("Failed to save customer:" +:+ nl)
          (IntegrityError "CHECK constraint failed: status"),
        Sample.as_admin)
  /\ forall message,
       fst (save_customer None duplicate Sample.now Sample.as_admin)
       <> showerror "Validation Error" message
       /\ fst (save_customer None pending Sample.now Sample.as_admin)
          <> showerror "Validation Error" message.
Proof.
  cbv zeta. repeat split; try (vm_compute; reflexivity);
    vm_compute; discriminate.
Qed.

(** C9, amended.  [save_customer] requires a non-empty code, a non-empty
    name and a non-empty status: when one of them is empty it fails with the
    "Validation Error" dialog, whose text has one line for every empty field,
    and writes nothing.  With the three present, a code that another
    customer has or a status outside Active, Inactive, On Hold is rejected
    by the constraints of the customers table: the operation fails with the
    "Error" dialog carrying the exception, and no row is written or
    modified. *)
Theorem save_customer_validation (customer_id : option Z) (form : Form.vars)
    (now : string) (s : App) :
  (Form.code form = EmptyString \/ Form.name form = EmptyString
   \/ Form.status form = EmptyString ->
   save_customer customer_id form now s
   = (showerror "Validation Error" (String.concat nl (validation_errors form)), s)
   /\ (Form.code form = EmptyString
       <-> In "Customer code is required" (validation_errors form))
   /\ (Form.name form = EmptyString
       <-> In "Customer name is required" (validation_errors form))
   /\ (Form.status form = EmptyString
       <-> In "Status is required" (validation_errors form)))
  /\ (Form.code form <> EmptyString -> Form.name form <> EmptyString ->
      Form.status form <> EmptyString ->
      violates_constraint customer_id form (conn s) = true ->
      exists e,
        save_customer customer_id form now s
        = (showerror_exn "Error" ("Failed to save customer:" +:+ nl) e, s)).
Proof.
  split.
  - intros Hempty. split; [| apply validation_errors_complete].
    apply save_customer_invalid. intros Hnil.
    apply validation_errors_nil in Hnil. tauto.
  - intros Hc Hn Hs Hviol. apply save_customer_constraint; [| exact Hviol].
    apply validation_errors_nil. tauto.
Qed.

Lemma save_customer_validation_witness :
  save_customer None (Sample.form EmptyString EmptyString "Active") Sample.now
    Sample.as_admin
  = (showerror "Validation Error"
       ("Customer code is required" +:+ nl +:+ "Customer name is required"),
     Sample.as_admin)
  /\ exists e,
       save_customer (Some 2) (Sample.form "C001" "Beta" "Active") Sample.now
         Sample.as_admin
       = (showerror_exn "Error" ("Failed to save customer:" +:+ nl) e,
          Sample.as_admin).
Proof.
  split.
  - apply (proj1 (save_customer_validation None
                    (Sample.form EmptyString EmptyString "Active") Sample.now
                    Sample.as_admin)).
    left. reflexivity.
  - apply (proj2 (save_customer_validation (Some 2)
                    (Sample.form "C001" "Beta" "Active") Sample.now
                    Sample.as_admin)).
    + discriminate.
    + discriminate.
    + discriminate.
    + vm_compute. reflexivity.
Defined.

(** ** The dashboard *)

Lemma growth_of_positive (sales_total prev_sales : Q) :
  (0 < prev_sales)%Q ->
  growth_of sales_total prev_sales
  = ((sales_total - prev_sales) / prev_sales * inject_Z 100)%Q.
Proof.
  intros Hpos. unfold growth_of.
  destruct (Qlt_le_dec 0 prev_sales) as [_ | Hle]; [reflexivity |].
  exfalso. exact (Qlt_not_le _ _ Hpos Hle).
Qed.

Lemma growth_of_zero (sales_total prev_sales : Q) :
  (prev_sales == 0)%Q -> growth_of sales_total prev_sales = 0%Q.
Proof.
  intros Hzero. unfold growth_of.
  destruct (Qlt_le_dec 0 prev_sales) as [Hlt | _]; [| reflexivity].
  exfalso. rewrite Hzero in Hlt. exact (Qlt_irrefl _ Hlt).
Qed.

(** C7.  For every date range the growth shown on the dashboard is
    (current total - previous total) / previous total * 100 when the total
    of the previous period is positive, and 0 when it is 0; the current
    total sums the orders dated in the range, the previous total those of
    the days just before it; a previous total of 100 and a current total of
    150 give 50. *)
Theorem dashboard_growth (start_date end_date : Z) (s : App) :
  let d := load_dashboard_data start_date end_date s in
  sales_total d = sum_total_amount start_date end_date (conn s)
  /\ prev_sales d
     = sum_total_amount (start_date - (end_date - start_date)) (start_date - 1)
         (conn s)
  /\ ((0 < prev_sales d)%Q ->
      growth d
      = ((sales_total d - prev_sales d) / prev_sales d * inject_Z 100)%Q)
  /\ ((prev_sales d == 0)%Q -> growth d = 0%Q)
  /\ (growth_of (inject_Z 150) (inject_Z 100) == inject_Z 50)%Q.
Proof.
  cbv zeta. cbn [load_dashboard_data sales_total prev_sales growth].
  split; [reflexivity |]. split; [reflexivity |].
  split; [apply growth_of_positive |].
  split; [apply growth_of_zero |].
  vm_compute. reflexivity.
Qed.

Lemma dashboard_growth_witness :
  (growth (load_dashboard_data 10 19 Sample.anonymous) == inject_Z 50)%Q
  /\ growth (load_dashboard_data 1 3 Sample.anonymous) = 0%Q.
Proof.
  split.
  - destruct (dashboard_growth 10 19 Sample.anonymous) as (_ & _ & Hpos & _).
    cbv zeta in Hpos. rewrite Hpos.
    + vm_compute. reflexivity.
    + vm_compute. reflexivity.
  - destruct (dashboard_growth 1 3 Sample.anonymous) as (_ & _ & _ & Hzero & _).
    cbv zeta in Hzero. apply Hzero. vm_compute. reflexivity.
Defined.

Example dashboard_totals :
  (sales_total (load_dashboard_data 10 19 Sample.anonymous) == inject_Z 150)%Q
  /\ (prev_sales (load_dashboard_data 10 19 Sample.anonymous) == inject_Z 100)%Q.
Proof. split; vm_compute; reflexivity. Qed.

#[local] Instance by_deficit_desc_total : Total by_deficit_desc.
Proof.
  intros p q. unfold by_deficit_desc.
  destruct (Qlt_le_dec (deficit p) (deficit q)) as [Hlt | Hle].
  - right. apply Qlt_le_weak. exact Hlt.
  - left. exact Hle.
Qed.

#[local] Instance by_deficit_desc_trans : Transitive by_deficit_desc.
Proof.
  intros p q r Hpq Hqr. unfold by_deficit_desc in *.
  exact (Qle_trans _ _ _ Hqr Hpq).
Qed.

Lemma low_stock_spec (p : Products.row) :
  low_stock p = true <->
  (Products.current_stock p <= Products.min_stock_level p)%Q
  /\ Products.status p = "Active".
Proof.
  unfold low_stock. rewrite andb_true_iff, Qle_bool_iff, String.eqb_eq.
  reflexivity.
Qed.

(** The qualifying products in the order of the query, before LIMIT. *)
Lemma stock_alert_rows_split (db : Database) :
  let sorted := merge_sort by_deficit_desc (List.filter low_stock (products db)) in
  StronglySorted by_deficit_desc sorted
  /\ Permutation sorted (List.filter low_stock (products db))
  /\ sorted = (stock_alert_rows db ++ List.skipn 10 sorted)%list.
Proof.
  cbv zeta. split; [apply StronglySorted_merge_sort; apply _ |].
  split; [apply merge_sort_Permutation |].
  unfold stock_alert_rows. symmetry. apply firstn_skipn.
Qed.

(** C8, as stated, fails: with eleven active products below their minimum
    level the query returns ten rows; the product with the smallest deficit
    qualifies and is not returned. *)
Lemma stock_alerts_all_counterexample :
  let p := Sample.product 11 "P11" 20 11 in
  In p (products Sample.eleven_low)
  /\ low_stock p = true
  /\ List.length (List.filter low_stock (products Sample.eleven_low)) = 11%nat
  /\ List.length (stock_alerts Sample.eleven_low) = 10%nat
  /\ ~ In (Products.name p, Products.current_stock p, Products.min_stock_level p)
          (stock_alerts Sample.eleven_low).
Proof.
  cbv zeta. split; [vm_compute; tauto |].
  repeat split; try (vm_compute; reflexivity).
  intros Hin. vm_compute in Hin.
  repeat destruct Hin as [Hin | Hin]; try discriminate Hin. exact Hin.
Qed.

(** C8, amended.  The low-stock query returns at most ten rows: the name,
    stock and minimum level of products that are Active with a stock no
    greater than the minimum level, and of no others, ordered by deficit
    descending; the qualifying products it leaves out have deficits no
    greater than those it returns, and when at most ten products qualify it
    returns all of them. *)
Theorem stock_alerts_top_ten (db : Database) :
  stock_alerts db
  = List.map (fun p => (Products.name p, Products.current_stock p,
                        Products.min_stock_level p))
             (stock_alert_rows db)
  /\ (forall p, In p (stock_alert_rows db) ->
        In p (products db)
        /\ Products.status p = "Active"
        /\ (Products.current_stock p <= Products.min_stock_level p)%Q)
  /\ StronglySorted by_deficit_desc (stock_alert_rows db)
  /\ List.length (stock_alert_rows db)
     = Nat.min 10 (List.length (List.filter low_stock (products db)))
  /\ (exists rest,
        Permutation (stock_alert_rows db ++ rest)
                    (List.filter low_stock (products db))
        /\ forall p q, In p (stock_alert_rows db) -> In q rest ->
                       (deficit q <= deficit p)%Q)
  /\ ((List.length (List.filter low_stock (products db)) <= 10)%nat ->
      Permutation (stock_alert_rows db) (List.filter low_stock (products db))).
Proof.
  destruct (stock_alert_rows_split db) as (Hsorted & Hperm & Hsplit).
  cbv zeta in Hsorted, Hperm, Hsplit.
  set (sorted := merge_sort by_deficit_desc (List.filter low_stock (products db))) in *.
  assert (List.length sorted = List.length (List.filter low_stock (products db)))
    as Hlen by (apply Permutation_length; exact Hperm).
  split; [reflexivity |].
  split; [| split; [| split; [| split]]].
  - intros p Hin.
    assert (In p (List.filter low_stock (products db))) as Hq.
    { apply (Permutation_in _ Hperm). rewrite Hsplit. apply in_or_app. tauto. }
    apply filter_In in Hq as [Hp Hlow]. apply low_stock_spec in Hlow. tauto.
  - rewrite Hsplit in Hsorted. exact (StronglySorted_app_1_l _ _ _ Hsorted).
  - unfold stock_alert_rows. fold sorted. rewrite length_firstn, Hlen. reflexivity.
  - exists (List.skipn 10 sorted). split; [rewrite <- Hsplit; exact Hperm |].
    intros p q Hp Hq. rewrite Hsplit in Hsorted.
    apply (StronglySorted_app_1_elem_of by_deficit_desc _ _ p q Hsorted);
      apply list_elem_of_In; assumption.
  - intros Hfew. unfold stock_alert_rows. fold sorted.
    rewrite firstn_all2; [exact Hperm | lia].
Qed.

Lemma stock_alerts_top_ten_witness :
  Permutation (stock_alert_rows Sample.db)
              (List.filter low_stock (products Sample.db))
  /\ List.length (stock_alert_rows Sample.eleven_low) = 10%nat.
Proof.
  split.
  - apply (stock_alerts_top_ten Sample.db). vm_compute. lia.
  - destruct (stock_alerts_top_ten Sample.eleven_low) as (_ & _ & _ & Hlen & _).
    rewrite Hlen. vm_compute. reflexivity.
Defined.

Example stock_alerts_order :
  List.map (fun r => fst (fst r)) (stock_alerts Sample.eleven_low)
  = ["P01"; "P02"; "P03"; "P04"; "P05"; "P06"; "P07"; "P08"; "P09"; "P10"].
Proof. vm_compute. reflexivity. Qed.

(** * Further properties *)

(** ** What every run of an operation preserves *)

Section Preserves.

Context (R : App -> App -> Prop).
Hypothesis R_refl : forall s, R s s.
Hypothesis R_trans : forall s1 s2 s3, R s1 s2 -> R s2 s3 -> R s1 s3.

Lemma preserves_ret {A} (a : A) : preserves R (mret a).
Proof. intros s. apply R_refl. Qed.

Lemma preserves_raise {A} (e : exn) : preserves R (@raise A e).
Proof. intros s. apply R_refl. Qed.

Lemma preserves_gets {A} (f : App -> A) : preserves R (gets f).
Proof. intros s. apply R_refl. Qed.

Lemma preserves_convert {A} (e : entry A) : preserves R (convert e).
Proof. destruct e; intros s; apply R_refl. Qed.

Lemma preserves_bind_parameters (e : entry Z) :
  preserves R (bind_parameters e).
Proof. destruct e; intros s; apply R_refl. Qed.

Lemma preserves_show_dashboard : preserves R show_dashboard.
Proof. intros s. apply R_refl. Qed.

Lemma preserves_current_user_0 : preserves R current_user_0.
Proof.
  intros s. unfold current_user_0. destruct (current_user s); apply R_refl.
Qed.

Lemma preserves_bind {A B} (m : M A) (k : A -> M B) :
  preserves R m -> (forall a, preserves R (k a)) -> preserves R (m ≫= k).
Proof.
  intros Hm Hk s. unfold mbind, M_bind.
  specialize (Hm s). destruct (m s) as [[a | e] s1]; cbn in *; [| exact Hm].
  exact (R_trans _ _ _ Hm (Hk a s1)).
Qed.

Lemma preserves_execute (stmt : Database -> result Database) :
  (forall s db, stmt (conn s) = Ok db -> R s (set_conn db s)) ->
  preserves R (execute stmt).
Proof.
  intros Hstmt s. unfold execute.
  destruct (stmt (conn s)) as [db |] eqn:E; cbn; [apply Hstmt, E | apply R_refl].
Qed.

Lemma preserves_try_except (body : M outcome) (handler : exn -> outcome) s :
  preserves R body -> R s (snd (try_except body handler s)).
Proof.
  intros Hb. unfold try_except. specialize (Hb s).
  destruct (body s) as [[o | e] s1]; exact Hb.
Qed.

End Preserves.

Ltac preserves_steps :=
  repeat first
    [ apply preserves_ret; assumption
    | apply preserves_raise; assumption
    | apply preserves_gets; assumption
    | apply preserves_convert; assumption
    | apply preserves_bind_parameters; assumption
    | apply preserves_show_dashboard; assumption
    | apply preserves_current_user_0; assumption
    | apply preserves_bind; [assumption | |]
    | match goal with
      | |- forall _, _ => intro
      | |- preserves _ (match ?x with _ => _ end) => destruct x
      | |- preserves _ (if ?b then _ else _) => destruct b
      | |- preserves _ (let _ := _ in _) => cbv zeta
      end ].

(** *** The database only evolves *)

Lemma evolves_refl (db : Database) : evolves db db.
Proof.
  split; [exists []; symmetry; apply app_nil_r | repeat split].
Qed.

Lemma evolves_trans (db1 db2 db3 : Database) :
  evolves db1 db2 -> evolves db2 db3 -> evolves db1 db3.
Proof.
  intros ((l1 & Ha1) & Hu1 & Hp1 & Hpr1 & Hm1 & Hi1)
         ((l2 & Ha2) & Hu2 & Hp2 & Hpr2 & Hm2 & Hi2).
  split; [exists (l1 ++ l2)%list; rewrite Ha2, Ha1, app_assoc; reflexivity |].
  repeat split; congruence.
Qed.

Lemma insert_audit_log_evolves user_id action table_name record_id t db db' :
  insert_audit_log user_id action table_name record_id t db = Ok db' ->
  evolves db db'.
Proof.
  unfold insert_audit_log. destruct (existsb _ (users db)); [| discriminate].
  intros [= <-]. split; [eexists; reflexivity | repeat split].
Qed.

Lemma update_customers_evolves i data db db' :
  update_customers i data db = Ok db' -> evolves db db'.
Proof.
  unfold update_customers.
  destruct (existsb _ (customers db)); [| intros [= <-]; apply evolves_refl].
  destruct (negb _); [discriminate |].
  destruct (code_taken _ _ _); [discriminate |].
  intros [= <-]. split; [exists []; symmetry; apply app_nil_r | repeat split].
Qed.

Lemma insert_customers_evolves data t db db' :
  insert_customers data t db = Ok db' -> evolves db db'.
Proof.
  unfold insert_customers.
  destruct (negb (check_status _)); [discriminate |].
  destruct (code_taken _ _ _); [discriminate |].
  destruct (negb (user_exists _ _)); [discriminate |].
  intros [= <-]. split; [exists []; symmetry; apply app_nil_r | repeat split].
Qed.

Lemma delete_customers_evolves i db db' :
  delete_customers i db = Ok db' -> evolves db db'.
Proof.
  intros [= <-]. split; [exists []; symmetry; apply app_nil_r | repeat split].
Qed.

Lemma update_sales_orders_evolves st t i db db' :
  update_sales_orders st t i db = Ok db' -> evolves db db'.
Proof.
  intros [= <-]. split; [exists []; symmetry; apply app_nil_r | repeat split].
Qed.

Lemma update_last_login_evolves t i db db' :
  update_last_login t i db = Ok db' -> evolves db db'.
Proof.
  intros [= <-]. split; [exists []; symmetry; apply app_nil_r |].
  split; [| repeat split]. cbn. rewrite List.map_map. apply List.map_ext.
  intros u. destruct (Users.id u =? i); reflexivity.
Qed.

Lemma evolving_refl s : evolving s s.
Proof. apply evolves_refl. Qed.

Lemma evolving_trans s1 s2 s3 : evolving s1 s2 -> evolving s2 s3 -> evolving s1 s3.
Proof. apply evolves_trans. Qed.

Lemma evolving_execute (stmt : Database -> result Database) :
  (forall db db', stmt db = Ok db' -> evolves db db') ->
  preserves evolving (execute stmt).
Proof.
  intros Hstmt. apply preserves_execute; [apply evolving_refl |].
  intros s db E. exact (Hstmt _ _ E).
Qed.

Lemma evolving_modify (f : App -> App) :
  (forall s, conn (f s) = conn s) -> preserves evolving (modify f).
Proof.
  intros Hf s. unfold evolving, modify. cbn. rewrite Hf. apply evolves_refl.
Qed.

Lemma evolving_commit : preserves evolving commit.
Proof. intros s. apply evolves_refl. Qed.


Ltac evolving_steps :=
  repeat first
    [ apply evolving_commit
    | apply evolving_modify; reflexivity
    | apply evolving_execute;
      first [ apply insert_audit_log_evolves | apply update_customers_evolves
            | apply insert_customers_evolves | apply delete_customers_evolves
            | apply update_sales_orders_evolves | apply update_last_login_evolves ]
    | apply preserves_ret; apply evolving_refl
    | apply preserves_raise; apply evolving_refl
    | apply preserves_gets; apply evolving_refl
    | apply preserves_convert; apply evolving_refl
    | apply preserves_bind_parameters; apply evolving_refl
    | apply preserves_show_dashboard; apply evolving_refl
    | apply preserves_current_user_0; apply evolving_refl
    | apply preserves_bind; [exact evolving_trans | |]
    | match goal with
      | |- forall _, _ => intro
      | |- preserves _ (match ?x with _ => _ end) => destruct x
      | |- preserves _ (if ?b then _ else _) => destruct b
      | |- preserves _ (let _ := _ in _) => cbv zeta
      end ].

Lemma save_customer_evolving customer_id form now s :
  evolving s (snd (save_customer customer_id form now s)).
Proof.
  unfold save_customer.
  apply (preserves_try_except evolving). evolving_steps.
Qed.

Lemma delete_customer_evolving selected confirm now s :
  evolving s (snd (delete_customer selected confirm now s)).
Proof.
  unfold delete_customer.
  destruct selected as [[customer_id customer_name] |]; [| apply evolving_refl].
  destruct confirm; cbn [negb]; [| apply evolving_refl].
  apply (preserves_try_except evolving). evolving_steps.
Qed.

Lemma update_order_status_evolving order_id new_status now s :
  evolving s (snd (update_order_status order_id new_status now s)).
Proof.
  unfold update_order_status.
  apply (preserves_try_except evolving). evolving_steps.
Qed.

Lemma do_login_evolving username password now s :
  evolving s (snd (do_login username password now s)).
Proof.
  unfold do_login.
  destruct (is_empty username || is_empty password); [apply evolving_refl |].
  apply (preserves_try_except evolving). evolving_steps.
Qed.

Lemma logout_evolving confirm now s :
  evolving s (snd (logout confirm now s)).
Proof.
  unfold logout. destruct confirm; [| apply evolving_refl].
  match goal with
  | |- context [match ?m s with _ => _ end] =>
      assert (preserves evolving m) as Hm by evolving_steps;
      specialize (Hm s); destruct (m s) as [[[] | e] s1]; exact Hm
  end.
Qed.

Lemma execute_command_evolving c now s :
  evolving s (snd (execute_command c now s)).
Proof.
  destruct c as [[customer_id form | selected confirm | username password | confirm]
                | order_id new_status]; cbn [execute_command perform].
  - apply save_customer_evolving.
  - apply delete_customer_evolving.
  - apply do_login_evolving.
  - apply logout_evolving.
  - apply update_order_status_evolving.
Qed.

Lemma run_commands_evolving cs s : evolving s (run_commands cs s).
Proof.
  revert s. induction cs as [| [c now] cs IH]; intros s; cbn [run_commands].
  - apply evolving_refl.
  - eapply evolving_trans; [apply execute_command_evolving | apply IH].
Qed.

(** *** The session is kept by the operations on customers and orders *)

Lemma same_session_refl s : same_session s s.
Proof. split; reflexivity. Qed.

Lemma same_session_trans s1 s2 s3 :
  same_session s1 s2 -> same_session s2 s3 -> same_session s1 s3.
Proof. intros [H1 H2] [H3 H4]. split; congruence. Qed.

Lemma same_session_execute (stmt : Database -> result Database) :
  preserves same_session (execute stmt).
Proof.
  apply preserves_execute; [apply same_session_refl |].
  intros s db _. split; reflexivity.
Qed.

Lemma same_session_commit : preserves same_session commit.
Proof. intros s. split; reflexivity. Qed.

Ltac same_session_steps :=
  repeat first
    [ apply same_session_commit
    | apply same_session_execute
    | apply preserves_ret; apply same_session_refl
    | apply preserves_raise; apply same_session_refl
    | apply preserves_gets; apply same_session_refl
    | apply preserves_convert; apply same_session_refl
    | apply preserves_bind_parameters; apply same_session_refl
    | apply preserves_show_dashboard; apply same_session_refl
    | apply preserves_current_user_0; apply same_session_refl
    | apply preserves_bind; [exact same_session_trans | |]
    | match goal with
      | |- forall _, _ => intro
      | |- preserves _ (match ?x with _ => _ end) => destruct x
      | |- preserves _ (if ?b then _ else _) => destruct b
      | |- preserves _ (let _ := _ in _) => cbv zeta
      end ].

Lemma save_customer_same_session customer_id form now s :
  same_session s (snd (save_customer customer_id form now s)).
Proof.
  unfold save_customer.
  apply (preserves_try_except same_session). same_session_steps.
Qed.

Lemma delete_customer_same_session selected confirm now s :
  same_session s (snd (delete_customer selected confirm now s)).
Proof.
  unfold delete_customer.
  destruct selected as [[customer_id customer_name] |]; [| apply same_session_refl].
  destruct confirm; cbn [negb]; [| apply same_session_refl].
  apply (preserves_try_except same_session). same_session_steps.
Qed.

Lemma update_order_status_same_session order_id new_status now s :
  same_session s (snd (update_order_status order_id new_status now s)).
Proof.
  unfold update_order_status.
  apply (preserves_try_except same_session). same_session_steps.
Qed.

(** *** The session user stays a user *)

Lemma existsb_id_credentials (i : Z) (l : list Users.row) :
  existsb (fun x => Users.id x =? i) l
  = existsb (fun c => fst (fst (fst c)) =? i) (List.map credentials l).
Proof. induction l as [| u l IH]; cbn; [reflexivity | rewrite IH; reflexivity]. Qed.

Lemma evolves_user_exists (i : Z) (db db' : Database) :
  evolves db db' ->
  existsb (fun x => Users.id x =? i) (users db')
  = existsb (fun x => Users.id x =? i) (users db).
Proof.
  intros (_ & Hu & _). rewrite !existsb_id_credentials, Hu. reflexivity.
Qed.

Lemma session_valid_kept (s s' : App) :
  current_user s' = current_user s \/ current_user s' = None ->
  evolving s s' -> session_valid s -> session_valid s'.
Proof.
  unfold session_valid. intros [Hcu | Hcu] Hev Hs; rewrite Hcu; [| exact I].
  destruct (current_user s) as [u |]; [| exact I].
  rewrite (evolves_user_exists _ _ _ Hev). exact Hs.
Qed.

Lemma logout_session confirm now s :
  current_user (snd (logout confirm now s)) = current_user s
  \/ current_user (snd (logout confirm now s)) = None.
Proof.
  unfold logout. destruct confirm; [| left; reflexivity].
  destruct (current_user s) as [u |] eqn:Hu; run; cbn -[insert_audit_log].
  - destruct (insert_audit_log _ _ _ _ _ _); cbn; [right; reflexivity | left; exact Hu].
  - right. reflexivity.
Qed.

Lemma do_login_session_valid username password now s :
  session_valid s -> session_valid (snd (do_login username password now s)).
Proof.
  intros Hs.
  destruct (is_empty username) eqn:Hu.
  { unfold do_login. rewrite Hu. exact Hs. }
  destruct (is_empty password) eqn:Hp.
  { unfold do_login. rewrite Hu, Hp. exact Hs. }
  apply is_empty_false in Hu. apply is_empty_false in Hp.
  destruct (List.find (login_matches username (hash_password password))
              (users (conn s))) as [u |] eqn:Hfind.
  - pose proof (do_login_evolving username password now s) as Hev.
    destruct (do_login_found _ _ now _ _ Hu Hp Hfind) as (s' & Hrun & Hcu & _).
    rewrite Hrun in *. cbn [snd] in *. unfold session_valid. rewrite Hcu. cbn.
    rewrite (evolves_user_exists _ _ _ Hev).
    apply find_some in Hfind as [Hin _]. apply user_id_exists, Hin.
  - rewrite (do_login_not_found _ _ _ _ Hu Hp Hfind). exact Hs.
Qed.

Lemma execute_command_session_valid c now s :
  session_valid s -> session_valid (snd (execute_command c now s)).
Proof.
  intros Hs.
  destruct c as [[customer_id form | selected confirm | username password | confirm]
                | order_id new_status]; cbn [execute_command perform].
  - apply (session_valid_kept s); [left | | exact Hs].
    + apply save_customer_same_session.
    + apply save_customer_evolving.
  - apply (session_valid_kept s); [left | | exact Hs].
    + apply delete_customer_same_session.
    + apply delete_customer_evolving.
  - apply do_login_session_valid, Hs.
  - apply (session_valid_kept s); [apply logout_session | | exact Hs].
    apply logout_evolving.
  - apply (session_valid_kept s); [left | | exact Hs].
    + apply update_order_status_same_session.
    + apply update_order_status_evolving.
Qed.

(** X1.  Whatever commands are run, and whether they succeed or fail, the
    audit log only grows at its end: the entries it held are still there,
    unchanged and in the same order. *)
Theorem audit_log_append_only (cs : list (command * string)) (s : App) :
  exists l,
    audit_log (conn (run_commands cs s)) = (audit_log (conn s) ++ l)%list.
Proof. exact (proj1 (run_commands_evolving cs s)). Qed.

Lemma credentials_match_map (username password : string) (db db' : Database) :
  List.map credentials (users db') = List.map credentials (users db) ->
  credentials_match username password db ->
  credentials_match username password db'.
Proof.
  intros Hmap (u & Hin & Hname & Hpw & Hact).
  assert (In (credentials u) (List.map credentials (users db'))) as Hc.
  { rewrite Hmap. apply in_map, Hin. }
  apply in_map_iff in Hc as (v & Hv & Hin').
  unfold credentials in Hv. injection Hv as Hid Hn Hp Ha.
  exists v. repeat split; congruence.
Qed.

(** X2.  No sequence of commands adds a user, removes one or changes a
    username, a stored password or an active flag: the credentials that log
    in afterwards are exactly those that logged in before. *)
Theorem login_ability_unchanged (cs : list (command * string)) (s : App)
    (username password : string) :
  List.map credentials (users (conn (run_commands cs s)))
  = List.map credentials (users (conn s))
  /\ (credentials_match username password (conn (run_commands cs s))
      <-> credentials_match username password (conn s)).
Proof.
  destruct (run_commands_evolving cs s) as (_ & Hu & _).
  split; [exact Hu |].
  split; apply credentials_match_map; [symmetry |]; exact Hu.
Qed.

(** X3.  No sequence of commands writes the permissions, the products, the
    inventory movements or the order items; so the low-stock list of the
    dashboard is the same afterwards, and stock and movements agree
    afterwards exactly when they did before. *)
Theorem tables_never_written (cs : list (command * string)) (s : App) :
  let s' := run_commands cs s in
  permissions (conn s') = permissions (conn s)
  /\ products (conn s') = products (conn s)
  /\ inventory_movements (conn s') = inventory_movements (conn s)
  /\ sales_order_items (conn s') = sales_order_items (conn s)
  /\ stock_alerts (conn s') = stock_alerts (conn s)
  /\ (stock_matches_movements (conn s') <-> stock_matches_movements (conn s)).
Proof.
  cbv zeta.
  destruct (run_commands_evolving cs s) as (_ & _ & Hp & Hpr & Hm & Hi).
  split; [exact Hp |]. split; [exact Hpr |]. split; [exact Hm |].
  split; [exact Hi |]. split.
  - unfold stock_alerts, stock_alert_rows. rewrite Hpr. reflexivity.
  - symmetry. apply stock_matches_movements_ext; assumption.
Qed.

(** X4.  When the user of the session, if there is one, is a row of the
    users table, this is still so after any sequence of commands: the audit
    entries that the operations write always name an existing user. *)
Theorem session_stays_valid (cs : list (command * string)) (s : App) :
  session_valid s -> session_valid (run_commands cs s).
Proof.
  revert s. induction cs as [| [c now] cs IH]; intros s Hs; cbn [run_commands].
  - exact Hs.
  - apply IH, execute_command_session_valid, Hs.
Qed.

Lemma session_stays_valid_witness :
  session_valid
    (run_commands
       [ (Perform (Login "admin" "admin123"), Sample.now);
         (Perform (DeleteCustomer (Some (2, "Beta")) true), Sample.now);
         (UpdateOrderStatus 1 "Shipped", Sample.now) ]
       Sample.anonymous).
Proof.
  apply (session_stays_valid _ Sample.anonymous). exact I.
Defined.

(** ** All or nothing *)

Lemma save_customer_all_or_nothing customer_id form now s u :
  current_user s = Some u ->
  existsb (fun x => Users.id x =? user0 u) (users (conn s)) = true ->
  let r := save_customer customer_id form now s in
  (fst r = showinfo "Success" "Customer saved successfully"
   /\ committed (snd r) = conn (snd r))
  \/ (snd r = s /\ ~ completed (fst r)).
Proof.
  intros Hu Hfk. cbv zeta.
  assert (forall o, (forall m, o <> showinfo "Success" m) ->
                    o <> status_var "Login successful" -> ~ completed o) as Hno.
  { intros o H1 H2 [[m Hm] | Hl]; [exact (H1 m Hm) | exact (H2 Hl)]. }
  unfold save_customer, bind_parameters. run. cbv zeta beta.
  destruct (validation_errors form);
    [| right; split; [reflexivity | apply Hno; intros; discriminate]].
  destruct (truthy customer_id) as [i |];
    destruct (Form.payment_terms form) as [| pt | | pt];
    destruct (Form.credit_limit form) as [| cl | | cl];
    cbn -[insert_audit_log update_customers insert_customers];
    try (right; split; [reflexivity | apply Hno; intros; discriminate]).
  all: match goal with
       | |- context [update_customers ?j ?data ?db] =>
           destruct (update_customers j data db) as [db1 |] eqn:Hstmt;
           cbn -[insert_audit_log];
           [ apply update_customers_inv in Hstmt as (_ & Hus & _)
           | right; split; [reflexivity | apply Hno; intros; discriminate] ]
       | |- context [insert_customers ?data ?t ?db] =>
           destruct (insert_customers data t db) as [db1 |] eqn:Hstmt;
           cbn -[insert_audit_log];
           [ apply insert_customers_inv in Hstmt as (_ & Hus & _)
           | right; split; [reflexivity | apply Hno; intros; discriminate] ]
       end.
  all: rewrite Hu; cbn -[insert_audit_log];
    unfold insert_audit_log; rewrite Hus, Hfk; cbn; left; split; reflexivity.
Qed.

Lemma order_count_nonneg customer_id db : 0 <= order_count customer_id db.
Proof. unfold order_count. lia. Qed.

Lemma delete_customer_all_or_nothing selected confirm now s u :
  current_user s = Some u ->
  existsb (fun x => Users.id x =? user0 u) (users (conn s)) = true ->
  let r := delete_customer selected confirm now s in
  (fst r = showinfo "Success" "Customer deleted successfully"
   /\ committed (snd r) = conn (snd r))
  \/ (snd r = s /\ ~ completed (fst r)).
Proof.
  intros Hu Hfk. cbv zeta.
  assert (forall o, (forall m, o <> showinfo "Success" m) ->
                    o <> status_var "Login successful" -> ~ completed o) as Hno.
  { intros o H1 H2 [[m Hm] | Hl]; [exact (H1 m Hm) | exact (H2 Hl)]. }
  destruct selected as [[customer_id customer_name] |];
    [| right; split; [reflexivity | apply Hno; intros; discriminate]].
  destruct confirm;
    [| right; split; [reflexivity | apply Hno; intros; discriminate]].
  destruct (0 <? order_count customer_id (conn s)) eqn:Hcount.
  - apply Z.ltb_lt in Hcount.
    rewrite (delete_customer_blocked _ customer_name now _ Hcount).
    right. split; [reflexivity | apply Hno; intros; discriminate].
  - apply Z.ltb_ge in Hcount.
    pose proof (order_count_nonneg customer_id (conn s)) as Hge.
    assert (order_count customer_id (conn s) = 0) as Hzero by lia.
    destruct (delete_customer_done _ customer_name now _ _ Hzero Hu Hfk)
      as (s' & e & -> & _ & _ & _ & _ & _ & Hc).
    left. split; [reflexivity | exact Hc].
Qed.

(** X5.  With a user logged in who is a row of the users table, a customer
    create or update, a customer delete and an order status update are all
    or nothing: either the operation reports success and everything it wrote
    is committed, or it reports no success and the application, pending
    writes included, is exactly as before. *)
Theorem mutations_all_or_nothing (now : string) (s : App) (u : user_tuple) :
  current_user s = Some u ->
  existsb (fun x => Users.id x =? user0 u) (users (conn s)) = true ->
  forall c,
    (forall username password, c <> Perform (Login username password)) ->
    (forall confirm, c <> Perform (Logout confirm)) ->
    let r := execute_command c now s in
    (completed (fst r) /\ committed (snd r) = conn (snd r))
    \/ (snd r = s /\ ~ completed (fst r)).
Proof.
  intros Hu Hfk c Hlogin Hlogout. cbv zeta.
  destruct c as [[customer_id form | selected confirm | username password | confirm]
                | order_id new_status]; cbn [execute_command perform].
  - destruct (save_customer_all_or_nothing customer_id form now s u Hu Hfk)
      as [[Ho Hc] | Hsame]; [left | right; exact Hsame].
    split; [left; eexists; exact Ho | exact Hc].
  - destruct (delete_customer_all_or_nothing selected confirm now s u Hu Hfk)
      as [[Ho Hc] | Hsame]; [left | right; exact Hsame].
    split; [left; eexists; exact Ho | exact Hc].
  - exfalso. exact (Hlogin username password eq_refl).
  - exfalso. exact (Hlogout confirm eq_refl).
  - destruct (update_order_status_logged_in order_id new_status now s u Hu Hfk)
      as (s' & e & -> & _ & _ & _ & _ & _ & Hc).
    left. split; [left; eexists; reflexivity | exact Hc].
Qed.

Lemma mutations_all_or_nothing_witness :
  let ok := execute_command
              (Perform (SaveCustomer None (Sample.form "C003" "Gamma" "Active")))
              Sample.now Sample.as_admin in
  let ko := execute_command
              (Perform (SaveCustomer None (Sample.form "C001" "Gamma" "Active")))
              Sample.now Sample.as_admin in
  (completed (fst ok) /\ committed (snd ok) = conn (snd ok))
  /\ (snd ko = Sample.as_admin /\ ~ completed (fst ko)).
Proof.
  cbv zeta.
  assert (current_user Sample.as_admin
          = Some {| user0 := 1; user1 := "admin"; user2 := "Administrator";
                    user3 := "admin@erp.com"; user4 := "Admin" |}) as Hu
    by (vm_compute; reflexivity).
  assert (existsb (fun x => Users.id x =? 1) (users (conn Sample.as_admin)) = true)
    as Hfk by (vm_compute; reflexivity).
  split.
  - destruct (mutations_all_or_nothing Sample.now Sample.as_admin _ Hu Hfk
                (Perform (SaveCustomer None (Sample.form "C003" "Gamma" "Active"))))
      as [Hok | [_ Hko]]; [discriminate | discriminate | exact Hok |].
    exfalso. apply Hko. left. eexists. vm_compute. reflexivity.
  - destruct (mutations_all_or_nothing Sample.now Sample.as_admin _ Hu Hfk
                (Perform (SaveCustomer None (Sample.form "C001" "Gamma" "Active"))))
      as [[Hok _] | Hko]; [discriminate | discriminate | | exact Hko].
    exfalso. destruct Hok as [[m Hm] | Hm]; vm_compute in Hm; discriminate.
Defined.

(** ** Without a session *)

Lemma do_login_keeps_database username password now s :
  conn (snd (do_login username password now s)) = conn s
  /\ committed (snd (do_login username password now s)) = committed s.
Proof.
  unfold do_login.
  destruct (is_empty username || is_empty password); [split; reflexivity |].
  unfold show_dashboard. run. cbv beta.
  destruct (select_user _ _ _) as [user |]; split; reflexivity.
Qed.

Lemma save_customer_anonymous form now s :
  current_user s = None ->
  validation_errors form = [] ->
  Form.payment_terms form <> malformed ->
  (forall a, Form.payment_terms form <> too_large a) ->
  Form.credit_limit form <> malformed ->
  violates_constraint None form (conn s) = false ->
  exists c s',
    save_customer None form now s
    = (showerror_exn "Error" ("Failed to save customer:" +:+ nl) TypeError, s')
    /\ customers (conn s') = (customers (conn s) ++ [c])%list
    /\ Customers.code c = Form.code form
    /\ Customers.name c = Form.name form
    /\ audit_log (conn s') = audit_log (conn s)
    /\ users (conn s') = users (conn s)
    /\ committed s' = committed s
    /\ current_user s' = None.
Proof.
  intros Hu Hnil Hpt Hlarge Hcl Hviol.
  unfold save_customer, bind_parameters. run. cbv zeta beta.
  rewrite Hnil. unfold violates_constraint in Hviol. cbn [truthy] in *.
  apply orb_false_iff in Hviol as [Hcheck Htaken].
  destruct (Form.payment_terms form) as [| pt | | pt];
    [| | contradiction | exfalso; exact (Hlarge pt eq_refl)];
    (destruct (Form.credit_limit form) as [| cl | | cl];
     [| | contradiction |]);
    cbn -[insert_audit_log insert_customers]; rewrite Hu;
    unfold insert_customers; cbn [Data.status Data.code Data.created_by user_exists];
    rewrite Hcheck, Htaken; cbn; rewrite Hu;
    (eexists; eexists; split; [reflexivity |]; cbn; repeat split; assumption).
Qed.

(** X6.  A customer create attempted while nobody is logged in, with a form
    that passes validation and whose numbers convert and fit, fails with the
    "Failed to save customer" dialog, but only after the row has been
    inserted: the row stays pending on the connection, without an audit
    entry.  A login that follows does not commit it; the logout of the user
    then logged in does, the "logout" entry being the only new audit entry.
    Quitting while nobody is logged in discards the row. *)
Theorem anonymous_create_left_pending (form : Form.vars) (now : string) (s : App) :
  current_user s = None ->
  validation_errors form = [] ->
  Form.payment_terms form <> malformed ->
  (forall a, Form.payment_terms form <> too_large a) ->
  (forall a, Form.payment_terms form = parsed a -> - 2 ^ 63 <= a < 2 ^ 63) ->
  Form.credit_limit form <> malformed ->
  violates_constraint None form (conn s) = false ->
  exists c s',
    save_customer None form now s
    = (showerror_exn "Error" ("Failed to save customer:" +:+ nl) TypeError, s')
    /\ customers (conn s') = (customers (conn s) ++ [c])%list
    /\ Customers.code c = Form.code form
    /\ audit_log (conn s') = audit_log (conn s)
    /\ committed s' = committed s
    /\ (forall username password now1 now2,
          username <> EmptyString -> password <> EmptyString ->
          credentials_match username password (conn s) ->
          let s1 := snd (do_login username password now1 s') in
          let s2 := snd (logout true now2 s1) in
          conn s1 = conn s' /\ committed s1 = committed s
          /\ In c (customers (committed s2))
          /\ exists e, audit_log (committed s2) = (audit_log (conn s) ++ [e])%list
               /\ AuditLog.action e = "logout")
    /\ (forall now', on_closing true now' s' = (returned, Some (committed s))).
Proof.
  intros Hu Hnil Hpt Hlarge _ Hcl Hviol.
  destruct (save_customer_anonymous form now s Hu Hnil Hpt Hlarge Hcl Hviol)
    as (c & s' & Hrun & Hcs & Hcode & _ & Hal & Hus & Hc & Hu').
  exists c, s'. repeat (split; [assumption |]). split.
  - intros username password now1 now2 Hn Hp Hmatch. cbv zeta.
    assert (credentials_match username password (conn s')) as Hmatch'.
    { destruct Hmatch as (u & Hin & Hrest). exists u. rewrite Hus. tauto. }
    apply select_user_Some in Hmatch' as (u & Hfind).
    destruct (do_login_found _ _ now1 _ _ Hn Hp Hfind)
      as (s1 & Hrun1 & Hcu & _ & Hconn & Hcommitted).
    rewrite Hrun1. cbn [snd].
    split; [exact Hconn |]. split; [congruence |].
    apply find_some in Hfind as [Hin _].
    unfold logout. rewrite Hcu. run. cbn -[insert_audit_log].
    destruct (insert_audit_log_Ok (Users.id u) "logout" "users" (Users.id u) now2
                (conn s1)) as (e & Hins & _ & Ha & _).
    { rewrite Hconn. apply user_id_exists, Hin. }
    rewrite Hins. cbn. rewrite Hconn, Hcs, Hal.
    split; [apply in_or_app; right; left; reflexivity |].
    exists e. split; [reflexivity | exact Ha].
  - intros now'. unfold on_closing. rewrite Hu'. cbn. rewrite Hc. reflexivity.
Qed.

Lemma anonymous_create_left_pending_witness :
  exists c s',
    save_customer None (Sample.form "C003" "Gamma" "Active") Sample.now
      Sample.anonymous
    = (showerror_exn "Error" ("Failed to save customer:" +:+ nl) TypeError, s')
    /\ customers (conn s') = (customers (conn Sample.anonymous) ++ [c])%list
    /\ Customers.code c = "C003"
    /\ committed s' = committed Sample.anonymous
    /\ committed (snd (do_login "admin" "admin123" Sample.now s'))
       = committed Sample.anonymous.
Proof.
  destruct (anonymous_create_left_pending
              (Sample.form "C003" "Gamma" "Active") Sample.now Sample.anonymous)
    as (c & s' & Hrun & Hcs & Hcode & _ & Hc & Hlogin & _).
  - reflexivity.
  - reflexivity.
  - discriminate.
  - discriminate.
  - intros a [= <-]. lia.
  - discriminate.
  - vm_compute. reflexivity.
  - exists c, s'. repeat (split; [assumption |]).
    apply (Hlogin "admin" "admin123" Sample.now Sample.now).
    + discriminate.
    + discriminate.
    + exists Sample.admin. repeat split. left. reflexivity.
Defined.

(** ** Login, logout and quit *)

(** X7.  A login with matching credentials followed by a logout brings the
    session back to nobody with an empty capability map and leaves exactly
    one more audit entry, the "logout" naming the user row, committed; the
    users table, [last_login] included, is as before the login. *)
Theorem login_then_logout (username password now1 now2 : string) (s : App) :
  username <> EmptyString -> password <> EmptyString ->
  credentials_match username password (conn s) ->
  let s1 := snd (do_login username password now1 s) in
  let r := logout true now2 s1 in
  fst r = returned
  /\ current_user (snd r) = None
  /\ user_permissions (snd r) = ∅
  /\ committed (snd r) = conn (snd r)
  /\ users (conn (snd r)) = users (conn s)
  /\ exists u e,
       In u (users (conn s))
       /\ Users.username u = username
       /\ current_user s1
          = Some {| user0 := Users.id u; user1 := Users.username u;
                    user2 := Users.name u; user3 := Users.email u;
                    user4 := Users.role u |}
       /\ audit_log (conn (snd r)) = (audit_log (conn s) ++ [e])%list
       /\ AuditLog.action e = "logout"
       /\ AuditLog.table_name e = "users"
       /\ AuditLog.user_id e = Some (Users.id u)
       /\ AuditLog.record_id e = Some (Users.id u).
Proof.
  intros Hu Hp Hmatch. cbv zeta.
  apply select_user_Some in Hmatch as (u & Hfind).
  destruct (do_login_found _ _ now1 _ _ Hu Hp Hfind)
    as (s1 & Hrun & Hcu & _ & Hconn & _).
  rewrite Hrun in *. cbn [snd] in *.
  apply find_some in Hfind as [Hin Hm]. apply login_matches_spec in Hm as (Hname & _).
  unfold logout. rewrite Hcu. run. cbn -[insert_audit_log].
  destruct (insert_audit_log_Ok (Users.id u) "logout" "users" (Users.id u) now2
              (conn s1)) as (e & Hins & Hue & Ha & Ht & Hr).
  { rewrite Hconn. apply user_id_exists, Hin. }
  rewrite Hins. cbn. repeat (split; [reflexivity |]).
  split; [rewrite Hconn; reflexivity |].
  exists u, e. rewrite Hconn.
  split; [exact Hin |]. split; [exact Hname |]. split; [reflexivity |].
  split; [reflexivity |]. tauto.
Qed.

Lemma login_then_logout_witness :
  let r := logout true Sample.now
             (snd (do_login "admin" "admin123" Sample.now Sample.anonymous)) in
  fst r = returned /\ current_user (snd r) = None
  /\ user_permissions (snd r) = ∅.
Proof.
  cbv zeta.
  destruct (login_then_logout "admin" "admin123" Sample.now Sample.now
              Sample.anonymous) as (H1 & H2 & H3 & _).
  - discriminate.
  - discriminate.
  - exists Sample.admin. repeat split. left. reflexivity.
  - cbv zeta in H1, H2, H3. repeat split; assumption.
Defined.

(** X8.  Quitting with a user logged in who is a row of the users table
    appends one logout entry for that user and leaves on disk everything the
    connection saw, pending writes included; declining the question leaves
    the application running and nothing written. *)
Theorem on_closing_logged_in (now : string) (s : App) (u : user_tuple) :
  current_user s = Some u ->
  existsb (fun x => Users.id x =? user0 u) (users (conn s)) = true ->
  on_closing false now s = (returned, None)
  /\ exists db e,
       on_closing true now s = (returned, Some db)
       /\ audit_log db = (audit_log (conn s) ++ [e])%list
       /\ AuditLog.action e = "logout"
       /\ AuditLog.table_name e = "users"
       /\ AuditLog.user_id e = Some (user0 u)
       /\ AuditLog.record_id e = Some (user0 u)
       /\ customers db = customers (conn s)
       /\ users db = users (conn s)
       /\ sales_orders db = sales_orders (conn s).
Proof.
  intros Hu Hfk. split; [reflexivity |].
  unfold on_closing. rewrite Hu. run. cbn -[insert_audit_log].
  destruct (insert_audit_log_Ok (user0 u) "logout" "users" (user0 u) now (conn s) Hfk)
    as (e & Hins & Hu2 & Ha & Ht & Hr).
  rewrite Hins. cbn. eexists. exists e. split; [reflexivity |].
  cbn. repeat split; assumption.
Qed.

Lemma on_closing_logged_in_witness :
  exists db e,
    on_closing true Sample.now Sample.as_admin = (returned, Some db)
    /\ audit_log db = (audit_log (conn Sample.as_admin) ++ [e])%list
    /\ AuditLog.action e = "logout".
Proof.
  destruct (on_closing_logged_in Sample.now Sample.as_admin
              {| user0 := 1; user1 := "admin"; user2 := "Administrator";
                 user3 := "admin@erp.com"; user4 := "Admin" |})
    as (_ & db & e & H1 & H2 & H3 & _).
  - vm_compute. reflexivity.
  - vm_compute. reflexivity.
  - exists db, e. repeat split; assumption.
Defined.

(** ** The capability map that a login loads *)

Lemma fold_permissions_lookup (l : list Permissions.row)
    (init : gmap string (gmap string bool)) (m : string) :
  List.fold_left (fun d row => <[Permissions.module row := capabilities row]> d)
                 l init !! m
  = match last (List.filter (fun r => String.eqb (Permissions.module r) m) l) with
    | Some r => Some (capabilities r)
    | None => init !! m
    end.
Proof.
  revert init. induction l as [| r l IH]; intros init; cbn; [reflexivity |].
  rewrite IH. destruct (String.eqb_spec (Permissions.module r) m) as [Heq | Hne].
  - destruct (List.filter _ l) as [| r' l'] eqn:Hf.
    + cbn. rewrite Heq. apply lookup_insert_eq.
    + change (last (r :: r' :: l')) with (last (r' :: l')).
      destruct (last (r' :: l')) eqn:Hl; [reflexivity |].
      apply last_None in Hl. discriminate.
  - destruct (last (List.filter _ l)); [reflexivity |].
    apply lookup_insert_ne. exact Hne.
Qed.

Lemma filter_filter_rows (uid : Z) (m : string) (l : list Permissions.row) :
  List.filter (fun r => String.eqb (Permissions.module r) m)
    (List.filter (fun r => Permissions.user_id r =? uid) l)
  = List.filter (fun r => (Permissions.user_id r =? uid)
                          && String.eqb (Permissions.module r) m) l.
Proof.
  induction l as [| r l IH]; cbn; [reflexivity |].
  destruct (Permissions.user_id r =? uid); cbn; [| exact IH].
  destruct (String.eqb (Permissions.module r) m); cbn; [f_equal |]; exact IH.
Qed.

Lemma load_permissions_lookup (uid : Z) (db : Database) (m : string) :
  load_permissions uid db !! m = capabilities <$> last (permission_rows uid m db).
Proof.
  unfold load_permissions, permission_rows.
  rewrite fold_permissions_lookup, filter_filter_rows.
  destruct (last _); reflexivity.
Qed.

Lemma capabilities_lookup (r : Permissions.row) :
  capabilities r !! "view" = Some (bool_of_int (Permissions.can_view r))
  /\ capabilities r !! "create" = Some (bool_of_int (Permissions.can_create r))
  /\ capabilities r !! "edit" = Some (bool_of_int (Permissions.can_edit r))
  /\ capabilities r !! "delete" = Some (bool_of_int (Permissions.can_delete r))
  /\ forall k, k <> "view" -> k <> "create" -> k <> "edit" -> k <> "delete" ->
               capabilities r !! k = None.
Proof.
  unfold capabilities. split; [| split; [| split; [| split]]].
  - apply lookup_insert_eq.
  - rewrite lookup_insert_ne by discriminate. apply lookup_insert_eq.
  - rewrite !(lookup_insert_ne _ "view"), !(lookup_insert_ne _ "create") by discriminate.
    apply lookup_insert_eq.
  - rewrite !(lookup_insert_ne _ "view"), !(lookup_insert_ne _ "create"),
      !(lookup_insert_ne _ "edit") by discriminate.
    apply lookup_insert_eq.
  - intros k H1 H2 H3 H4.
    rewrite !lookup_insert_ne by congruence. apply lookup_empty.
Qed.

(** X9.  When the credentials match, [do_login] loads the capability map
    of the user it puts in the session: the map has an entry for a module
    exactly when the permissions table has a row for the user and that
    module; the entry is made from the last such row, with a flag true when
    the column is not zero, and nothing of the map of an earlier session
    remains. *)
Theorem login_loads_permissions (username password now : string) (s : App) :
  username <> EmptyString -> password <> EmptyString ->
  credentials_match username password (conn s) ->
  let s' := snd (do_login username password now s) in
  exists u,
    current_user s' = Some u
    /\ user1 u = username
    /\ forall m,
         user_permissions s' !! m
         = capabilities <$> last (permission_rows (user0 u) m (conn s))
         /\ (permission_rows (user0 u) m (conn s) = []
             <-> user_permissions s' !! m = None)
         /\ forall r, last (permission_rows (user0 u) m (conn s)) = Some r ->
              exists caps,
                user_permissions s' !! m = Some caps
                /\ caps !! "view" = Some (bool_of_int (Permissions.can_view r))
                /\ caps !! "create" = Some (bool_of_int (Permissions.can_create r))
                /\ caps !! "edit" = Some (bool_of_int (Permissions.can_edit r))
                /\ caps !! "delete" = Some (bool_of_int (Permissions.can_delete r)).
Proof.
  intros Hu Hp Hmatch. cbv zeta.
  apply select_user_Some in Hmatch as (u & Hfind).
  destruct (do_login_found _ _ now _ _ Hu Hp Hfind)
    as (s' & Hrun & Hcu & Hperm & _).
  rewrite Hrun. cbn [snd]. eexists. split; [exact Hcu |]. cbn [user0 user1].
  split.
  { apply find_some in Hfind as [_ Hm]. apply login_matches_spec in Hm. tauto. }
  intros m. rewrite Hperm, load_permissions_lookup.
  split; [reflexivity |]. split.
  - split.
    + intros ->. reflexivity.
    + destruct (permission_rows (Users.id u) m (conn s)) as [| r l] eqn:Hrows;
        [reflexivity |].
      destruct (last (r :: l)) eqn:Hl; [discriminate |].
      apply last_None in Hl. discriminate.
  - intros r ->. exists (capabilities r). split; [reflexivity |].
    destruct (capabilities_lookup r) as (H1 & H2 & H3 & H4 & _). tauto.
Qed.

Lemma login_loads_permissions_witness :
  exists u,
    current_user Sample.as_carol = Some u
    /\ user_permissions Sample.as_carol !! "customers"
       = capabilities <$> last (permission_rows (user0 u) "customers" Sample.db)
    /\ user_permissions Sample.as_carol !! "products" = None.
Proof.
  destruct (login_loads_permissions "carol" "secret" Sample.now Sample.anonymous)
    as (u & Hu & _ & Hm).
  - discriminate.
  - discriminate.
  - exists Sample.carol. repeat split. right. right. left. reflexivity.
  - exists u. split; [exact Hu |]. split.
    + apply (Hm "customers").
    + apply (Hm "products"). vm_compute in Hu. injection Hu as <-.
      reflexivity.
Defined.

(** ** The initial administrator *)

Lemma admin_count_zero (db : Database) :
  (admin_count db =? 0) = negb (existsb (fun u => String.eqb (Users.username u) "admin")
                                        (users db)).
Proof.
  unfold admin_count. induction (users db) as [| u l IH]; cbn; [reflexivity |].
  destruct (String.eqb (Users.username u) "admin"); cbn [orb negb]; [| exact IH].
  cbn [List.length]. apply Z.eqb_neq. lia.
Qed.

(** What the start leaves when it has created the administrator with id
    [id]: the two rows, committed. *)
Lemma init_inserts (now : string) (seq_users seq_permissions : Z)
    (file : Database) :
  existsb (fun u => String.eqb (Users.username u) "admin") (users file) = false ->
  existsb (fun u => String.eqb (Users.email u) "admin@erp.com") (users file) = false ->
  let id := next_rowid seq_users (List.map Users.id (users file)) in
  existsb (fun u => Users.id u =? 1) (users file ++ [admin_row id now]) = true ->
  let db :=
    set_permissions
      (permissions file ++
       [ wildcard_row (next_rowid seq_permissions
                         (List.map Permissions.id (permissions file))) ])
      (set_users (users file ++ [admin_row id now]) file) in
  init now seq_users seq_permissions file
  = (returned, {| conn := db; committed := db; current_user := None;
                  user_permissions := ∅ |}).
Proof.
  intros Hname Hemail id Hone db. unfold init, create_tables. run.
  cbn -[insert_admin insert_admin_permissions].
  rewrite admin_count_zero, Hname.
  cbn -[insert_admin insert_admin_permissions].
  unfold insert_admin. rewrite Hname, Hemail.
  cbn -[insert_admin_permissions next_rowid admin_row].
  unfold insert_admin_permissions.
  cbn [users set_users]. fold id. rewrite Hone. reflexivity.
Qed.

Lemma permission_rows_snoc (uid : Z) (m : string) (db : Database)
    (ps : list Permissions.row) (r : Permissions.row) :
  permission_rows uid m (set_permissions (ps ++ [r]) db)
  = (permission_rows uid m (set_permissions ps db)
     ++ if (Permissions.user_id r =? uid) && String.eqb (Permissions.module r) m
        then [r] else [])%list.
Proof.
  unfold permission_rows. cbn [permissions set_permissions].
  rewrite List.filter_app. cbn [List.filter].
  destruct ((Permissions.user_id r =? uid) && _); reflexivity.
Qed.

(** X10.  On a database file that has never held a user, the start of the
    application creates the administrator and commits; from then on
    [do_login] authenticates "admin" with "admin123", and the capability map
    it loads for that session holds the module "all" with the four
    capabilities true. *)
Theorem init_creates_admin (now now' : string) (seq_permissions : Z)
    (file : Database) :
  users file = [] ->
  let r := init now 0 seq_permissions file in
  fst r = returned
  /\ committed (snd r) = conn (snd r)
  /\ List.map credentials (users (conn (snd r)))
     = [(1, "admin", hash_password "admin123", 1)]
  /\ authenticates "admin" "admin123" now' (snd r)
  /\ user0 <$> current_user (snd (do_login "admin" "admin123" now' (snd r)))
     = Some 1
  /\ exists caps,
       user_permissions (snd (do_login "admin" "admin123" now' (snd r))) !! "all"
       = Some caps
       /\ caps !! "view" = Some true /\ caps !! "create" = Some true
       /\ caps !! "edit" = Some true /\ caps !! "delete" = Some true.
Proof.
  intros Hempty. cbv zeta.
  rewrite (init_inserts now 0 seq_permissions file);
    rewrite ?Hempty; try reflexivity.
  cbn [fst snd conn committed List.map app].
  set (db := set_permissions _ _).
  split; [reflexivity |]. split; [reflexivity |]. split; [reflexivity |].
  assert (List.find (login_matches "admin" (hash_password "admin123")) (users db)
          = Some (admin_row 1 now)) as Hfind.
  { subst db. cbn [users set_permissions set_users List.find].
    unfold login_matches, admin_row, next_rowid.
    cbn [Users.username Users.password Users.is_active].
    rewrite !String.eqb_refl. reflexivity. }
  set (s1 := {| conn := db; committed := db; current_user := None;
                user_permissions := ∅ |}).
  destruct (do_login_found "admin" "admin123" now' s1 _
              ltac:(discriminate) ltac:(discriminate) Hfind)
    as (s2 & Hrun & Hcu & Hperm & _).
  unfold authenticates. cbv zeta. rewrite Hrun. cbn [fst snd].
  split; [split; [discriminate | split; [discriminate |]] |].
  { eexists. split; [exact Hcu | reflexivity]. }
  split; [rewrite Hcu; reflexivity |].
  rewrite Hperm, load_permissions_lookup. cbn [Users.id admin_row conn s1].
  subst db. rewrite permission_rows_snoc.
  cbn [wildcard_row Permissions.user_id Permissions.module].
  rewrite Z.eqb_refl, String.eqb_refl. cbn [andb].
  rewrite last_snoc. cbn [fmap option_fmap option_map].
  eexists. split; [reflexivity |].
  split; [| split; [| split]]; reflexivity.
Qed.

Lemma init_creates_admin_witness :
  let r := init Sample.now 0 0 empty_database in
  fst r = returned
  /\ authenticates "admin" "admin123" Sample.now (snd r).
Proof.
  cbv zeta.
  destruct (init_creates_admin Sample.now Sample.now 0 empty_database)
    as (H1 & _ & _ & H2 & _).
  - reflexivity.
  - cbv zeta in H1, H2. split; assumption.
Defined.

(** X11.  When the database file already has a user named "admin", whatever
    its password, role or active flag, the start of the application writes
    nothing: it never resets that password and never adds a second wildcard
    row. *)
Theorem init_keeps_existing_admin (now : string) (seq_users seq_permissions : Z)
    (file : Database) (u : Users.row) :
  In u (users file) -> Users.username u = "admin" ->
  init now seq_users seq_permissions file
  = (returned, {| conn := file; committed := file; current_user := None;
                  user_permissions := ∅ |}).
Proof.
  intros Hin Hname. unfold init, create_tables. run.
  cbn -[insert_admin insert_admin_permissions].
  rewrite admin_count_zero.
  assert (existsb (fun x => String.eqb (Users.username x) "admin") (users file)
          = true) as ->.
  { apply existsb_exists. exists u. split; [exact Hin |].
    rewrite Hname. reflexivity. }
  reflexivity.
Qed.

Lemma init_keeps_existing_admin_witness :
  init Sample.now 7 7 Sample.db
  = (returned, {| conn := Sample.db; committed := Sample.db;
                  current_user := None; user_permissions := ∅ |}).
Proof.
  apply (init_keeps_existing_admin Sample.now 7 7 Sample.db Sample.admin).
  - left. reflexivity.
  - reflexivity.
Defined.

Lemma max_id_ge (i : Z) (l : list Users.row) :
  existsb (fun u => Users.id u =? i) l = true ->
  i <= List.fold_right Z.max 0 (List.map Users.id l).
Proof.
  induction l as [| u l IH]; cbn; [discriminate |].
  intros H. apply orb_true_iff in H as [H | H].
  - apply Z.eqb_eq in H. lia.
  - specialize (IH H). lia.
Qed.

Lemma find_app_None {A} (f : A -> bool) (l : list A) (x : A) :
  existsb f l = false -> List.find f (l ++ [x]) = if f x then Some x else None.
Proof.
  induction l as [| a l IH]; cbn; [reflexivity |].
  intros H. apply orb_false_iff in H as [-> H]. exact (IH H).
Qed.

Lemma no_admin_no_match (password_hash : string) (l : list Users.row) :
  existsb (fun u => String.eqb (Users.username u) "admin") l = false ->
  existsb (login_matches "admin" password_hash) l = false.
Proof.
  induction l as [| u l IH]; cbn; [reflexivity |].
  intros H. apply orb_false_iff in H as [Hu H]. rewrite (IH H).
  unfold login_matches. rewrite Hu. reflexivity.
Qed.

(** X12.  The wildcard row names user 1, not the administrator just
    created.  On a database file where some user has id 1 and nobody is
    named "admin" (nor has its e-mail), the start creates the administrator
    under another id and gives the wildcard to user 1: [do_login]
    authenticates the administrator with the capability map that the rows
    already in the file for its new id give, and the last permission row of
    user 1 for "all" is the wildcard. *)
Theorem init_wildcard_names_user_1 (now now' : string)
    (seq_users seq_permissions : Z) (file : Database) :
  existsb (fun u => String.eqb (Users.username u) "admin") (users file) = false ->
  existsb (fun u => String.eqb (Users.email u) "admin@erp.com") (users file) = false ->
  existsb (fun u => Users.id u =? 1) (users file) = true ->
  let r := init now seq_users seq_permissions file in
  let id := next_rowid seq_users (List.map Users.id (users file)) in
  let s2 := snd (do_login "admin" "admin123" now' (snd r)) in
  fst r = returned
  /\ id <> 1
  /\ users (conn (snd r)) = (users file ++ [admin_row id now])%list
  /\ authenticates "admin" "admin123" now' (snd r)
  /\ user0 <$> current_user s2 = Some id
  /\ (forall m, user_permissions s2 !! m
                = capabilities <$> last (permission_rows id m file))
  /\ exists w, last (permission_rows 1 "all" (conn (snd r))) = Some w
       /\ Permissions.can_view w = 1 /\ Permissions.can_create w = 1
       /\ Permissions.can_edit w = 1 /\ Permissions.can_delete w = 1.
Proof.
  intros Hname Hemail Hone. cbv zeta.
  pose proof (max_id_ge 1 _ Hone) as Hmax.
  assert (next_rowid seq_users (List.map Users.id (users file)) <> 1) as Hid
    by (unfold next_rowid; lia).
  rewrite (init_inserts now seq_users seq_permissions file Hname Hemail).
  2: { rewrite existsb_app, Hone. reflexivity. }
  cbn [fst snd conn committed].
  set (id := next_rowid seq_users _) in *.
  set (w := wildcard_row _).
  set (db := set_permissions _ _).
  split; [reflexivity |]. split; [exact Hid |]. split; [reflexivity |].
  assert (List.find (login_matches "admin" (hash_password "admin123")) (users db)
          = Some (admin_row id now)) as Hfind.
  { subst db. cbn [users set_permissions set_users].
    rewrite (find_app_None _ _ _ (no_admin_no_match _ _ Hname)).
    unfold login_matches, admin_row.
    cbn [Users.username Users.password Users.is_active].
    rewrite !String.eqb_refl. reflexivity. }
  set (s1 := {| conn := db; committed := db; current_user := None;
                user_permissions := ∅ |}).
  destruct (do_login_found "admin" "admin123" now' s1 _
              ltac:(discriminate) ltac:(discriminate) Hfind)
    as (s2 & Hrun & Hcu & Hperm & _).
  unfold authenticates. cbv zeta. rewrite Hrun. cbn [fst snd].
  split; [split; [discriminate | split; [discriminate |]] |].
  { eexists. split; [exact Hcu | reflexivity]. }
  split; [rewrite Hcu; reflexivity |]. split.
  - intros m. rewrite Hperm, load_permissions_lookup. cbn [Users.id admin_row conn s1].
    subst db. rewrite permission_rows_snoc.
    subst w. cbn [wildcard_row Permissions.user_id Permissions.module].
    assert ((1 =? id) = false) as -> by (apply Z.eqb_neq; congruence).
    cbn [andb]. rewrite app_nil_r. reflexivity.
  - exists w. subst db. rewrite permission_rows_snoc.
    subst w. cbn [wildcard_row Permissions.user_id Permissions.module].
    rewrite Z.eqb_refl, String.eqb_refl. cbn [andb]. rewrite last_snoc.
    repeat split.
Qed.

Lemma init_wildcard_names_user_1_witness :
  let r := init Sample.now 1 0 Sample.renamed in
  let s2 := snd (do_login "admin" "admin123" Sample.now (snd r)) in
  fst r = returned
  /\ user0 <$> current_user s2 = Some 2
  /\ user_permissions s2 !! "all" = None.
Proof.
  cbv zeta.
  destruct (init_wildcard_names_user_1 Sample.now Sample.now 1 0 Sample.renamed)
    as (H1 & _ & _ & _ & H2 & H3 & _).
  - reflexivity.
  - reflexivity.
  - reflexivity.
  - cbv zeta in H1, H2, H3. split; [exact H1 |]. split; [exact H2 |].
    rewrite H3. reflexivity.
Defined.

(** X13.  When the users table is empty but has held rows before, the new
    administrator does not get id 1, the wildcard row violates its foreign
    key and the start ends with the "Database Error" dialog: nothing is
    committed, the administrator's row stays on the connection and there is
    no wildcard row. *)
Theorem init_fails_after_users_emptied (now : string)
    (seq_users seq_permissions : Z) (file : Database) :
  users file = [] -> 0 < seq_users ->
  exists s',
    init now seq_users seq_permissions file
    = (showerror_exn "Database Error" ("Cannot connect to database:" +:+ nl)
         (IntegrityError "FOREIGN KEY constraint failed"), s')
    /\ committed s' = file
    /\ users (conn s') = [admin_row (seq_users + 1) now]
    /\ permissions (conn s') = permissions file.
Proof.
  intros Hempty Hseq. unfold init, create_tables. run.
  cbn -[insert_admin insert_admin_permissions].
  rewrite admin_count_zero, Hempty.
  cbn -[insert_admin insert_admin_permissions].
  unfold insert_admin. rewrite Hempty.
  cbn -[insert_admin_permissions next_rowid admin_row].
  unfold insert_admin_permissions. cbn [users set_users existsb admin_row Users.id].
  assert (next_rowid seq_users [] = seq_users + 1) as -> by (unfold next_rowid; cbn; lia).
  assert ((seq_users + 1 =? 1) = false) as -> by (apply Z.eqb_neq; lia).
  cbn. eexists. split; [reflexivity |]. repeat split.
Qed.

Lemma init_fails_after_users_emptied_witness :
  exists s',
    init Sample.now 3 0 empty_database
    = (showerror_exn "Database Error" ("Cannot connect to database:" +:+ nl)
         (IntegrityError "FOREIGN KEY constraint failed"), s')
    /\ committed s' = empty_database.
Proof.
  destruct (init_fails_after_users_emptied Sample.now 3 0 empty_database)
    as (s' & H1 & H2 & _).
  - reflexivity.
  - lia.
  - exists s'. split; assumption.
Defined.

(** ** More of the dashboard *)

Lemma compare_append_Gt (d t : string) :
  t <> EmptyString -> String.compare (d ++ t) d = Gt.
Proof.
  intros Ht. induction d as [| a d IH]; simpl.
  - destruct t; [contradiction | reflexivity].
  - unfold Ascii.compare. rewrite N.compare_refl. exact IH.
Qed.

Lemma leb_append (d t : string) :
  String.leb d (d ++ t) = true
  /\ (t <> EmptyString -> String.leb (d ++ t) d = false).
Proof.
  split.
  - unfold String.leb. induction d as [| a d IH]; simpl.
    + destruct t; reflexivity.
    + unfold Ascii.compare. rewrite N.compare_refl. exact IH.
  - intros Ht. unfold String.leb. rewrite (compare_append_Gt d t Ht). reflexivity.
Qed.

Lemma save_customer_created (form : Form.vars) (now : string) (s s' : App) :
  save_customer None form now s
  = (showinfo "Success" "Customer saved successfully", s') ->
  exists c, customers (conn s') = (customers (conn s) ++ [c])%list
    /\ Customers.created_at c = now
    /\ Customers.code c = Form.code form
    /\ Customers.name c = Form.name form.
Proof.
  unfold save_customer, bind_parameters. run. cbv zeta beta.
  destruct (validation_errors form); [| discriminate].
  cbn [truthy].
  destruct (Form.payment_terms form) as [| pt | | pt];
    destruct (Form.credit_limit form) as [| cl | | cl];
    cbn -[insert_audit_log insert_customers]; try discriminate.
  all: destruct (insert_customers _ now (conn s)) as [db1 |] eqn:Hstmt;
    cbn -[insert_audit_log]; [| discriminate].
  all: destruct (current_user s) as [u |]; cbn -[insert_audit_log];
    [| discriminate].
  all: destruct (insert_audit_log _ _ _ _ _ db1) as [db2 |] eqn:Haudit;
    cbn; [| discriminate].
  all: apply insert_audit_log_inv in Haudit as (Hcs2 & _).
  all: intros [= <-]; cbn; rewrite Hcs2.
  all: unfold insert_customers in Hstmt.
  all: destruct (negb (check_status _)); [discriminate |].
  all: destruct (code_taken _ _ _); [discriminate |].
  all: destruct (negb (user_exists _ _)); [discriminate |].
  all: injection Hstmt as <-; cbn; eexists; (split; [reflexivity |]);
    repeat split.
Qed.

(** X14.  The "New Customers" figure compares the timestamp text of
    [created_at] with the date text of the range: a customer whose
    [created_at] is the end date followed by a time is not counted, one
    created on the start date is counted when the text is not above the end
    date.  So a customer created (by [save_customer], which stamps date and
    time) on the last day of the range does not change the figure. *)
Theorem new_customers_excludes_end_date (start_date end_date time : string)
    (db : Database) :
  time <> EmptyString ->
  (forall c, In c (customers db) ->
     Customers.created_at c = end_date ++ time ->
     ~ In c (new_customer_rows start_date end_date db))
  /\ (forall c, In c (customers db) ->
        Customers.created_at c = start_date ++ time ->
        String.leb (start_date ++ time) end_date = true ->
        In c (new_customer_rows start_date end_date db))
  /\ (forall form s s',
        conn s = db ->
        save_customer None form (end_date ++ time) s
        = (showinfo "Success" "Customer saved successfully", s') ->
        new_customers start_date end_date (conn s')
        = new_customers start_date end_date db).
Proof.
  intros Ht. destruct (leb_append end_date time) as [_ Hend].
  specialize (Hend Ht). split; [| split].
  - intros c _ Hc Hin. unfold new_customer_rows in Hin.
    apply filter_In in Hin as [_ Hin]. rewrite Hc, Hend, andb_false_r in Hin.
    discriminate.
  - intros c Hin Hc Hle. unfold new_customer_rows. apply filter_In.
    split; [exact Hin |]. rewrite Hc, Hle.
    rewrite (proj1 (leb_append start_date time)). reflexivity.
  - intros form s s' <- Hrun.
    apply save_customer_created in Hrun as (c & Hcs & Hc & _).
    unfold new_customers, new_customer_rows. rewrite Hcs, List.filter_app.
    cbn [List.filter]. rewrite Hc, Hend, andb_false_r, app_nil_r. reflexivity.
Qed.

Lemma new_customers_excludes_end_date_witness :
  let s' := snd (save_customer None (Sample.form "C003" "Gamma" "Active")
                   ("2024-03-01" ++ " 09:00:00") Sample.as_admin) in
  new_customers "2024-02-01" "2024-03-01" (conn s')
  = new_customers "2024-02-01" "2024-03-01" (conn Sample.as_admin).
Proof.
  cbv zeta.
  destruct (new_customers_excludes_end_date "2024-02-01" "2024-03-01" " 09:00:00"
              (conn Sample.as_admin)) as (_ & _ & H).
  - discriminate.
  - apply (H (Sample.form "C003" "Gamma" "Active") Sample.as_admin).
    + reflexivity.
    + vm_compute. reflexivity.
Defined.

Lemma set_status_totals (new_status t : string) (order_id d1 d2 : Z)
    (l : list SalesOrders.row) :
  List.map SalesOrders.total_amount
    (List.filter (fun o => (d1 <=? SalesOrders.order_date o)
                           && (SalesOrders.order_date o <=? d2))
       (List.map (fun o => if SalesOrders.id o =? order_id
                           then SalesOrders.set_status new_status t o else o) l))
  = List.map SalesOrders.total_amount
      (List.filter (fun o => (d1 <=? SalesOrders.order_date o)
                             && (SalesOrders.order_date o <=? d2)) l).
Proof.
  induction l as [| o l IH]; cbn [List.map List.filter]; [reflexivity |].
  assert (SalesOrders.order_date
            (if SalesOrders.id o =? order_id
             then SalesOrders.set_status new_status t o else o)
          = SalesOrders.order_date o) as ->
    by (destruct (SalesOrders.id o =? order_id); reflexivity).
  destruct ((d1 <=? SalesOrders.order_date o) && _); cbn [List.map]; [| exact IH].
  rewrite IH. f_equal. destruct (SalesOrders.id o =? order_id); reflexivity.
Qed.

Lemma pending_after_update (new_status t : string) (order_id d1 d2 : Z)
    (l : list SalesOrders.row) (o : SalesOrders.row) :
  List.NoDup (List.map SalesOrders.id l) ->
  In o l -> SalesOrders.id o = order_id -> is_pending d1 d2 o = true ->
  new_status <> "Draft" -> new_status <> "Confirmed" ->
  S (List.length
       (List.filter (is_pending d1 d2)
          (List.map (fun x => if SalesOrders.id x =? order_id
                              then SalesOrders.set_status new_status t x else x) l)))
  = List.length (List.filter (is_pending d1 d2) l).
Proof.
  intros Hnd Hin Hid Hpend Hd Hc.
  assert (forall x, is_pending d1 d2 (SalesOrders.set_status new_status t x) = false)
    as Hset.
  { intros x. unfold is_pending. cbn [SalesOrders.status SalesOrders.set_status].
    apply String.eqb_neq in Hd. apply String.eqb_neq in Hc. rewrite Hd, Hc.
    reflexivity. }
  induction l as [| x l IH]; [destruct Hin |].
  cbn [List.map] in Hnd. apply NoDup_cons_iff in Hnd as [Hx Hnd].
  cbn [List.map List.filter]. destruct Hin as [-> | Hin].
  - rewrite Hid, Z.eqb_refl, Hset, Hpend. cbn [List.length]. f_equal.
    f_equal. f_equal.
    rewrite <- (List.map_id l) at 2. apply List.map_ext_in.
    intros y Hy. destruct (SalesOrders.id y =? order_id) eqn:E; [| reflexivity].
    apply Z.eqb_eq in E. exfalso. apply Hx. rewrite Hid, <- E.
    apply in_map, Hy.
  - assert ((SalesOrders.id x =? order_id) = false) as ->.
    { apply Z.eqb_neq. intros E. apply Hx. rewrite E, <- Hid. apply in_map, Hin. }
    destruct (is_pending d1 d2 x); cbn [List.length];
      rewrite <- (IH Hnd Hin); reflexivity.
Qed.

(** X15.  Total sales counts the orders of every status, so an order status
    update never changes it; and when order ids are unique, moving a Draft
    or Confirmed order of the range to another status than these two lowers
    the "Pending Orders" figure by exactly one. *)
Theorem dashboard_after_status_update (order_id : Z) (new_status now : string)
    (start_date end_date : Z) (s : App) :
  let s' := snd (update_order_status order_id new_status now s) in
  sales_total (load_dashboard_data start_date end_date s')
  = sales_total (load_dashboard_data start_date end_date s)
  /\ growth (load_dashboard_data start_date end_date s')
     = growth (load_dashboard_data start_date end_date s)
  /\ (forall u o,
        current_user s = Some u ->
        existsb (fun x => Users.id x =? user0 u) (users (conn s)) = true ->
        List.NoDup (List.map SalesOrders.id (sales_orders (conn s))) ->
        In o (sales_orders (conn s)) -> SalesOrders.id o = order_id ->
        is_pending start_date end_date o = true ->
        new_status <> "Draft" -> new_status <> "Confirmed" ->
        pending_orders start_date end_date (conn s')
        = pending_orders start_date end_date (conn s) - 1).
Proof.
  cbv zeta.
  assert (forall d1 d2,
            sum_total_amount d1 d2
              (conn (snd (update_order_status order_id new_status now s)))
            = sum_total_amount d1 d2 (conn s)) as Hsum.
  { intros d1 d2. unfold update_order_status. run. cbn.
    destruct (current_user s) as [u |]; cbn.
    - unfold insert_audit_log. cbn.
      destruct (existsb _ (users (conn s))); cbn;
        unfold sum_total_amount; cbn; rewrite set_status_totals; reflexivity.
    - unfold sum_total_amount. cbn. rewrite set_status_totals. reflexivity. }
  split; [| split].
  - cbn [load_dashboard_data sales_total]. apply Hsum.
  - cbn [load_dashboard_data growth]. rewrite !Hsum. reflexivity.
  - intros u o Hu Hfk Hnd Hin Hid Hpend Hd Hc.
    destruct (update_order_status_logged_in order_id new_status now s u Hu Hfk)
      as (s' & e & -> & Hso & _).
    cbn [snd]. unfold pending_orders. rewrite Hso.
    rewrite <- (pending_after_update new_status now order_id start_date end_date
                  _ o Hnd Hin Hid Hpend Hd Hc).
    lia.
Qed.

Lemma dashboard_after_status_update_witness :
  let s' := snd (update_order_status 1 "Shipped" Sample.now Sample.as_admin) in
  pending_orders 1 31 (conn s') = pending_orders 1 31 (conn Sample.as_admin) - 1.
Proof.
  cbv zeta.
  destruct (dashboard_after_status_update 1 "Shipped" Sample.now 1 31
              Sample.as_admin) as (_ & _ & H).
  apply (H {| user0 := 1; user1 := "admin"; user2 := "Administrator";
              user3 := "admin@erp.com"; user4 := "Admin" |}
           (Sample.order 1 1 5 "Draft" 100)).
  - vm_compute. reflexivity.
  - vm_compute. reflexivity.
  - vm_compute. repeat constructor; cbn; intuition discriminate.
  - vm_compute. left. reflexivity.
  - reflexivity.
  - reflexivity.
  - discriminate.
  - discriminate.
Defined.

(** ** The file that [print_order] writes *)

Lemma prefix_pdf (s : string) :
  String.prefix ".pdf" s = true <-> exists rest, s = ".pdf" ++ rest.
Proof.
  split.
  - destruct s as [| c0 [| c1 [| c2 [| c3 rest]]]]; cbn [String.prefix];
      repeat match goal with
             | |- context [ascii_dec ?a ?b] => destruct (ascii_dec a b); subst
             end; try discriminate.
    intros _. exists rest. reflexivity.
  - intros (rest & ->). destruct rest; reflexivity.
Qed.

Lemma occurs_prefix (sub s : string) :
  String.prefix sub s = true -> occurs sub s = true.
Proof. intros H. destruct s; cbn [occurs]; rewrite H; reflexivity. Qed.

Lemma csv_path_pdf (rest : string) :
  csv_path (".pdf" ++ rest) = ".csv" ++ csv_path rest.
Proof. reflexivity. Qed.

Lemma csv_path_other (c : ascii) (tail : string) :
  String.prefix ".pdf" (String c tail) = false ->
  csv_path (String c tail) = String c (csv_path tail).
Proof.
  intros Hno.
  destruct tail as [| c1 [| c2 [| c3 rest]]]; try reflexivity.
  cbn [csv_path].
  destruct (Ascii.eqb c "." && Ascii.eqb c1 "p" && Ascii.eqb c2 "d"
            && Ascii.eqb c3 "f") eqn:E; [| reflexivity].
  rewrite !andb_true_iff, !Ascii.eqb_eq in E.
  destruct E as [[[-> ->] ->] ->].
  rewrite (proj2 (prefix_pdf _)) in Hno; [discriminate | eexists; reflexivity].
Qed.

(** Induction along the scan of [csv_path]. *)
Lemma csv_path_ind (P : string -> Prop) :
  P EmptyString ->
  (forall rest, P rest -> P (".pdf" ++ rest)) ->
  (forall c tail, String.prefix ".pdf" (String c tail) = false ->
                  P tail -> P (String c tail)) ->
  forall s, P s.
Proof.
  intros Hnil Hpdf Hother s.
  assert (forall n s, (String.length s <= n)%nat -> P s) as Hall.
  { clear s. induction n as [| n IH]; intros s Hlen.
    - destruct s; [exact Hnil | cbn in Hlen; lia].
    - destruct s as [| c tail]; [exact Hnil |].
      destruct (String.prefix ".pdf" (String c tail)) eqn:E.
      + apply prefix_pdf in E as (rest & E). injection E as -> ->.
        apply (Hpdf rest), IH.
        change (4 + String.length rest <= S n)%nat in Hlen. lia.
      + apply Hother; [exact E |]. apply IH. cbn in Hlen. lia. }
  exact (Hall (String.length s) s (le_n _)).
Qed.

Lemma csv_path_head (ch : ascii) (s y : string) :
  ch <> "."%char -> csv_path s = String ch y ->
  exists x, s = String ch x /\ y = csv_path x.
Proof.
  intros Hch Hs. destruct s as [| c tail]; [discriminate |].
  destruct (String.prefix ".pdf" (String c tail)) eqn:E.
  - apply prefix_pdf in E as (rest & E). rewrite E, csv_path_pdf in Hs.
    injection Hs as Hc _. congruence.
  - rewrite (csv_path_other _ _ E) in Hs. injection Hs as -> <-.
    exists tail. split; reflexivity.
Qed.

Lemma csv_path_no_new_pdf (c : ascii) (tail : string) :
  String.prefix ".pdf" (String c (csv_path tail)) = true ->
  String.prefix ".pdf" (String c tail) = true.
Proof.
  intros H. apply prefix_pdf in H as (rest & H). injection H as -> H.
  apply csv_path_head in H as (x1 & -> & H); [| discriminate].
  symmetry in H. apply csv_path_head in H as (x2 & -> & H); [| discriminate].
  symmetry in H. apply csv_path_head in H as (x3 & -> & H); [| discriminate].
  apply prefix_pdf. eexists. reflexivity.
Qed.

Lemma csv_path_length (s : string) :
  String.length (csv_path s) = String.length s.
Proof.
  pattern s; apply csv_path_ind; clear s;
    [| intros rest IH | intros c tail Hno IH].
  - reflexivity.
  - rewrite csv_path_pdf.
    change (4 + String.length (csv_path rest) = 4 + String.length rest)%nat.
    rewrite IH. reflexivity.
  - rewrite (csv_path_other _ _ Hno). cbn [String.length]. rewrite IH.
    reflexivity.
Qed.

Lemma csv_path_no_pdf (s : string) : occurs ".pdf" (csv_path s) = false.
Proof.
  pattern s; apply csv_path_ind; clear s;
    [| intros rest IH | intros c tail Hno IH].
  - reflexivity.
  - rewrite csv_path_pdf.
    change (".csv" ++ csv_path rest)
      with (String "." (String "c" (String "s" (String "v" (csv_path rest))))).
    cbn [occurs String.prefix].
    repeat match goal with
           | |- context [ascii_dec ?a ?b] =>
               destruct (ascii_dec a b); try discriminate
           end.
    all: exact IH.
  - rewrite (csv_path_other _ _ Hno). cbn [occurs]. rewrite IH, orb_false_r.
    destruct (String.prefix ".pdf" (String c (csv_path tail))) eqn:E;
      [| reflexivity].
    apply csv_path_no_new_pdf in E. congruence.
Qed.

Lemma csv_path_unchanged (s : string) :
  occurs ".pdf" s = false -> csv_path s = s.
Proof.
  pattern s; apply csv_path_ind; clear s;
    [| intros rest IH | intros c tail Hno IH]; intros Hocc.
  - reflexivity.
  - rewrite occurs_prefix in Hocc; [discriminate |].
    apply prefix_pdf. eexists. reflexivity.
  - rewrite (csv_path_other _ _ Hno). f_equal. apply IH.
    cbn [occurs] in Hocc. apply orb_false_iff in Hocc as [_ Hocc]. exact Hocc.
Qed.

Lemma prefix_pdf_append (c : ascii) (tail : string) :
  String.prefix ".pdf" (String c tail) = false ->
  String.prefix ".pdf" (String c tail ++ ".pdf") = false.
Proof.
  intros Hno.
  destruct (String.prefix ".pdf" (String c tail ++ ".pdf")) eqn:E; [| reflexivity].
  exfalso. apply prefix_pdf in E as (rest & E).
  destruct tail as [| c1 [| c2 [| c3 t]]]; cbn in E; try discriminate E.
  injection E as -> -> -> -> _.
  rewrite (proj2 (prefix_pdf _)) in Hno; [discriminate | eexists; reflexivity].
Qed.

Lemma csv_path_extension (base : string) :
  csv_path (base ++ ".pdf") = csv_path base ++ ".csv".
Proof.
  pattern base; apply csv_path_ind; clear base;
    [| intros rest IH | intros c tail Hno IH].
  - reflexivity.
  - change ((".pdf" ++ rest) ++ ".pdf") with (".pdf" ++ (rest ++ ".pdf")).
    rewrite !csv_path_pdf, IH. reflexivity.
  - rewrite (csv_path_other _ _ Hno).
    change (String c tail ++ ".pdf") with (String c (tail ++ ".pdf")).
    rewrite csv_path_other, IH; [reflexivity |].
    exact (prefix_pdf_append c tail Hno).
Qed.

(** X16.  The CSV that [print_order] writes goes to the chosen path with
    every ".pdf" in it, in a directory name as well, replaced by ".csv": the
    result is as long as the path, holds no ".pdf", and for a path that ends
    in ".pdf" it ends in ".csv"; a path without ".pdf" is kept as it is, so
    the file chosen is itself overwritten with the CSV. *)
Theorem csv_path_replaces_pdf (file_path : string) :
  String.length (csv_path file_path) = String.length file_path
  /\ occurs ".pdf" (csv_path file_path) = false
  /\ csv_path (file_path ++ ".pdf") = csv_path file_path ++ ".csv"
  /\ (occurs ".pdf" file_path = false -> csv_path file_path = file_path).
Proof.
  split; [apply csv_path_length |]. split; [apply csv_path_no_pdf |].
  split; [apply csv_path_extension | apply csv_path_unchanged].
Qed.

Lemma csv_path_replaces_pdf_witness :
  csv_path "/tmp/order_7.txt" = "/tmp/order_7.txt"
  /\ csv_path ("/home/me/scans.pdf/order_7" ++ ".pdf")
     = "/home/me/scans.csv/order_7.csv".
Proof.
  split.
  - apply (csv_path_replaces_pdf "/tmp/order_7.txt"). reflexivity.
  - destruct (csv_path_replaces_pdf "/home/me/scans.pdf/order_7")
      as (_ & _ & H & _).
    rewrite H. reflexivity.
Defined.

(** ** Editing a customer *)

Example strip_examples :
  strip ("  Pays late. " ++ nl) = "Pays late."
  /\ strip nl = EmptyString
  /\ strip (string_of_list_ascii (utf8 [194; 160; 32]%nat) ++ "net 30"
            ++ string_of_list_ascii (utf8 [226; 128; 137; 9]%nat))
     = "net 30"
  /\ List.length whitespace = 29%nat.
Proof. vm_compute. repeat split. Qed.

Lemma whitespace_not_nil (w : list ascii) : In w whitespace -> w <> [].
Proof.
  assert (forallb (fun w => negb (Nat.eqb (List.length w) 0)) whitespace = true)
    as H by (vm_compute; reflexivity).
  rewrite forallb_forall in H. intros Hw ->. specialize (H _ Hw). discriminate H.
Qed.

Lemma find_none_iff {A} (f : A -> bool) (l : list A) :
  List.find f l = None <-> forall x, In x l -> f x = false.
Proof.
  split; [apply find_none |]. intros H.
  destruct (List.find f l) as [x |] eqn:E; [| reflexivity].
  apply find_some in E as [Hin Hx]. rewrite (H x Hin) in Hx. discriminate.
Qed.

Lemma lstrip_from_done (fuel : nat) (l : list ascii) :
  (List.length l <= fuel)%nat ->
  List.find (fun w => bool_decide (w `prefix_of` lstrip_from fuel l)) whitespace
  = None.
Proof.
  revert l. induction fuel as [| fuel IH]; intros l Hlen; cbn [lstrip_from].
  - destruct l; [| cbn in Hlen; lia].
    apply find_none_iff. intros w Hw. apply bool_decide_eq_false.
    intros Hp. apply prefix_nil_inv in Hp.
    exact (whitespace_not_nil w Hw Hp).
  - destruct (List.find (fun w => bool_decide (w `prefix_of` l)) whitespace)
      as [w |] eqn:E; [| exact E].
    apply find_some in E as [Hw Hp]. apply bool_decide_eq_true in Hp.
    apply IH. rewrite length_drop.
    pose proof (whitespace_not_nil w Hw) as Hne.
    apply prefix_length in Hp. destruct w; [contradiction |]. cbn in *. lia.
Qed.

Lemma rstrip_from_done (fuel : nat) (l : list ascii) :
  (List.length l <= fuel)%nat ->
  List.find (fun w => bool_decide (w `suffix_of` rstrip_from fuel l)) whitespace
  = None.
Proof.
  revert l. induction fuel as [| fuel IH]; intros l Hlen; cbn [rstrip_from].
  - destruct l; [| cbn in Hlen; lia].
    apply find_none_iff. intros w Hw. apply bool_decide_eq_false.
    intros Hp. apply suffix_nil_inv in Hp.
    exact (whitespace_not_nil w Hw Hp).
  - destruct (List.find (fun w => bool_decide (w `suffix_of` l)) whitespace)
      as [w |] eqn:E; [| exact E].
    apply find_some in E as [Hw Hp]. apply bool_decide_eq_true in Hp.
    apply IH. rewrite length_take.
    pose proof (whitespace_not_nil w Hw) as Hne.
    apply suffix_length in Hp. destruct w; [contradiction |]. cbn in *. lia.
Qed.

Lemma rstrip_from_prefix (fuel : nat) (l : list ascii) :
  rstrip_from fuel l `prefix_of` l.
Proof.
  revert l. induction fuel as [| fuel IH]; intros l; cbn [rstrip_from];
    [reflexivity |].
  destruct (List.find _ whitespace) as [w |]; [| reflexivity].
  etransitivity; [apply IH | apply prefix_take].
Qed.

Lemma rstrip_from_clean (fuel : nat) (l : list ascii) :
  List.find (fun w => bool_decide (w `suffix_of` l)) whitespace = None ->
  rstrip_from fuel l = l.
Proof. intros H. destruct fuel; cbn [rstrip_from]; [| rewrite H]; reflexivity. Qed.

Lemma lstrip_from_clean (fuel : nat) (l : list ascii) :
  List.find (fun w => bool_decide (w `prefix_of` l)) whitespace = None ->
  lstrip_from fuel l = l.
Proof. intros H. destruct fuel; cbn [lstrip_from]; [| rewrite H]; reflexivity. Qed.

(** What [strip] returns has no whitespace at either end. *)
Lemma strip_clean (l : list ascii) :
  let t := rstrip (lstrip l) in
  List.find (fun w => bool_decide (w `prefix_of` t)) whitespace = None
  /\ List.find (fun w => bool_decide (w `suffix_of` t)) whitespace = None.
Proof.
  cbv zeta. split.
  - apply find_none_iff. intros w Hw. apply bool_decide_eq_false. intros Hp.
    pose proof (lstrip_from_done (List.length l) l (le_n _)) as Hdone.
    rewrite find_none_iff in Hdone. specialize (Hdone w Hw).
    apply bool_decide_eq_false in Hdone. apply Hdone.
    etransitivity; [exact Hp |]. apply rstrip_from_prefix.
  - apply rstrip_from_done. reflexivity.
Qed.

Lemma whitespace_newline (w : list ascii) :
  In w whitespace -> last w = Some "010"%char -> w = ["010"%char].
Proof.
  assert (forallb (fun w => negb (bool_decide (last w = Some "010"%char))
                            || bool_decide (w = ["010"%char])) whitespace = true)
    as H by (vm_compute; reflexivity).
  rewrite forallb_forall in H. intros Hw Hl. specialize (H _ Hw).
  rewrite (bool_decide_eq_true_2 _ Hl) in H. cbn in H.
  apply bool_decide_eq_true in H. exact H.
Qed.

Lemma newline_whitespace : In ["010"%char] whitespace.
Proof. vm_compute. tauto. Qed.

(** Text without whitespace at either end, a "010"%char added, is stripped to
    the text again. *)
Lemma strip_newline (t : list ascii) :
  List.find (fun w => bool_decide (w `prefix_of` t)) whitespace = None ->
  List.find (fun w => bool_decide (w `suffix_of` t)) whitespace = None ->
  rstrip (lstrip (t ++ ["010"%char])%list) = t.
Proof.
  intros Hp Hs.
  assert (forall w, In w whitespace -> w `suffix_of` (t ++ ["010"%char])%list ->
                    w = ["010"%char]) as Honly.
  { intros w Hw Hsuf. apply whitespace_newline; [exact Hw |].
    destruct Hsuf as [k Hk].
    destruct (decide (w = [])) as [-> | Hne];
      [exfalso; exact (whitespace_not_nil _ Hw eq_refl) |].
    destruct (exists_last Hne) as (w' & a & ->).
    rewrite app_assoc in Hk. apply app_inj_tail in Hk as [_ <-].
    apply last_snoc. }
  assert (rstrip (t ++ ["010"%char])%list = t) as Hr.
  { unfold rstrip. rewrite length_app. cbn [List.length].
    rewrite Nat.add_1_r. cbn [rstrip_from].
    destruct (List.find
                (fun w => bool_decide (w `suffix_of` (t ++ ["010"%char])%list))
                whitespace) as [w |] eqn:E.
    - apply find_some in E as [Hw Hsuf]. apply bool_decide_eq_true in Hsuf.
      rewrite (Honly w Hw Hsuf). cbn [List.length].
      rewrite length_app. cbn [List.length].
      replace (List.length t + 1 - 1)%nat with (List.length t) by lia.
      rewrite take_app_length. apply rstrip_from_clean, Hs.
    - exfalso. rewrite find_none_iff in E.
      specialize (E _ newline_whitespace). apply bool_decide_eq_false in E.
      apply E. exists t. reflexivity. }
  destruct t as [| a t].
  - vm_compute. reflexivity.
  - unfold lstrip. rewrite lstrip_from_clean; [exact Hr |].
    apply find_none_iff. intros w Hw. apply bool_decide_eq_false. intros Hpre.
    rewrite find_none_iff in Hp. specialize (Hp w Hw).
    apply bool_decide_eq_false in Hp.
    destruct Hpre as [k Hk].
    destruct (decide (k = [])) as [-> | Hk'].
    + rewrite app_nil_r in Hk.
      assert (w = ["010"%char]) as -> by (apply Honly; [exact Hw | rewrite Hk; reflexivity]).
      destruct t; discriminate Hk.
    + destruct (exists_last Hk') as (k' & b & ->).
      rewrite app_assoc in Hk. apply app_inj_tail in Hk as [Hk _].
      apply Hp. exists k'. exact Hk.
Qed.

Lemma list_ascii_of_string_app (a b : string) :
  list_ascii_of_string (a ++ b)
  = (list_ascii_of_string a ++ list_ascii_of_string b)%list.
Proof. induction a as [| c a IH]; cbn; [| rewrite <- IH]; reflexivity. Qed.

Lemma strip_strip (s : string) : strip (strip s ++ nl) = strip s.
Proof.
  unfold strip at 1.
  rewrite list_ascii_of_string_app. unfold strip.
  rewrite list_ascii_of_string_of_list_ascii.
  change (list_ascii_of_string nl) with ["010"%char].
  destruct (strip_clean (list_ascii_of_string s)) as [Hp Hs].
  rewrite (strip_newline _ Hp Hs). reflexivity.
Qed.

Lemma select_customer_Some (i : Z) (c : Customers.row) (db : Database) :
  select_customer i db = Some c -> In c (customers db) /\ Customers.id c = i.
Proof.
  unfold select_customer. intros H. apply find_some in H as [Hin Hid].
  split; [exact Hin | apply Z.eqb_eq, Hid].
Qed.

Lemma same_key_same_row {A K} (key : A -> K) (l : list A) (a b : A) :
  List.NoDup (List.map key l) -> In a l -> In b l -> key a = key b -> a = b.
Proof.
  induction l as [| x l IH]; intros Hnd Ha Hb Hk; [contradiction |].
  cbn in Hnd. apply List.NoDup_cons_iff in Hnd as [Hx Hnd].
  destruct Ha as [-> | Ha], Hb as [-> | Hb].
  - reflexivity.
  - exfalso. apply Hx. rewrite Hk. apply in_map, Hb.
  - exfalso. apply Hx. rewrite <- Hk. apply in_map, Ha.
  - exact (IH Hnd Ha Hb Hk).
Qed.

Lemma code_not_taken (i : Z) (c : Customers.row) (db : Database) :
  List.NoDup (List.map Customers.code (customers db)) ->
  In c (customers db) -> Customers.id c = i ->
  code_taken (Some i) (Customers.code c) db = false.
Proof.
  intros Hnd Hin Hid. unfold code_taken.
  destruct (existsb _ (customers db)) eqn:E; [| reflexivity].
  apply existsb_exists in E as (r & Hr & E).
  apply andb_true_iff in E as [Hcode Hother].
  apply String.eqb_eq in Hcode.
  rewrite (same_key_same_row Customers.code _ r c Hnd Hr Hin Hcode) in Hother.
  rewrite Hid, Z.eqb_refl in Hother. discriminate.
Qed.

Lemma check_status_not_empty (st : string) :
  check_status st = true -> st <> EmptyString.
Proof. intros H ->. discriminate H. Qed.

Lemma or_None_default (x : option string) :
  or_None (default EmptyString x) = x ≫= or_None.
Proof. destruct x; reflexivity. Qed.

Lemma map_row_of_id (i : Z) (c : Customers.row)
    (f : Customers.row -> Customers.row) (l : list Customers.row) :
  List.NoDup (List.map Customers.id l) -> In c l -> Customers.id c = i ->
  List.map (fun r => if Customers.id r =? i then f r else r) l
  = List.map (fun r => if Customers.id r =? i then f c else r) l.
Proof.
  intros Hnd Hin Hid. apply map_ext_in. intros r Hr.
  destruct (Customers.id r =? i) eqn:E; [| reflexivity].
  apply Z.eqb_eq in E.
  rewrite (same_key_same_row Customers.id l r c Hnd Hr Hin); congruence.
Qed.

(** The Save button of the edit dialog, the form left as loaded. *)
Lemma edit_save_row (i : Z) (c : Customers.row) (u : user_tuple)
    (now : string) (s : App) :
  current_user s = Some u ->
  existsb (fun x => Users.id x =? user0 u) (users (conn s)) = true ->
  i <> 0 ->
  select_customer i (conn s) = Some c ->
  List.NoDup (List.map Customers.id (customers (conn s))) ->
  List.NoDup (List.map Customers.code (customers (conn s))) ->
  Customers.code c <> EmptyString -> Customers.name c <> EmptyString ->
  (forall st, Customers.status c = Some st -> check_status st = true) ->
  exists s',
    save_customer (Some i) (customer_dialog (Some i) s) now s
    = (showinfo "Success" "Customer saved successfully", s')
    /\ customers (conn s')
       = List.map (fun r => if Customers.id r =? i then resaved now c else r)
                  (customers (conn s))
    /\ committed s' = conn s'
    /\ current_user s' = current_user s
    /\ users (conn s') = users (conn s).
Proof.
  intros Hu Hfk Hi Hsel Hnd Hcodes Hcode Hname Hst.
  destruct (select_customer_Some _ _ _ Hsel) as [Hin Hid].
  assert (check_status (default "Active" (Customers.status c)) = true) as Hck.
  { destruct (Customers.status c) as [st |]; [apply Hst |]; reflexivity. }
  unfold save_customer, customer_dialog, truthy.
  rewrite (proj2 (Z.eqb_neq i 0) Hi), Hsel. run.
  unfold validation_errors.
  cbn [Form.code Form.name Form.status Form.payment_terms Form.credit_limit
       mbind option_bind default from_option id].
  rewrite (proj2 (is_empty_false _) Hcode), (proj2 (is_empty_false _) Hname),
    (proj2 (is_empty_false _) (check_status_not_empty _ Hck)).
  cbn [app].
  assert (existsb (fun r => Customers.id r =? i) (customers (conn s)) = true)
    as Hex.
  { apply existsb_exists. exists c. split; [exact Hin |]. apply Z.eqb_eq, Hid. }
  unfold resaved.
  destruct (Customers.payment_terms c) as [pt |] eqn:Hpt;
    destruct (Customers.credit_limit c) as [cl |] eqn:Hcl;
    cbn -[insert_audit_log update_customers];
    unfold update_customers;
    cbn [Data.status Data.code];
    rewrite Hex, Hck, (code_not_taken i c _ Hcodes Hin Hid);
    cbn -[insert_audit_log]; rewrite Hu; cbn -[insert_audit_log].
  all: unfold insert_audit_log; cbn; rewrite Hfk; cbn.
  all: eexists; split; [reflexivity |]; cbn.
  all: split; [| split; [reflexivity | split; [exact Hu | reflexivity]]].
  all: rewrite (map_row_of_id i c _ _ Hnd Hin Hid).
  all: rewrite !or_None_default, Hid; reflexivity.
Qed.

(** X17.  Opening the edit dialog on a customer and pressing Save without
    touching the form does not give the row back as it was.  With a valid
    session and a row that satisfies the constraints of its table, the save
    succeeds and commits, every other row is kept, and in the row itself
    [code], [name], [payment_terms], [credit_limit], [created_by] and
    [created_at] are kept, [updated_at] is the time of the save, an empty
    optional text becomes NULL, a NULL [status] becomes 'Active', a NULL
    [currency] becomes 'USD' (and an empty one NULL), and [notes] is
    stripped, NULL becoming the empty text. *)
Theorem edit_save_untouched (i : Z) (c : Customers.row) (u : user_tuple)
    (now : string) (s : App) :
  current_user s = Some u ->
  existsb (fun x => Users.id x =? user0 u) (users (conn s)) = true ->
  i <> 0 ->
  select_customer i (conn s) = Some c ->
  List.NoDup (List.map Customers.id (customers (conn s))) ->
  List.NoDup (List.map Customers.code (customers (conn s))) ->
  Customers.code c <> EmptyString -> Customers.name c <> EmptyString ->
  (forall st, Customers.status c = Some st -> check_status st = true) ->
  let c' :=
    {| Customers.id := i;
       Customers.code := Customers.code c;
       Customers.name := Customers.name c;
       Customers.contact_person := Customers.contact_person c ≫= or_None;
       Customers.address := Customers.address c ≫= or_None;
       Customers.city := Customers.city c ≫= or_None;
       Customers.state := Customers.state c ≫= or_None;
       Customers.country := Customers.country c ≫= or_None;
       Customers.postal_code := Customers.postal_code c ≫= or_None;
       Customers.phone := Customers.phone c ≫= or_None;
       Customers.email := Customers.email c ≫= or_None;
       Customers.tax_id := Customers.tax_id c ≫= or_None;
       Customers.payment_terms := Customers.payment_terms c;
       Customers.credit_limit := Customers.credit_limit c;
       Customers.currency := or_None (default "USD" (Customers.currency c));
       Customers.status := Some (default "Active" (Customers.status c));
       Customers.notes :=
         Some (strip (default EmptyString (Customers.notes c) ++ nl));
       Customers.created_by := Customers.created_by c;
       Customers.created_at := Customers.created_at c;
       Customers.updated_at := Some now |} in
  exists s',
    edit_customer (Some i) None s = inr (Some i, customer_dialog (Some i) s)
    /\ save_customer (Some i) (customer_dialog (Some i) s) now s
       = (showinfo "Success" "Customer saved successfully", s')
    /\ customers (conn s')
       = List.map (fun r => if Customers.id r =? i then c' else r)
                  (customers (conn s))
    /\ committed s' = conn s'.
Proof.
  intros Hu Hfk Hi Hsel Hnd Hcodes Hcode Hname Hst c'.
  destruct (edit_save_row i c u now s Hu Hfk Hi Hsel Hnd Hcodes Hcode Hname Hst)
    as (s' & Hsave & Hcs & Hcommitted & _).
  destruct (select_customer_Some _ _ _ Hsel) as [_ Hid].
  exists s'. split; [| split; [exact Hsave | split; [| exact Hcommitted]]].
  - unfold edit_customer, truthy. rewrite (proj2 (Z.eqb_neq i 0) Hi).
    reflexivity.
  - rewrite Hcs. subst c'. unfold resaved. rewrite Hid. reflexivity.
Qed.

Lemma edit_save_untouched_witness :
  exists s',
    save_customer (Some 1) (customer_dialog (Some 1) Sample.as_admin)
      "2024-03-02 08:00:00" Sample.as_admin
    = (showinfo "Success" "Customer saved successfully", s')
    /\ Customers.notes <$> select_customer 1 (conn s') = Some (Some EmptyString)
    /\ Customers.updated_at <$> select_customer 1 (conn s')
       = Some (Some "2024-03-02 08:00:00").
Proof.
  destruct (edit_save_untouched 1 (Sample.customer 1 "C001" "Acme")
              {| user0 := 1; user1 := "admin"; user2 := "Administrator";
                 user3 := "admin@erp.com"; user4 := "Admin" |}
              "2024-03-02 08:00:00" Sample.as_admin)
    as (s' & _ & Hsave & Hcs & _).
  - vm_compute. reflexivity.
  - vm_compute. reflexivity.
  - discriminate.
  - vm_compute. reflexivity.
  - vm_compute. repeat constructor; cbn; intuition discriminate.
  - vm_compute. repeat constructor; cbn; intuition discriminate.
  - discriminate.
  - discriminate.
  - intros st [= <-]. reflexivity.
  - exists s'. split; [exact Hsave |]. unfold select_customer. rewrite Hcs.
    vm_compute. split; reflexivity.
Defined.

Lemma find_replaced (i : Z) (c' : Customers.row) (l : list Customers.row) :
  Customers.id c' = i ->
  List.find (fun r => Customers.id r =? i)
    (List.map (fun r => if Customers.id r =? i then c' else r) l)
  = (fun _ => c') <$> List.find (fun r => Customers.id r =? i) l.
Proof.
  intros Hid. induction l as [| r l IH]; [reflexivity |]. cbn [List.map List.find].
  destruct (Customers.id r =? i) eqn:E.
  - rewrite Hid, Z.eqb_refl. reflexivity.
  - rewrite E. exact IH.
Qed.

Lemma map_replaced {K} (key : Customers.row -> K) (i : Z)
    (c c' : Customers.row) (l : list Customers.row) :
  List.NoDup (List.map Customers.id l) -> In c l -> Customers.id c = i ->
  key c' = key c ->
  List.map key (List.map (fun r => if Customers.id r =? i then c' else r) l)
  = List.map key l.
Proof.
  intros Hnd Hin Hid Hkey. rewrite List.map_map. apply map_ext_in.
  intros r Hr. destruct (Customers.id r =? i) eqn:E; [| reflexivity].
  apply Z.eqb_eq in E.
  rewrite Hkey, (same_key_same_row Customers.id l r c Hnd Hr Hin); congruence.
Qed.

Lemma bind_or_None_idem (x : option string) :
  (x ≫= or_None) ≫= or_None = x ≫= or_None.
Proof. destruct x as [[| a x] |]; reflexivity. Qed.

Lemma resaved_resaved (now now' : string) (c : Customers.row) :
  Customers.currency c <> Some EmptyString ->
  resaved now' (resaved now c) = resaved now' c.
Proof.
  intros Hcur. unfold resaved.
  cbn [Customers.id Customers.code Customers.name Customers.contact_person
       Customers.address Customers.city Customers.state Customers.country
       Customers.postal_code Customers.phone Customers.email Customers.tax_id
       Customers.payment_terms Customers.credit_limit Customers.currency
       Customers.status Customers.notes Customers.created_by
       Customers.created_at Customers.updated_at].
  rewrite !bind_or_None_idem.
  cbn [default from_option id]. rewrite strip_strip.
  assert (or_None (default "USD"
                     (or_None (default "USD" (Customers.currency c))))
          = or_None (default "USD" (Customers.currency c))) as ->.
  { destruct (Customers.currency c) as [[| a x] |];
      [contradiction | reflexivity | reflexivity]. }
  reflexivity.
Qed.

(** X18.  Saving the untouched edit dialog a second time changes nothing but
    [updated_at]: after two such saves the customers table is what one save
    at the later time gives, provided the currency of the row was not the
    empty text.  A row whose currency is the empty text gets NULL from the
    first save and 'USD' from the second. *)
Theorem edit_save_twice (i : Z) (c : Customers.row) (u : user_tuple)
    (now now' : string) (s : App) :
  current_user s = Some u ->
  existsb (fun x => Users.id x =? user0 u) (users (conn s)) = true ->
  i <> 0 ->
  select_customer i (conn s) = Some c ->
  List.NoDup (List.map Customers.id (customers (conn s))) ->
  List.NoDup (List.map Customers.code (customers (conn s))) ->
  Customers.code c <> EmptyString -> Customers.name c <> EmptyString ->
  (forall st, Customers.status c = Some st -> check_status st = true) ->
  let save t s0 := save_customer (Some i) (customer_dialog (Some i) s0) t s0 in
  let once := snd (save now s) in
  let twice := snd (save now' once) in
  fst (save now' once) = showinfo "Success" "Customer saved successfully"
  /\ (Customers.currency c <> Some EmptyString ->
      customers (conn twice) = customers (conn (snd (save now' s))))
  /\ (Customers.currency c = Some EmptyString ->
      Customers.currency <$> select_customer i (conn once) = Some None
      /\ Customers.currency <$> select_customer i (conn twice)
         = Some (Some "USD")).
Proof.
  intros Hu Hfk Hi Hsel Hnd Hcodes Hcode Hname Hst save once twice.
  destruct (select_customer_Some _ _ _ Hsel) as [Hin Hid].
  destruct (edit_save_row i c u now s Hu Hfk Hi Hsel Hnd Hcodes Hcode Hname Hst)
    as (s1 & Hsave1 & Hcs1 & _ & Hu1 & Hus1).
  assert (once = s1) as Honce by (unfold once, save; rewrite Hsave1; reflexivity).
  assert (select_customer i (conn s1) = Some (resaved now c)) as Hsel1.
  { unfold select_customer. rewrite Hcs1, find_replaced; [| exact Hid].
    unfold select_customer in Hsel. rewrite Hsel. reflexivity. }
  assert (List.NoDup (List.map Customers.id (customers (conn s1)))) as Hnd1.
  { rewrite Hcs1, (map_replaced Customers.id i c (resaved now c) _ Hnd Hin Hid eq_refl).
    exact Hnd. }
  assert (List.NoDup (List.map Customers.code (customers (conn s1)))) as Hcodes1.
  { rewrite Hcs1, (map_replaced Customers.code i c (resaved now c) _ Hnd Hin Hid eq_refl).
    exact Hcodes. }
  assert (forall st, Customers.status (resaved now c) = Some st ->
                     check_status st = true) as Hst1.
  { intros st [= <-]. destruct (Customers.status c) as [st |];
      [apply Hst |]; reflexivity. }
  rewrite <- Hus1 in Hfk. rewrite <- Hu1 in Hu.
  destruct (edit_save_row i (resaved now c) u now' s1 Hu Hfk Hi Hsel1 Hnd1
              Hcodes1 Hcode Hname Hst1)
    as (s2 & Hsave2 & Hcs2 & _).
  assert (twice = s2) as Htwice
    by (unfold twice, save; rewrite Honce, Hsave2; reflexivity).
  split; [| split].
  - unfold save. rewrite Honce, Hsave2. reflexivity.
  - intros Hcur. rewrite Htwice, Hcs2, Hcs1.
    rewrite Hu1 in Hu. rewrite Hus1 in Hfk.
    destruct (edit_save_row i c u now' s Hu Hfk Hi Hsel Hnd Hcodes Hcode Hname
                Hst) as (s3 & Hsave3 & Hcs3 & _).
    unfold save. rewrite Hsave3. cbn [snd]. rewrite Hcs3, List.map_map.
    apply map_ext. intros r.
    destruct (Customers.id r =? i) eqn:E.
    + change (Customers.id (resaved now c)) with (Customers.id c).
      rewrite Hid, Z.eqb_refl. apply resaved_resaved, Hcur.
    + rewrite E. reflexivity.
  - intros Hcur. rewrite Honce, Htwice, Hsel1.
    unfold select_customer. rewrite Hcs2, find_replaced; [| exact Hid].
    unfold select_customer in Hsel1. rewrite Hsel1.
    cbn. rewrite Hcur. split; reflexivity.
Qed.

Lemma edit_save_twice_witness :
  let save t s0 := save_customer (Some 1) (customer_dialog (Some 1) s0) t s0 in
  customers (conn (snd (save "2024-03-03 08:00:00"
                          (snd (save "2024-03-02 08:00:00" Sample.as_admin)))))
  = customers (conn (snd (save "2024-03-03 08:00:00" Sample.as_admin))).
Proof.
  cbv zeta.
  destruct (edit_save_twice 1 (Sample.customer 1 "C001" "Acme")
              {| user0 := 1; user1 := "admin"; user2 := "Administrator";
                 user3 := "admin@erp.com"; user4 := "Admin" |}
              "2024-03-02 08:00:00" "2024-03-03 08:00:00" Sample.as_admin)
    as (_ & H & _).
  - vm_compute. reflexivity.
  - vm_compute. reflexivity.
  - discriminate.
  - vm_compute. reflexivity.
  - vm_compute. repeat constructor; cbn; intuition discriminate.
  - vm_compute. repeat constructor; cbn; intuition discriminate.
  - discriminate.
  - discriminate.
  - intros st [= <-]. reflexivity.
  - apply H. discriminate.
Defined.

(** ** Customer ids are not used twice *)

Lemma ids_stay_free_refl (db : Database) : ids_stay_free db db.
Proof. intros H. split; [exact H |]. split; [lia | auto]. Qed.

Lemma ids_stay_free_trans (db1 db2 db3 : Database) :
  ids_stay_free db1 db2 -> ids_stay_free db2 db3 -> ids_stay_free db1 db3.
Proof.
  intros H12 H23 H1. destruct (H12 H1) as (H2 & Hle12 & Hfree12).
  destruct (H23 H2) as (H3 & Hle23 & Hfree23).
  split; [exact H3 |]. split; [lia |].
  intros i Hi Hin. apply Hfree12; [exact Hi |]. apply Hfree23; [lia | exact Hin].
Qed.

Lemma ids_stay_free_same (db db' : Database) :
  customer_ids db' = customer_ids db -> seq_customers db' = seq_customers db ->
  ids_stay_free db db'.
Proof.
  intros Hids Hseq H. split; [| split; [lia | intros i _; rewrite Hids; auto]].
  unfold sequence_ahead in *. rewrite List.Forall_forall in *.
  intros c Hc. rewrite Hseq.
  assert (In (Customers.id c) (customer_ids db)) as Hin
    by (rewrite <- Hids; apply in_map, Hc).
  apply in_map_iff in Hin as (c0 & <- & Hc0). apply H, Hc0.
Qed.

Lemma insert_audit_log_ids user_id action table_name record_id t db db' :
  insert_audit_log user_id action table_name record_id t db = Ok db' ->
  ids_stay_free db db'.
Proof.
  unfold insert_audit_log. destruct (existsb _ (users db)); [| discriminate].
  intros [= <-]. apply ids_stay_free_same; reflexivity.
Qed.

Lemma update_customers_ids i data db db' :
  update_customers i data db = Ok db' -> ids_stay_free db db'.
Proof.
  unfold update_customers.
  destruct (existsb _ (customers db)); [| intros [= <-]; apply ids_stay_free_refl].
  destruct (negb _); [discriminate |].
  destruct (code_taken _ _ _); [discriminate |].
  intros [= <-]. apply ids_stay_free_same; [| reflexivity].
  unfold customer_ids. cbn. rewrite List.map_map. apply List.map_ext.
  intros c. destruct (Customers.id c =? i); reflexivity.
Qed.

Lemma insert_customers_ids data t db db' :
  insert_customers data t db = Ok db' -> ids_stay_free db db'.
Proof.
  unfold insert_customers.
  destruct (negb (check_status _)); [discriminate |].
  destruct (code_taken _ _ _); [discriminate |].
  destruct (negb (user_exists _ _)); [discriminate |].
  intros [= <-] H. unfold sequence_ahead, customer_ids in *. cbn.
  set (new := next_rowid (seq_customers db)
                (List.map Customers.id (customers db))).
  assert (seq_customers db < new) as Hnew by (unfold new, next_rowid; lia).
  rewrite List.Forall_forall in H.
  split; [| split; [lia |]].
  - apply List.Forall_forall. intros c Hc. apply in_app_or in Hc as [Hc | Hc].
    + specialize (H c Hc). lia.
    + destruct Hc as [<- | []]. cbn. lia.
  - intros i Hi Hin. rewrite List.map_app in Hin.
    apply in_app_or in Hin as [Hin | Hin]; [exact Hin |].
    destruct Hin as [<- | []]. cbn in Hi. lia.
Qed.

Lemma delete_customers_ids i db db' :
  delete_customers i db = Ok db' -> ids_stay_free db db'.
Proof.
  intros [= <-] H. unfold sequence_ahead, customer_ids in *. cbn.
  rewrite List.Forall_forall in *.
  split; [| split; [lia |]].
  - intros c Hc. apply filter_In in Hc as [Hc _]. apply H, Hc.
  - intros j _ Hin. apply in_map_iff in Hin as (c & <- & Hc).
    apply filter_In in Hc as [Hc _]. apply in_map, Hc.
Qed.

Lemma update_sales_orders_ids st t i db db' :
  update_sales_orders st t i db = Ok db' -> ids_stay_free db db'.
Proof. intros [= <-]. apply ids_stay_free_same; reflexivity. Qed.

Lemma update_last_login_ids_free t i db db' :
  update_last_login t i db = Ok db' -> ids_stay_free db db'.
Proof. intros [= <-]. apply ids_stay_free_same; reflexivity. Qed.

Lemma keeping_ids_refl s : keeping_ids s s.
Proof. apply ids_stay_free_refl. Qed.

Lemma keeping_ids_trans s1 s2 s3 :
  keeping_ids s1 s2 -> keeping_ids s2 s3 -> keeping_ids s1 s3.
Proof. apply ids_stay_free_trans. Qed.

Lemma keeping_ids_execute (stmt : Database -> result Database) :
  (forall db db', stmt db = Ok db' -> ids_stay_free db db') ->
  preserves keeping_ids (execute stmt).
Proof.
  intros Hstmt. apply preserves_execute; [apply keeping_ids_refl |].
  intros s db E. exact (Hstmt _ _ E).
Qed.

Lemma keeping_ids_modify (f : App -> App) :
  (forall s, conn (f s) = conn s) -> preserves keeping_ids (modify f).
Proof.
  intros Hf s. unfold keeping_ids, modify. cbn. rewrite Hf.
  apply ids_stay_free_refl.
Qed.

Lemma keeping_ids_commit : preserves keeping_ids commit.
Proof. intros s. apply ids_stay_free_refl. Qed.

Ltac keeping_ids_steps :=
  repeat first
    [ apply keeping_ids_commit
    | apply keeping_ids_modify; reflexivity
    | apply keeping_ids_execute;
      first [ apply insert_audit_log_ids | apply update_customers_ids
            | apply insert_customers_ids | apply delete_customers_ids
            | apply update_sales_orders_ids | apply update_last_login_ids_free ]
    | apply preserves_ret; apply keeping_ids_refl
    | apply preserves_raise; apply keeping_ids_refl
    | apply preserves_gets; apply keeping_ids_refl
    | apply preserves_convert; apply keeping_ids_refl
    | apply preserves_bind_parameters; apply keeping_ids_refl
    | apply preserves_show_dashboard; apply keeping_ids_refl
    | apply preserves_current_user_0; apply keeping_ids_refl
    | apply preserves_bind; [exact keeping_ids_trans | |]
    | match goal with
      | |- forall _, _ => intro
      | |- preserves _ (match ?x with _ => _ end) => destruct x
      | |- preserves _ (if ?b then _ else _) => destruct b
      | |- preserves _ (let _ := _ in _) => cbv zeta
      end ].

Lemma execute_command_keeping_ids c now s :
  keeping_ids s (snd (execute_command c now s)).
Proof.
  destruct c as [[customer_id form | selected confirm | username password | confirm]
                | order_id new_status]; cbn [execute_command perform].
  - unfold save_customer. apply (preserves_try_except keeping_ids).
    keeping_ids_steps.
  - unfold delete_customer.
    destruct selected as [[customer_id customer_name] |];
      [| apply keeping_ids_refl].
    destruct confirm; cbn [negb]; [| apply keeping_ids_refl].
    apply (preserves_try_except keeping_ids). keeping_ids_steps.
  - unfold do_login.
    destruct (is_empty username || is_empty password);
      [apply keeping_ids_refl |].
    apply (preserves_try_except keeping_ids). keeping_ids_steps.
  - unfold logout. destruct confirm; [| apply keeping_ids_refl].
    match goal with
    | |- context [match ?m s with _ => _ end] =>
        assert (preserves keeping_ids m) as Hm by keeping_ids_steps;
        specialize (Hm s); destruct (m s) as [[[] | e] s1]; exact Hm
    end.
  - unfold update_order_status. apply (preserves_try_except keeping_ids).
    keeping_ids_steps.
Qed.

Lemma run_commands_keeping_ids cs s : keeping_ids s (run_commands cs s).
Proof.
  revert s. induction cs as [| [c now] cs IH]; intros s; cbn [run_commands].
  - apply keeping_ids_refl.
  - eapply keeping_ids_trans; [apply execute_command_keeping_ids | apply IH].
Qed.

(** X19.  Customer ids are never used twice.  When the AUTOINCREMENT
    sequence is at least every id in the table, as SQLite keeps it, this
    stays so through every sequence of operations, and an id that the
    sequence has passed and that is not in the table never comes into it: a
    customer created later gets a larger id.  In particular the id of a
    customer that [delete_customer] removed, which the audit log still
    names, never denotes another customer. *)
Theorem customer_ids_never_reused (cs : list (command * string)) (s : App) :
  sequence_ahead (conn s) ->
  sequence_ahead (conn (run_commands cs s))
  /\ (forall i, i <= seq_customers (conn s) ->
        ~ In i (customer_ids (conn s)) ->
        ~ In i (customer_ids (conn (run_commands cs s))))
  /\ (forall i name now s',
        In i (customer_ids (conn s)) ->
        delete_customer (Some (i, name)) true now s
        = (showinfo "Success" "Customer deleted successfully", s') ->
        ~ In i (customer_ids (conn (run_commands cs s')))).
Proof.
  intros Hinv.
  destruct (run_commands_keeping_ids cs s Hinv) as (Hinv' & _ & Hfree).
  split; [exact Hinv' |]. split.
  - intros i Hi Hnot Hin. exact (Hnot (Hfree i Hi Hin)).
  - intros i name now s' Hin Hdel.
    pose proof (execute_command_keeping_ids
                  (Perform (DeleteCustomer (Some (i, name)) true)) now s Hinv)
      as (Hinv1 & Hle & _).
    cbn [execute_command perform] in Hinv1, Hle. rewrite Hdel in Hinv1, Hle.
    cbn [snd] in Hinv1, Hle.
    destruct (run_commands_keeping_ids cs s' Hinv1) as (_ & _ & Hfree1).
    intros Hin'. apply Hfree1 in Hin'.
    + revert Hin'. revert Hdel. unfold delete_customer. cbn [negb]. run. cbv beta.
      destruct (0 <? order_count i (conn s)); [discriminate |].
      cbn -[insert_audit_log].
      destruct (current_user s) as [u |]; cbn -[insert_audit_log];
        [| discriminate].
      destruct (insert_audit_log _ _ _ _ _ _) as [db2 |] eqn:Haudit; cbn;
        [| discriminate].
      apply insert_audit_log_inv in Haudit as (Hcs & _).
      intros [= <-]. unfold customer_ids. cbn. rewrite Hcs. cbn.
      intros Hin'. apply in_map_iff in Hin' as (c & Hc & Hf).
      apply filter_In in Hf as [_ Hf]. rewrite Hc, Z.eqb_refl in Hf.
      discriminate.
    + unfold sequence_ahead in Hinv. rewrite List.Forall_forall in Hinv.
      apply in_map_iff in Hin as (c & <- & Hc). specialize (Hinv c Hc). lia.
Qed.

Lemma customer_ids_never_reused_witness :
  let s' := snd (delete_customer (Some (2, "Beta")) true Sample.now
                   Sample.as_admin) in
  let create := Perform (SaveCustomer None (Sample.form "C003" "Gamma" "Active")) in
  customer_ids (conn (run_commands [(create, Sample.now)] s')) = [1; 3]
  /\ ~ In 2 (customer_ids (conn (run_commands [(create, Sample.now)] s'))).
Proof.
  cbv zeta. split; [vm_compute; reflexivity |].
  destruct (customer_ids_never_reused
              [(Perform (SaveCustomer None (Sample.form "C003" "Gamma" "Active")),
                Sample.now)] Sample.as_admin) as (_ & _ & H).
  - apply List.Forall_forall. intros c Hc. vm_compute in Hc.
    destruct Hc as [<- | [<- | []]]; vm_compute; discriminate.
  - apply (H 2 "Beta" Sample.now).
    + vm_compute. tauto.
    + vm_compute. reflexivity.
Defined.
